(** * javaManager: lifecycle of a JDK and a Tomcat on one host

    A shallow embedding of the Node.js sources

      - src/upgrade.js    (module [Upgrade])
      - src/install.js    (module [Install])
      - src/rollback.js   (module [Rollback])
      - src/uninstall.js  (module [Uninstall])
      - bin/mavee_updater_cli.js (module [Cli])

    The program drives the host through shell commands.  The host is a
    record ([Host]); every `exec` is an evaluation of a small shell script
    ([Sh]) over that record; the asynchronous JavaScript functions become
    computations in a state monad with exceptions and process exit ([M]). *)

From Stdlib Require Import ZArith Ascii String.
From stdpp Require Import gmap strings list fin_maps.

Open Scope string_scope.
Open Scope list_scope.

(** ** Text utilities used by the shell pipelines *)

Module Text.

(** The double quote character, which the unit files and the environment
    declarations of install.js and rollback.js contain. *)
Definition dq : string := String (Ascii.Ascii false true false false false true false false) EmptyString.

(** The newline that separates the lines of a command's output. *)
Definition nl : string := String (Ascii.Ascii false true false true false false false false) EmptyString.

Fixpoint drop_chars (n : nat) (s : string) : string :=
  match n, s with
  | O, _ => s
  | S n', String _ s' => drop_chars n' s'
  | S _, EmptyString => EmptyString
  end.

(** `grep 'pat'` selects the lines in which [pat] occurs. *)
Fixpoint contains (pat s : string) : bool :=
  String.prefix pat s ||
  match s with
  | EmptyString => false
  | String _ s' => contains pat s'
  end.

(** `grep 'pat'` when [pat] holds a version: a dot of the pattern matches
    any character, the other characters of a version stand for
    themselves. *)
Fixpoint dots_prefix (pat s : string) : bool :=
  match pat, s with
  | EmptyString, _ => true
  | String _ _, EmptyString => false
  | String p pat', String c s' =>
      (Ascii.eqb p "." || Ascii.eqb p c) && dots_prefix pat' s'
  end.

Fixpoint dots_match (pat s : string) : bool :=
  dots_prefix pat s ||
  match s with
  | EmptyString => false
  | String _ s' => dots_match pat s'
  end.

(** A name that ends in [suf], as the glob `*suf` requires. *)
Definition ends_with (suf s : string) : bool :=
  String.eqb (drop_chars (String.length s - String.length suf) s) suf.

(** `sed 's/pat//'` and JavaScript's `s.replace(pat, '')` with a string
    pattern: the first occurrence of [pat] is deleted. *)
Fixpoint strip_first (pat s : string) : string :=
  if String.prefix pat s then drop_chars (String.length pat) s
  else match s with
       | EmptyString => EmptyString
       | String c s' => String c (strip_first pat s')
       end.

(** JavaScript's `s.split("\n")`. *)
Fixpoint split_lines_aux (cur : string) (s : string) : list string :=
  match s with
  | EmptyString => [cur]
  | String c s' =>
      if Ascii.eqb c (Ascii.Ascii false true false true false false false false)
      then cur :: split_lines_aux EmptyString s'
      else split_lines_aux (cur +:+ String c EmptyString) s'
  end.

Definition split_lines (s : string) : list string := split_lines_aux EmptyString s.

Fixpoint join_lines (l : list string) : string :=
  match l with
  | [] => EmptyString
  | [x] => x
  | x :: r => x +:+ nl +:+ join_lines r
  end.

(** `ls` lists names in byte order. *)
Fixpoint insert_by (le : string -> string -> bool) (x : string) (l : list string) : list string :=
  match l with
  | [] => [x]
  | y :: r => if le x y then x :: y :: r else y :: insert_by le x r
  end.

Definition sort_by (le : string -> string -> bool) (l : list string) : list string :=
  foldr (insert_by le) [] l.

Definition sort_names : list string -> list string := sort_by String.leb.

(** `sort -V` compares two names as gnulib's `filevercmp` does (GNU
    coreutils 9.1).  A name is first cut before its file suffixes, the
    longest ending made of groups of a dot, a letter or `~`, and then
    letters, digits and `~`; the two prefixes are compared, and the whole
    names when the prefixes compare equal. *)
Definition is_digit (c : ascii) : bool :=
  let n := nat_of_ascii c in (48 <=? n)%nat && (n <=? 57)%nat.

Definition is_alpha (c : ascii) : bool :=
  let n := nat_of_ascii c in
  (65 <=? n)%nat && (n <=? 90)%nat || (97 <=? n)%nat && (n <=? 122)%nat.

Definition is_alnum (c : ascii) : bool := is_digit c || is_alpha c.

Definition is_tilde (c : ascii) : bool := Ascii.eqb c "~".
Definition is_dot (c : ascii) : bool := Ascii.eqb c ".".

(** [only_suffixes GroupStart s]: [s] is a sequence of file suffixes, each
    a dot, a letter or `~`, then letters, digits and `~`. *)
Inductive SuffixState := GroupStart | AfterDot | InGroup.

Fixpoint only_suffixes (st : SuffixState) (s : string) : bool :=
  match s with
  | EmptyString => match st with AfterDot => false | _ => true end
  | String c r =>
      match st with
      | GroupStart => is_dot c && only_suffixes AfterDot r
      | AfterDot => (is_alpha c || is_tilde c) && only_suffixes InGroup r
      | InGroup =>
          if is_dot c then only_suffixes AfterDot r
          else (is_alnum c || is_tilde c) && only_suffixes InGroup r
      end
  end.

(** `file_prefixlen`: the name without its file suffixes. *)
Fixpoint file_prefix (s : string) : string :=
  if only_suffixes GroupStart s then EmptyString
  else match s with
       | EmptyString => EmptyString
       | String c r => String c (file_prefix r)
       end.

(** `order`: the rank of the first byte: `~` first, then the end of the
    name, then digits, letters, and the other bytes. *)
Definition ver_order (s : string) : Z :=
  match s with
  | EmptyString => (-1)%Z
  | String c _ =>
      if is_digit c then 0%Z
      else if is_alpha c then Z.of_nat (nat_of_ascii c)
      else if is_tilde c then (-2)%Z
      else (Z.of_nat (nat_of_ascii c) + 256)%Z
  end.

Definition starts_digit (s : string) : bool :=
  match s with String c _ => is_digit c | EmptyString => false end.

Definition starts_other (s : string) : bool :=
  match s with String c _ => negb (is_digit c) | EmptyString => false end.

Definition str_tail (s : string) : string :=
  match s with String _ r => r | EmptyString => EmptyString end.

(** The first loop of `verrevcmp`: while one of the two names is at a byte
    that is no digit, the ranks of the two bytes are compared; a difference
    decides, otherwise both names advance. *)
Fixpoint ver_others (s1 s2 : string) : Z + string * string :=
  match s1 with
  | EmptyString =>
      if starts_other s2 then inl (ver_order s1 - ver_order s2)%Z else inr (s1, s2)
  | String c r1 =>
      if negb (is_digit c) || starts_other s2
      then if (ver_order s1 =? ver_order s2)%Z then ver_others r1 (str_tail s2)
           else inl (ver_order s1 - ver_order s2)%Z
      else inr (s1, s2)
  end.

Fixpoint skip_zeros (s : string) : string :=
  match s with
  | String c r => if Ascii.eqb c "0" then skip_zeros r else s
  | EmptyString => s
  end.

(** The loop over two runs of digits of the same length so far; the first
    difference is remembered. *)
Fixpoint ver_digits (first_diff : Z) (s1 s2 : string) : Z * (string * string) :=
  match s1, s2 with
  | String c1 r1, String c2 r2 =>
      if is_digit c1 && is_digit c2
      then ver_digits (if (first_diff =? 0)%Z
                       then (Z.of_nat (nat_of_ascii c1) - Z.of_nat (nat_of_ascii c2))%Z
                       else first_diff) r1 r2
      else (first_diff, (s1, s2))
  | _, _ => (first_diff, (s1, s2))
  end.

(** `verrevcmp`; every round of its outer loop consumes a byte of one of
    the names, so their lengths bound the number of rounds. *)
Fixpoint verrevcmp (rounds : nat) (s1 s2 : string) : Z :=
  match rounds with
  | O => 0%Z
  | S rounds' =>
      match s1, s2 with
      | EmptyString, EmptyString => 0%Z
      | _, _ =>
          match ver_others s1 s2 with
          | inl d => d
          | inr (a, b) =>
              let '(first_diff, (a', b')) := ver_digits 0 (skip_zeros a) (skip_zeros b) in
              if starts_digit a' then 1%Z
              else if starts_digit b' then (-1)%Z
              else if negb (first_diff =? 0)%Z then first_diff
              else verrevcmp rounds' a' b'
          end
      end
  end.

Definition vercmp (s1 s2 : string) : Z :=
  verrevcmp (S (String.length s1 + String.length s2)) s1 s2.

(** `filevercmp`: the empty name first, then `.`, `..` and the other names
    with a leading dot, then the rest. *)
Definition filevercmp (a b : string) : Z :=
  match a, b with
  | EmptyString, EmptyString => 0%Z
  | EmptyString, _ => (-1)%Z
  | _, EmptyString => 1%Z
  | String ca _, String cb _ =>
      let special :=
        if is_dot ca
        then if negb (is_dot cb) then Some (-1)%Z
             else if String.eqb a "." then Some (if String.eqb b "." then 0 else -1)%Z
             else if String.eqb b "." then Some 1%Z
             else if String.eqb a ".." then Some (if String.eqb b ".." then 0 else -1)%Z
             else if String.eqb b ".." then Some 1%Z
             else None
        else if is_dot cb then Some 1%Z else None in
      match special with
      | Some r => r
      | None =>
          let r := vercmp (file_prefix a) (file_prefix b) in
          if (r =? 0)%Z then vercmp a b else r
      end
  end.

(** The order of `sort -V`: names that `filevercmp` takes for equal are
    ordered by their bytes (the last-resort comparison of `sort` in the C
    locale). *)
Definition version_leb (a b : string) : bool :=
  let d := filevercmp a b in
  if (d <? 0)%Z then true else if (0 <? d)%Z then false else String.leb a b.

Definition sort_versions : list string -> list string := sort_by version_leb.

(** `head -n 1` and `tail -n 1` of a list of lines; no line gives the
    empty output. *)
Definition first_line (l : list string) : string := default EmptyString (head l).
Definition last_line (l : list string) : string := default EmptyString (last l).

(** JavaScript truthiness of a string. *)
Definition nonempty (s : string) : bool :=
  match s with EmptyString => false | _ => true end.

(** The regular expressions given to `sed -i '/re/d'`. *)
Inductive Regex :=
| ReStarts (p : string)                 (* ^p *)
| ReHas (p : string)                    (* p *)
| ReStartsHas (p q : string).           (* ^p.*q *)

Definition re_match (re : Regex) (line : string) : bool :=
  match re with
  | ReStarts p => String.prefix p line
  | ReHas p => contains p line
  | ReStartsHas p q => String.prefix p line && contains q (drop_chars (String.length p) line)
  end.

End Text.

Export Text.

(** ** The host *)

(** A distribution archive: the name of its top-level folder and a tag
    standing for its content. *)
Record Archive := { top : string; payload : string }.

(** The fields read from mavee_config_upgrade.json / mavee_config_install.json. *)
Record Config := {
  javaVersion : string;
  javaUrl : string;
  tomcatVersion : string;
  tomcatUrl : string
}.

(** The three directories whose entries the program lists, copies and
    removes: /opt, /opt/java_backups and /opt/tomcat_backups.  The two backup
    roots are entries of /opt as well, but none of the patterns the program
    greps or globs for (openjdk-, tomcat-, jdk-, jdk, apache-tomcat-) occurs
    in their names, so they are kept in fields of their own. *)
Inductive Area := Opt | JavaBackups | TomcatBackups.

Record Host := {
  opt : gmap string string;                       (* entry of /opt -> content *)
  java_backups : option (gmap string string);     (* None: the directory is missing *)
  tomcat_backups : option (gmap string string);
  tmp : gmap string Archive;                      (* archives under /tmp *)
  files : gmap string (list string);              (* text files, as lines *)
  units : gmap string string;                     (* /etc/systemd/system *)
  enabled : gset string;                          (* enabled systemd units *)
  active : gset string;                           (* active systemd units *)
  procs : gset string;                            (* /opt entries with a running catalina *)
  has_group : bool;                               (* group tomcat exists *)
  has_user : bool;                                (* user tomcat exists *)
  env_java_home : string;                         (* $JAVA_HOME of the node process *)
  env_user : string;                              (* $USER || $LOGNAME, empty when unset *)
  upgrade_cfg : option Config;                    (* mavee_config_upgrade.json *)
  prev_versions : option (string * string)        (* previous_versions.json *)
}.

Definition set_opt (v : gmap string string) (h : Host) : Host :=
  {| opt := v; java_backups := java_backups h; tomcat_backups := tomcat_backups h;
     tmp := tmp h; files := files h; units := units h; enabled := enabled h;
     active := active h; procs := procs h; has_group := has_group h;
     has_user := has_user h; env_java_home := env_java_home h; env_user := env_user h;
     upgrade_cfg := upgrade_cfg h; prev_versions := prev_versions h |}.

Definition set_java_backups (v : option (gmap string string)) (h : Host) : Host :=
  {| opt := opt h; java_backups := v; tomcat_backups := tomcat_backups h;
     tmp := tmp h; files := files h; units := units h; enabled := enabled h;
     active := active h; procs := procs h; has_group := has_group h;
     has_user := has_user h; env_java_home := env_java_home h; env_user := env_user h;
     upgrade_cfg := upgrade_cfg h; prev_versions := prev_versions h |}.

Definition set_tomcat_backups (v : option (gmap string string)) (h : Host) : Host :=
  {| opt := opt h; java_backups := java_backups h; tomcat_backups := v;
     tmp := tmp h; files := files h; units := units h; enabled := enabled h;
     active := active h; procs := procs h; has_group := has_group h;
     has_user := has_user h; env_java_home := env_java_home h; env_user := env_user h;
     upgrade_cfg := upgrade_cfg h; prev_versions := prev_versions h |}.

Definition set_tmp (v : gmap string Archive) (h : Host) : Host :=
  {| opt := opt h; java_backups := java_backups h; tomcat_backups := tomcat_backups h;
     tmp := v; files := files h; units := units h; enabled := enabled h;
     active := active h; procs := procs h; has_group := has_group h;
     has_user := has_user h; env_java_home := env_java_home h; env_user := env_user h;
     upgrade_cfg := upgrade_cfg h; prev_versions := prev_versions h |}.

Definition set_files (v : gmap string (list string)) (h : Host) : Host :=
  {| opt := opt h; java_backups := java_backups h; tomcat_backups := tomcat_backups h;
     tmp := tmp h; files := v; units := units h; enabled := enabled h;
     active := active h; procs := procs h; has_group := has_group h;
     has_user := has_user h; env_java_home := env_java_home h; env_user := env_user h;
     upgrade_cfg := upgrade_cfg h; prev_versions := prev_versions h |}.

Definition set_units (v : gmap string string) (h : Host) : Host :=
  {| opt := opt h; java_backups := java_backups h; tomcat_backups := tomcat_backups h;
     tmp := tmp h; files := files h; units := v; enabled := enabled h;
     active := active h; procs := procs h; has_group := has_group h;
     has_user := has_user h; env_java_home := env_java_home h; env_user := env_user h;
     upgrade_cfg := upgrade_cfg h; prev_versions := prev_versions h |}.

Definition set_enabled (v : gset string) (h : Host) : Host :=
  {| opt := opt h; java_backups := java_backups h; tomcat_backups := tomcat_backups h;
     tmp := tmp h; files := files h; units := units h; enabled := v;
     active := active h; procs := procs h; has_group := has_group h;
     has_user := has_user h; env_java_home := env_java_home h; env_user := env_user h;
     upgrade_cfg := upgrade_cfg h; prev_versions := prev_versions h |}.

Definition set_active (v : gset string) (h : Host) : Host :=
  {| opt := opt h; java_backups := java_backups h; tomcat_backups := tomcat_backups h;
     tmp := tmp h; files := files h; units := units h; enabled := enabled h;
     active := v; procs := procs h; has_group := has_group h;
     has_user := has_user h; env_java_home := env_java_home h; env_user := env_user h;
     upgrade_cfg := upgrade_cfg h; prev_versions := prev_versions h |}.

Definition set_procs (v : gset string) (h : Host) : Host :=
  {| opt := opt h; java_backups := java_backups h; tomcat_backups := tomcat_backups h;
     tmp := tmp h; files := files h; units := units h; enabled := enabled h;
     active := active h; procs := v; has_group := has_group h;
     has_user := has_user h; env_java_home := env_java_home h; env_user := env_user h;
     upgrade_cfg := upgrade_cfg h; prev_versions := prev_versions h |}.

Definition set_group (v : bool) (h : Host) : Host :=
  {| opt := opt h; java_backups := java_backups h; tomcat_backups := tomcat_backups h;
     tmp := tmp h; files := files h; units := units h; enabled := enabled h;
     active := active h; procs := procs h; has_group := v;
     has_user := has_user h; env_java_home := env_java_home h; env_user := env_user h;
     upgrade_cfg := upgrade_cfg h; prev_versions := prev_versions h |}.

Definition set_user (v : bool) (h : Host) : Host :=
  {| opt := opt h; java_backups := java_backups h; tomcat_backups := tomcat_backups h;
     tmp := tmp h; files := files h; units := units h; enabled := enabled h;
     active := active h; procs := procs h; has_group := has_group h;
     has_user := v; env_java_home := env_java_home h; env_user := env_user h;
     upgrade_cfg := upgrade_cfg h; prev_versions := prev_versions h |}.

Definition set_prev (v : option (string * string)) (h : Host) : Host :=
  {| opt := opt h; java_backups := java_backups h; tomcat_backups := tomcat_backups h;
     tmp := tmp h; files := files h; units := units h; enabled := enabled h;
     active := active h; procs := procs h; has_group := has_group h;
     has_user := has_user h; env_java_home := env_java_home h; env_user := env_user h;
     upgrade_cfg := upgrade_cfg h; prev_versions := v |}.

Definition area (a : Area) (h : Host) : option (gmap string string) :=
  match a with
  | Opt => Some (opt h)
  | JavaBackups => java_backups h
  | TomcatBackups => tomcat_backups h
  end.

Definition set_area (a : Area) (d : gmap string string) (h : Host) : Host :=
  match a with
  | Opt => set_opt d h
  | JavaBackups => set_java_backups (Some d) h
  | TomcatBackups => set_tomcat_backups (Some d) h
  end.

Definition drop_area (a : Area) (h : Host) : Host :=
  match a with
  | Opt => h
  | JavaBackups => set_java_backups None h
  | TomcatBackups => set_tomcat_backups None h
  end.

(** `fs.existsSync` of a directory entry. *)
Definition exists_in (a : Area) (name : string) (h : Host) : bool :=
  match area a h with
  | Some d => match d !! name with Some _ => true | None => false end
  | None => false
  end.

Arguments area !a h /.
Arguments set_area !a d h /.
Arguments drop_area !a h /.
Arguments exists_in !a name h /.

Definition names_of {A} (d : gmap string A) : list string :=
  sort_names (map fst (map_to_list d)).

(** `ls` of an area; a missing directory lists nothing. *)
Definition ls (a : Area) (h : Host) : list string :=
  match area a h with
  | Some d => names_of d
  | None => []
  end.

Definition grep (pat : string) (l : list string) : list string :=
  filter (fun n => contains pat n = true) l.

(** `grep -v 'pat'` drops the lines that match [pat], a fixed text followed
    by a version. *)
Definition grep_v (pat : string) (l : list string) : list string :=
  filter (fun n => dots_match pat n = false) l.

(** Names of the text files the program edits. *)
Definition etc_profile : string := "/etc/profile".
Definition etc_environment : string := "/etc/environment".
Definition bashrc : string := "~/.bashrc".
Definition bash_profile : string := "~/.bash_profile".
Definition zshrc : string := "~/.zshrc".

(** ** Shell commands *)

(** The simple commands and pipelines the program passes to `exec`, with the
    arguments that vary.  `sudo` is left out: it does not change what a
    command does to the host. *)
Inductive Prim :=
(* listings *)
| LsGrepHead (a : Area) (pat : string)        (* ls a | grep 'pat' | head -n 1 *)
| LsGrepSedHead (a : Area) (pat : string)     (* ls a | grep 'pat' | sed 's/pat//' | head -n 1 *)
| LsGrepSortTail (a : Area) (pat : string)    (* ls a | grep 'pat' | sort -V | tail -n 1 *)
| LsUnitsOld (pat excl : string)              (* ls /etc/systemd/system | grep 'pat' | grep -v 'excl' *)
(* directories *)
| MkdirP (a : Area)                           (* mkdir -p a *)
| MkdirOpt (name : string)                    (* mkdir -p /opt/name *)
| RmRf (a : Area) (name : string)             (* rm -rf a/name *)
| RmRfArea (a : Area)                         (* rm -rf a *)
| RmRfGlob (pre : string)                     (* rm -rf /opt/pre* *)
| CpR (a : Area) (src : string) (b : Area) (dst : string)   (* cp -r a/src b/dst *)
| Mv (src dst : string)                       (* mv /opt/src /opt/dst *)
(* archives *)
| Wget (url file : string)                    (* wget -q url -O file *)
| TarX (file : string)                        (* tar -xzf file -C /opt *)
| TarXStrip (file name : string)              (* tar -xzf file -C /opt/name --strip-components=1 *)
| RmF (file : string)                         (* rm -f file *)
(* text files *)
| SedDelete (re : Regex) (file : string)      (* sed -i '/re/d' file *)
| Tee (line file : string)                    (* echo 'line' | tee file *)
| TeeAppend (line file : string)              (* echo 'line' | tee -a file *)
| Source (file : string)                      (* . file *)
| EchoJavaHome                                (* echo $JAVA_HOME *)
(* the tomcat account *)
| GetentGroup                                 (* getent group tomcat *)
| Groupadd                                    (* groupadd tomcat *)
| IdU                                         (* id -u tomcat *)
| Useradd                                     (* useradd ... tomcat *)
| Adduser                                     (* adduser --system --no-create-home --group tomcat *)
| Chown (name : string)                       (* chown -R tomcat:tomcat /opt/name *)
| Chmod755 (name : string)                    (* chmod -R 755 /opt/name *)
| ChmodX (name : string)                      (* chmod -R +x /opt/name/bin/*.sh *)
(* systemd and catalina *)
| TeeUnit (unit content : string)             (* echo 'content' | tee /etc/systemd/system/unit *)
| ChmodUnit (unit : string)                   (* chmod 644 /etc/systemd/system/unit *)
| ChownUnit (unit : string)                   (* chown root:root /etc/systemd/system/unit *)
| RmFUnit (unit : string)                     (* rm -f /etc/systemd/system/unit *)
| RmFUnitGlob (pre : string)                  (* rm -f /etc/systemd/system/pre*.service *)
| ServiceRestart (svc : string)               (* service svc restart *)
| SystemctlEnable (svc : string)              (* systemctl enable svc *)
| SystemctlRestart (svc : string)             (* systemctl restart svc *)
| SystemctlStopGlob (pre : string)            (* systemctl stop pre* *)
| SystemctlDisableGlob (pre : string)         (* systemctl disable pre* *)
| ListUnitsHas (pat : string)                 (* systemctl list-units --type=service | grep -q 'pat' *)
| ListUnitFilesHas (pat : string)             (* systemctl list-unit-files | grep -q 'pat' *)
| Shutdown (name : string)                    (* /opt/name/bin/shutdown.sh *)
| Startup (name : string)                     (* /opt/name/bin/startup.sh *)
| KillTomcat                                  (* ps aux | grep -i tomcat | ... | xargs kill -9 *)
(* previous_versions.json, through the shell and through `fs` *)
| ChownPrev | ChmodPrev | RmFPrev
| FsWritePrev (java tomcat : string)          (* fs.writeFileSync(versionsFilePath, ...) *)
| FsChmodPrev | FsChownPrev | FsUnlinkPrev
| FsWriteUnit (unit content : string)         (* fs.writeFileSync(serviceFilePath, ...) *)
(* commands without an effect on the modelled part of the host: dnf,
   systemctl daemon-reload, bash -c "source /etc/profile", unset, ... *)
| Untracked (what : string).

(** What `exec` reports: the exit status, the host afterwards and stdout
    (without the final newline, which `stdout.trim()` removes). *)
Record ShRes := { ok : bool; hst : Host; out : string }.

Definition done_ok (h : Host) : ShRes := {| ok := true; hst := h; out := EmptyString |}.
Definition failed (h : Host) : ShRes := {| ok := false; hst := h; out := EmptyString |}.
Definition says (s : string) (h : Host) : ShRes := {| ok := true; hst := h; out := s |}.
Definition when_ok (b : bool) (h : Host) : ShRes := {| ok := b; hst := h; out := EmptyString |}.

Definition unit_file (svc : string) : string := svc +:+ ".service".

(** The effect of one command.  [net] is what the network serves for a URL:
    [None] makes `wget` fail.  A pipeline has the exit status of its last
    command, so the `ls | grep | head` pipelines always succeed.
    `cp -r` and `mv` onto an existing directory place the source inside it,
    which leaves the content tag of the destination as it is.
    `. file` fails when the file is missing; a file that is there is taken
    to end on a command that succeeds, as it does after the program has
    appended a declaration to it.  Of the standard output only the listings
    are kept, which the program reads; what `tee`, `dnf` and the like print
    is left out. *)
Definition prim_exec (net : string -> option Archive) (p : Prim) (h : Host) : ShRes :=
  match p with
  | LsGrepHead a pat => says (first_line (grep pat (ls a h))) h
  | LsGrepSedHead a pat => says (first_line (map (strip_first pat) (grep pat (ls a h)))) h
  | LsGrepSortTail a pat => says (last_line (sort_versions (grep pat (ls a h)))) h
  | LsUnitsOld pat excl =>
      let l := grep_v excl (grep pat (names_of (units h))) in
      {| ok := match l with [] => false | _ => true end; hst := h; out := join_lines l |}
  | MkdirP a => done_ok (set_area a (default ∅ (area a h)) h)
  | MkdirOpt name =>
      match opt h !! name with
      | Some _ => done_ok h
      | None => done_ok (set_opt (<[name := EmptyString]> (opt h)) h)
      end
  | RmRf a name =>
      match area a h with
      | Some d => done_ok (set_area a (delete name d) h)
      | None => done_ok h
      end
  | RmRfArea a => done_ok (drop_area a h)
  | RmRfGlob pre => done_ok (set_opt (filter (fun kv : string * string => String.prefix pre kv.1 = false) (opt h)) h)
  | CpR a src b dst =>
      match area a h ≫= (.!! src), area b h with
      | Some c, Some d =>
          match d !! dst with
          | Some _ => done_ok h
          | None => done_ok (set_area b (<[dst := c]> d) h)
          end
      | _, _ => failed h
      end
  | Mv src dst =>
      match opt h !! src with
      | Some c =>
          if decide (src = dst) then failed h
          else match opt h !! dst with
               | Some _ => done_ok (set_opt (delete src (opt h)) h)
               | None => done_ok (set_opt (<[dst := c]> (delete src (opt h))) h)
               end
      | None => failed h
      end
  | Wget url file =>
      match net url with
      | Some a => done_ok (set_tmp (<[file := a]> (tmp h)) h)
      | None => failed (set_tmp (delete file (tmp h)) h)
      end
  | TarX file =>
      match tmp h !! file with
      | Some a => done_ok (set_opt (<[top a := payload a]> (opt h)) h)
      | None => failed h
      end
  | TarXStrip file name =>
      match tmp h !! file, opt h !! name with
      | Some a, Some _ => done_ok (set_opt (<[name := payload a]> (opt h)) h)
      | _, _ => failed h
      end
  | RmF file => done_ok (set_tmp (delete file (tmp h)) h)
  | SedDelete re file =>
      match files h !! file with
      | Some l => done_ok (set_files (<[file := filter (fun x => re_match re x = false) l]> (files h)) h)
      | None => failed h
      end
  | Tee line file => done_ok (set_files (<[file := [line]]> (files h)) h)
  | TeeAppend line file =>
      done_ok (set_files (<[file := default [] (files h !! file) ++ [line]]> (files h)) h)
  | Source file => when_ok (bool_decide (is_Some (files h !! file))) h
  | EchoJavaHome => says (env_java_home h) h
  | GetentGroup => when_ok (has_group h) h
  | Groupadd => if has_group h then failed h else done_ok (set_group true h)
  | IdU => when_ok (has_user h) h
  | Useradd => if has_user h || negb (has_group h) then failed h else done_ok (set_user true h)
  | Adduser => failed h
  | Chown name => when_ok (exists_in Opt name h && has_user h && has_group h) h
  | Chmod755 name => when_ok (exists_in Opt name h) h
  | ChmodX name => when_ok (exists_in Opt name h) h
  | TeeUnit unit content => done_ok (set_units (<[unit := content]> (units h)) h)
  | ChmodUnit unit => when_ok (bool_decide (is_Some (units h !! unit))) h
  | ChownUnit unit => when_ok (bool_decide (is_Some (units h !! unit))) h
  | RmFUnit unit => done_ok (set_units (delete unit (units h)) h)
  | RmFUnitGlob pre =>
      done_ok (set_units (filter (fun kv : string * string =>
                                    String.prefix pre kv.1 && ends_with ".service" kv.1 = false)
                            (units h)) h)
  | ServiceRestart svc =>
      match units h !! unit_file svc with
      | Some _ => done_ok (set_active ({[svc]} ∪ active h) h)
      | None => failed h
      end
  | SystemctlEnable svc =>
      match units h !! unit_file svc with
      | Some _ => done_ok (set_enabled ({[svc]} ∪ enabled h) h)
      | None => failed h
      end
  | SystemctlRestart svc =>
      match units h !! unit_file svc with
      | Some _ => done_ok (set_active ({[svc]} ∪ active h) h)
      | None => failed h
      end
  | SystemctlStopGlob pre =>
      done_ok (set_active (filter (fun n => String.prefix pre n = false) (active h)) h)
  | SystemctlDisableGlob pre =>
      done_ok (set_enabled (filter (fun n => String.prefix pre n = false) (enabled h)) h)
  | ListUnitsHas pat =>
      when_ok (match grep pat (elements (active h)) with [] => false | _ => true end) h
  | ListUnitFilesHas pat =>
      when_ok (match grep pat (names_of (units h)) with [] => false | _ => true end) h
  | Shutdown name =>
      if exists_in Opt name h then done_ok (set_procs (procs h ∖ {[name]}) h) else failed h
  | Startup name =>
      if exists_in Opt name h then done_ok (set_procs ({[name]} ∪ procs h) h) else failed h
  | KillTomcat => done_ok (set_procs ∅ h)
  | ChownPrev => when_ok (bool_decide (is_Some (prev_versions h))) h
  | ChmodPrev => when_ok (bool_decide (is_Some (prev_versions h))) h
  | RmFPrev => done_ok (set_prev None h)
  | FsWritePrev j t => done_ok (set_prev (Some (j, t)) h)
  | FsChmodPrev => when_ok (bool_decide (is_Some (prev_versions h))) h
  | FsChownPrev => when_ok (bool_decide (is_Some (prev_versions h))) h
  | FsUnlinkPrev =>
      match prev_versions h with
      | Some _ => done_ok (set_prev None h)
      | None => failed h
      end
  | FsWriteUnit unit content => done_ok (set_units (<[unit := content]> (units h)) h)
  | Untracked _ => done_ok h
  end.

(** Scripts: the command lists of the shell. *)
Inductive Sh :=
| Run (p : Prim)
| And (a b : Sh)                              (* a && b *)
| Or (a b : Sh)                               (* a || b *)
| Seq (a b : Sh)                              (* a <newline> b *)
| True_                                       (* true *)
| Capture (p : Prim) (k : string -> Sh).      (* x=$(p) && k x *)

Fixpoint sh_eval (net : string -> option Archive) (c : Sh) (h : Host) : ShRes :=
  match c with
  | Run p => prim_exec net p h
  | And a b =>
      let r := sh_eval net a h in
      if ok r then
        let r' := sh_eval net b (hst r) in
        {| ok := ok r'; hst := hst r'; out := out r +:+ out r' |}
      else r
  | Or a b =>
      let r := sh_eval net a h in
      if ok r then r
      else
        let r' := sh_eval net b (hst r) in
        {| ok := ok r'; hst := hst r'; out := out r +:+ out r' |}
  | Seq a b =>
      let r := sh_eval net a h in
      let r' := sh_eval net b (hst r) in
      {| ok := ok r'; hst := hst r'; out := out r +:+ out r' |}
  | True_ => done_ok h
  | Capture p k =>
      let r := prim_exec net p h in
      if ok r then sh_eval net (k (out r)) (hst r) else {| ok := false; hst := hst r; out := EmptyString |}
  end.

Fixpoint and_all (l : list Sh) : Sh :=
  match l with
  | [] => True_
  | [c] => c
  | c :: r => And c (and_all r)
  end.

(** ** The node process *)

Inductive Stream := Stdout | Stderr.

(** The state of a run: the host, the number of `exec` and `fs` calls made
    so far, and what was printed (console.log on stdout, console.error and
    console.warn on stderr; the emoji of the messages are left out). *)
Record Proc := {
  host : Host;
  ticks : nat;
  console : list (Stream * string)
}.

(** What the program does not control: [faults n] tells whether the n-th
    `exec`/`fs` call of the run fails for a reason outside the model (it
    then fails before it has any effect), and [net] is what the network
    serves. *)
Record World := {
  faults : nat -> bool;
  net : string -> option Archive
}.

(** How an asynchronous function ends: its promise resolves, it rejects
    (an exception at the `await`), or `process.exit` stops the process. *)
Inductive Outcome (A : Type) :=
| Ret (a : A)
| Throw (e : string)
| Exit (code : Z).

Arguments Ret {A} a.
Arguments Throw {A} e.
Arguments Exit {A} code.

Definition M (A : Type) : Type := World -> Proc -> Outcome A * Proc.

Definition ret {A} (a : A) : M A := fun _ s => (Ret a, s).

Definition bind {A B} (m : M A) (f : A -> M B) : M B := fun W s =>
  match m W s with
  | (Ret a, s') => f a W s'
  | (Throw e, s') => (Throw e, s')
  | (Exit c, s') => (Exit c, s')
  end.

Definition throw {A} (e : string) : M A := fun _ s => (Throw e, s).

(** `process.exit(code)`: nothing runs afterwards, no `catch` sees it. *)
Definition process_exit {A} (code : Z) : M A := fun _ s => (Exit code, s).

(** `try { m } catch (e) { handler e }` *)
Definition try_catch {A} (m : M A) (handler : string -> M A) : M A := fun W s =>
  match m W s with
  | (Throw e, s') => handler e W s'
  | r => r
  end.

Definition get_host : M Host := fun _ s => (Ret (host s), s).

Definition print (st : Stream) (msg : string) : M unit := fun _ s =>
  (Ret tt, {| host := host s; ticks := ticks s; console := console s ++ [(st, msg)] |}).

Definition console_log : string -> M unit := print Stdout.
Definition console_error : string -> M unit := print Stderr.
Definition console_warn : string -> M unit := print Stderr.

Declare Scope js_scope.
Delimit Scope js_scope with js.
Notation "x <- m ;; k" := (bind m (fun x => k))
  (at level 20, m at level 99, k at level 200, only parsing) : js_scope.
Notation "m ;; k" := (bind m (fun _ => k))
  (at level 100, k at level 200, only parsing, right associativity) : js_scope.
Open Scope js_scope.

(** `for (const x of l) { await body(x) }` *)
Fixpoint for_each {A} (l : list A) (body : A -> M unit) : M unit :=
  match l with
  | [] => ret tt
  | x :: r => body x ;; for_each r body
  end.

(** `child_process.exec` and the synchronous `fs` calls: [None] when the
    call reports an error, stdout otherwise.  A script that fails midway
    keeps the effects of the commands that ran. *)
Definition exec (c : Sh) : M (option string) := fun W s =>
  if faults W (ticks s)
  then (Ret None, {| host := host s; ticks := S (ticks s); console := console s |})
  else
    let r := sh_eval (net W) c (host s) in
    (Ret (if ok r then Some (out r) else None),
     {| host := hst r; ticks := S (ticks s); console := console s |}).

(** The text of a failed command's stderr is not modelled. *)
Definition stderr : string := "<stderr>".

(** A template literal prints null as the word null. *)
Definition tpl (v : option string) : string := default "null" v.

(** `a === b` for a string and a string-or-null. *)
Definition same (a : string) (b : option string) : bool := bool_decide (Some a = b).

(** The unit definition written for a Tomcat version (upgrade.js, install.js
    and rollback.js use the same template). *)
Definition service_unit (tomcatVersion javaHome tomcatDir : string) : string :=
  join_lines [
    EmptyString;
    "[Unit]";
    "Description=Apache Tomcat " +:+ tomcatVersion;
    "After=network.target";
    EmptyString;
    "[Service]";
    "User=tomcat";
    "Group=tomcat";
    "Environment=" +:+ dq +:+ "JAVA_HOME=" +:+ javaHome +:+ dq;
    "Environment=" +:+ dq +:+ "CATALINA_HOME=" +:+ tomcatDir +:+ dq;
    "ExecStart=" +:+ tomcatDir +:+ "/bin/catalina.sh run";
    "ExecStop=" +:+ tomcatDir +:+ "/bin/shutdown.sh";
    "Restart=always";
    EmptyString;
    "[Install]";
    "WantedBy=multi-user.target";
    EmptyString
  ].

(** `service S restart || /opt/S/bin/shutdown.sh && /opt/S/bin/startup.sh`;
    the shell groups it as (restart || shutdown) && startup. *)
Definition restart_or_scripts (svc : string) : Sh :=
  And (Or (Run (ServiceRestart svc)) (Run (Shutdown svc))) (Run (Startup svc)).

(** ** src/upgrade.js *)

Module Upgrade.

(** runCommand: resolves with stdout, or prints two lines and rejects with
    the command's stderr. *)
Definition runCommand (c : Sh) : M string :=
  r <- exec c ;;
  match r with
  | Some stdout => ret stdout
  | None =>
      console_error "Command failed" ;;
      console_error ("Error: " +:+ stderr) ;;
      throw stderr
  end.

(** readUpgradeConfiguration: the descriptor is absent or well formed. *)
Definition readUpgradeConfiguration : M Config :=
  try_catch
    (h <- get_host ;;
     match upgrade_cfg h with
     | None => throw "Upgrade configuration file not found."
     | Some config => ret config
     end)
    (fun error =>
       console_error ("Failed to read upgrade configuration: " +:+ error) ;;
       throw error).

(** getCurrentVersions: each version stays null when its command fails. *)
Definition getCurrentVersions : M (option string * option string) :=
  currentJavaVersion <-
    try_catch
      (v <- runCommand (Run (LsGrepSedHead Opt "openjdk-")) ;; ret (Some v))
      (fun _ => console_warn "No existing Java installation found." ;; ret None) ;;
  currentTomcatVersion <-
    try_catch
      (v <- runCommand (Run (LsGrepSedHead Opt "tomcat-")) ;; ret (Some v))
      (fun _ => console_warn "No existing Tomcat installation found." ;; ret None) ;;
  ret (currentJavaVersion, currentTomcatVersion).

Definition validateUpgradeConditions (javaVersion tomcatVersion : string) : M unit :=
  cur <- getCurrentVersions ;;
  (if same javaVersion cur.1 && same tomcatVersion cur.2
   then
     console_error ("Upgrade aborted: Java " +:+ javaVersion +:+ " and Tomcat "
                    +:+ tomcatVersion +:+ " are already installed.") ;;
     process_exit 1
   else ret tt) ;;
  (if same javaVersion cur.1
   then
     console_error ("Upgrade aborted: Java " +:+ javaVersion +:+ " is already installed.") ;;
     process_exit 1
   else ret tt) ;;
  (if same tomcatVersion cur.2
   then
     console_error ("Upgrade aborted: Tomcat " +:+ tomcatVersion +:+ " is already installed.") ;;
     process_exit 1
   else ret tt).

(** createBackup(source, destination); a path is an area and a name. *)
Definition createBackup (source destination : Area * string) : M unit :=
  try_catch
    (h <- get_host ;;
     (if exists_in destination.1 destination.2 h
      then
        console_log ("Backup already exists at " +:+ destination.2 +:+ ", removing old backup...") ;;
        runCommand (Run (RmRf destination.1 destination.2)) ;;
        ret tt
      else ret tt) ;;
     console_log ("Creating backup: " +:+ source.2) ;;
     runCommand (Run (CpR source.1 source.2 destination.1 destination.2)) ;;
     ret tt)
    (fun error =>
       console_error ("Backup creation failed: " +:+ error) ;;
       throw error).

Definition ensureTomcatUserAndGroup : M unit :=
  try_catch
    (runCommand (Run GetentGroup) ;; ret tt)
    (fun _ => runCommand (Run Groupadd) ;; ret tt) ;;
  try_catch
    (runCommand (Run IdU) ;; ret tt)
    (fun _ => runCommand (Run Useradd) ;; ret tt).

(** The environment script of upgradeJava and rollbackUpgrade: six commands
    on lines of their own, so the script has the status of the last one. *)
Definition java_env_script (javaDir : string) : Sh :=
  Seq (Run (SedDelete (ReStarts "export JAVA_HOME=") etc_profile))
 (Seq (Run (SedDelete (ReStartsHas "export PATH=" "JAVA_HOME") etc_profile))
 (Seq (Run (SedDelete (ReStarts "JAVA_HOME=") etc_environment))
 (Seq (Run (TeeAppend ("export JAVA_HOME=/opt/" +:+ javaDir) etc_profile))
 (Seq (Run (TeeAppend "export PATH=$JAVA_HOME/bin:$PATH" etc_profile))
      (Run (TeeAppend ("JAVA_HOME=/opt/" +:+ javaDir) etc_environment)))))).

Definition rollbackUpgrade (previousJavaVersion previousTomcatVersion : option string) : M unit :=
  console_log "Rolling back due to failure..." ;;
  try_catch
    (let javaBackupDir := "openjdk-" +:+ tpl previousJavaVersion in
     let tomcatBackupDir := "tomcat-" +:+ tpl previousTomcatVersion in
     h <- get_host ;;
     (if exists_in JavaBackups javaBackupDir h
      then
        console_log ("Restoring Java " +:+ tpl previousJavaVersion +:+ " from backup...") ;;
        runCommand (Run (RmRfGlob "openjdk-")) ;;
        runCommand (Run (CpR JavaBackups javaBackupDir Opt ("openjdk-" +:+ tpl previousJavaVersion))) ;;
        console_log ("Restoring environment variables for Java " +:+ tpl previousJavaVersion +:+ "...") ;;
        runCommand (java_env_script ("openjdk-" +:+ tpl previousJavaVersion)) ;;
        runCommand (Run (Source etc_profile)) ;;
        console_log ("Java " +:+ tpl previousJavaVersion +:+ " rollback and environment restore completed.")
      else
        console_warn ("No Java backup found for version " +:+ tpl previousJavaVersion +:+ ". Skipping rollback.")) ;;
     h <- get_host ;;
     (if exists_in TomcatBackups tomcatBackupDir h
      then
        console_log ("Restoring Tomcat " +:+ tpl previousTomcatVersion +:+ " from backup...") ;;
        runCommand (Run (RmRfGlob "tomcat-")) ;;
        runCommand (Run (CpR TomcatBackups tomcatBackupDir Opt ("tomcat-" +:+ tpl previousTomcatVersion))) ;;
        ensureTomcatUserAndGroup ;;
        console_log ("Setting permissions and ownership for Tomcat " +:+ tpl previousTomcatVersion +:+ "...") ;;
        runCommand (Run (Chown ("tomcat-" +:+ tpl previousTomcatVersion))) ;;
        runCommand (Run (Chmod755 ("tomcat-" +:+ tpl previousTomcatVersion))) ;;
        runCommand (Run (ChmodX ("tomcat-" +:+ tpl previousTomcatVersion))) ;;
        console_log ("Restarting Tomcat service for version " +:+ tpl previousTomcatVersion +:+ "...") ;;
        runCommand (restart_or_scripts ("tomcat-" +:+ tpl previousTomcatVersion)) ;;
        console_log ("Tomcat " +:+ tpl previousTomcatVersion +:+ " restored and restarted.")
      else
        console_warn ("No Tomcat backup found for version " +:+ tpl previousTomcatVersion +:+ ". Skipping rollback.")) ;;
     console_log "Rollback to previous versions completed successfully.")
    (fun error => console_error ("Rollback failed: " +:+ error)).

Definition upgradeJava (javaVersion javaUrl : string) : M bool :=
  let javaDir := "openjdk-" +:+ javaVersion in
  let tempTarFile := "/tmp/java-" +:+ javaVersion +:+ ".tar.gz" in
  try_catch
    (runCommand (Run (MkdirP JavaBackups)) ;;
     existingJava <- runCommand (Run (LsGrepHead Opt "openjdk-")) ;;
     (if nonempty existingJava
      then
        createBackup (Opt, existingJava) (JavaBackups, existingJava) ;;
        runCommand (Run (RmRf Opt existingJava)) ;;
        ret tt
      else ret tt) ;;
     console_log ("Upgrading Java " +:+ javaVersion +:+ " from " +:+ javaUrl +:+ "...") ;;
     runCommand (And (Run (Untracked "dnf update")) (Run (Untracked "dnf install -y wget"))) ;;
     try_catch
       (runCommand (Run (Wget javaUrl tempTarFile)) ;; ret tt)
       (fun error =>
          console_error "Java download failed. Rolling back..." ;;
          cur <- getCurrentVersions ;;
          rollbackUpgrade (Some javaVersion) cur.2 ;;
          throw error) ;;
     runCommand (Run (TarX tempTarFile)) ;;
     extractedFolder <- runCommand (Run (LsGrepHead Opt "jdk-")) ;;
     (if nonempty extractedFolder
      then runCommand (Run (Mv extractedFolder javaDir)) ;; ret tt
      else ret tt) ;;
     runCommand (Run (RmF tempTarFile)) ;;
     runCommand (java_env_script javaDir) ;;
     runCommand (Run (Source etc_profile)) ;;
     console_log ("Java " +:+ javaVersion +:+ " upgraded successfully.") ;;
     ret true)
    (fun error =>
       console_error ("Java upgrade failed: " +:+ error) ;;
       throw error).

Definition upgradeTomcat (tomcatVersion tomcatUrl javaVersion : string) : M unit :=
  let tomcatDir := "tomcat-" +:+ tomcatVersion in
  let tempTarFile := "/tmp/tomcat-" +:+ tomcatVersion +:+ ".tar.gz" in
  try_catch
    (runCommand (Run (MkdirP TomcatBackups)) ;;
     existingTomcat <- runCommand (Run (LsGrepHead Opt "tomcat-")) ;;
     (if nonempty existingTomcat
      then
        createBackup (Opt, existingTomcat) (TomcatBackups, existingTomcat) ;;
        runCommand (Run (RmRf Opt existingTomcat)) ;;
        ret tt
      else ret tt) ;;
     console_log ("Upgrading Tomcat " +:+ tomcatVersion +:+ " from " +:+ tomcatUrl +:+ "...") ;;
     try_catch
       (runCommand (Run (Wget tomcatUrl tempTarFile)) ;; ret tt)
       (fun error =>
          console_error "Tomcat download failed. Rolling back..." ;;
          cur <- getCurrentVersions ;;
          rollbackUpgrade cur.1 cur.2 ;;
          throw error) ;;
     runCommand (Run (TarX tempTarFile)) ;;
     extractedFolder <- runCommand (Run (LsGrepHead Opt "apache-tomcat-")) ;;
     (if nonempty extractedFolder
      then runCommand (Run (Mv extractedFolder tomcatDir)) ;; ret tt
      else ret tt) ;;
     runCommand (Run (RmF tempTarFile)) ;;
     ensureTomcatUserAndGroup ;;
     runCommand (Run (Chown tomcatDir)) ;;
     runCommand (Run (Chmod755 tomcatDir)) ;;
     runCommand (Run (ChmodX tomcatDir)) ;;
     console_log "Creating Tomcat systemd service..." ;;
     runCommand (Run (TeeUnit (unit_file tomcatDir)
                        (service_unit tomcatVersion ("/opt/openjdk-" +:+ javaVersion) ("/opt/" +:+ tomcatDir)))) ;;
     runCommand (Run (ChmodUnit (unit_file tomcatDir))) ;;
     runCommand (Run (ChownUnit (unit_file tomcatDir))) ;;
     ensureTomcatUserAndGroup ;;
     runCommand (Run (Chown tomcatDir)) ;;
     runCommand (Run (Chmod755 tomcatDir)) ;;
     runCommand (Run (ChmodX tomcatDir)) ;;
     runCommand (Run (Shutdown tomcatDir)) ;;
     runCommand (Run (Startup tomcatDir)) ;;
     console_log ("Tomcat " +:+ tomcatVersion +:+ " upgraded successfully.") ;;
     console_log "Checking for old Tomcat service files..." ;;
     oldServices <- runCommand (Or (Run (LsUnitsOld "tomcat-" tomcatDir)) True_) ;;
     (if nonempty oldServices
      then
        for_each (split_lines oldServices) (fun oldService =>
          console_log ("Removing old Tomcat service file: /etc/systemd/system/" +:+ oldService) ;;
          runCommand (Run (RmFUnit oldService)) ;;
          ret tt) ;;
        runCommand (Run (Untracked "systemctl daemon-reload")) ;;
        ret tt
      else ret tt))
    (fun error =>
       console_error ("Tomcat upgrade failed: " +:+ error) ;;
       throw error).

(** The two component steps of upgrade() (the two inner `try` blocks), given
    the configuration and the versions read at the start; [None] from the
    Java step stands for the early `return`. *)
Definition upgrade_components (cfg : Config) (cur : option string * option string) : M unit :=
  step <-
    try_catch
      (javaUpgraded <- upgradeJava (javaVersion cfg) (javaUrl cfg) ;; ret (Some javaUpgraded))
      (fun _ => console_error "Java upgrade failed. Aborting process." ;; ret None) ;;
  match step with
  | None => ret tt
  | Some javaUpgraded =>
      try_catch
        (upgradeTomcat (tomcatVersion cfg) (tomcatUrl cfg) (javaVersion cfg) ;;
         runCommand (Run (Untracked "systemctl daemon-reload")) ;;
         console_log "Upgrade completed successfully.")
        (fun error =>
           console_error "Tomcat upgrade failed. Rolling back..." ;;
           (if javaUpgraded : bool
            then
              console_log ("Rolling back Java " +:+ javaVersion cfg +:+ " to " +:+ tpl cur.1
                           +:+ " since Tomcat failed...") ;;
              rollbackUpgrade cur.1 cur.2
            else ret tt) ;;
           throw error)
  end.

Definition upgrade : M unit :=
  try_catch
    (console_log "Starting upgrade process..." ;;
     cfg <- readUpgradeConfiguration ;;
     cur <- getCurrentVersions ;;
     validateUpgradeConditions (javaVersion cfg) (tomcatVersion cfg) ;;
     upgrade_components cfg cur)
    (fun error => console_error ("Upgrade process failed: " +:+ error)).

End Upgrade.

(** ** src/install.js *)

(** The module reads mavee_config_install.json when it is loaded; its
    functions take that configuration as [cfg]. *)
Module Install.

(** The script of installJava, one `&&` chain. *)
Definition install_java_script (cfg : Config) : Sh :=
  let javaDir := "openjdk-" +:+ javaVersion cfg in
  And (Run (Untracked "dnf update"))
 (And (Run (MkdirP Opt))
 (And (Run (Wget (javaUrl cfg) "/tmp/java.tar.gz"))
 (And (Run (TarX "/tmp/java.tar.gz"))
 (Capture (LsGrepHead Opt "jdk") (fun extracted_folder =>
  And (Run (RmRf Opt javaDir))
 (And (Run (Mv extracted_folder javaDir))
 (And (Run (RmF "/tmp/java.tar.gz"))
 (And (Run (Tee ("JAVA_HOME=" +:+ dq +:+ "/opt/" +:+ javaDir +:+ dq) etc_environment))
 (And (Run (TeeAppend ("export JAVA_HOME=" +:+ dq +:+ "/opt/" +:+ javaDir +:+ dq) etc_profile))
 (And (Run (TeeAppend ("export PATH=" +:+ dq +:+ "$JAVA_HOME/bin:$PATH" +:+ dq) etc_profile))
      (Run (Source etc_profile)))))))))))).

Definition installJava (cfg : Config) : M string :=
  console_log ("Installing Java " +:+ javaVersion cfg +:+ " from " +:+ javaUrl cfg +:+ "...") ;;
  r <- exec (install_java_script cfg) ;;
  match r with
  | None =>
      console_error ("Java installation failed: " +:+ stderr) ;;
      throw stderr
  | Some stdout =>
      console_log ("Java " +:+ javaVersion cfg +:+ " installed successfully.") ;;
      ret stdout
  end.

Definition ensureTomcatUser : Sh :=
  Seq (Or (Run Groupadd) True_) (Or (Run Useradd) True_).

(** The commands of installTomcat joined by `&&`; the `|| true` of the
    seventh applies to the whole chain before it, so the three commands
    after it run whatever failed earlier. *)
Definition install_tomcat_script (cfg : Config) : Sh :=
  let tomcatDir := "tomcat-" +:+ tomcatVersion cfg in
  let tempTarFile := "/tmp/tomcat-" +:+ tomcatVersion cfg +:+ ".tar.gz" in
  And (Or (and_all [
             Run (Untracked "dnf update");
             Run (Untracked "dnf install -y wget");
             Run (MkdirOpt tomcatDir);
             Run (Wget (tomcatUrl cfg) tempTarFile);
             Run (TarXStrip tempTarFile tomcatDir);
             Run (RmF tempTarFile);
             Run Adduser ])
          True_)
      (and_all [
         Run (Chown tomcatDir);
         Run (Chmod755 tomcatDir);
         Run (ChmodX tomcatDir) ]).

(** An exception thrown inside an `exec` callback is not caught by anyone:
    node prints it and exits with status 1. *)
Definition uncaught {A} (e : string) : M A :=
  console_error ("Uncaught " +:+ e) ;; process_exit 1.

(** installTomcat starts two `exec` at once; the model runs the short
    account script first and the installation chain after it. *)
Definition installTomcat (cfg : Config) : M unit :=
  let tomcatDir := "tomcat-" +:+ tomcatVersion cfg in
  let serviceFilePath := unit_file tomcatDir in
  console_log ("Installing Apache Tomcat " +:+ tomcatVersion cfg +:+ " from " +:+ tomcatUrl cfg +:+ "...") ;;
  u <- exec ensureTomcatUser ;;
  match u with
  | None => console_error "Failed to create tomcat user:"
  | Some _ => console_log "Tomcat user and group ensured."
  end ;;
  r <- exec (install_tomcat_script cfg) ;;
  match r with
  | None => throw ("Tomcat installation failed: " +:+ stderr)
  | Some stdout =>
      console_log ("Apache Tomcat " +:+ tomcatVersion cfg +:+ " installed successfully: " +:+ stdout) ;;
      h <- get_host ;;
      match units h !! serviceFilePath with
      | None =>
          console_log "Tomcat service file not found. Creating a new one..." ;;
          w <- exec (Run (FsWriteUnit serviceFilePath
                            (service_unit (tomcatVersion cfg)
                               ("/opt/openjdk-" +:+ javaVersion cfg) ("/opt/" +:+ tomcatDir)))) ;;
          match w with
          | None => uncaught "EACCES"
          | Some _ => console_log ("Created new Tomcat service file: " +:+ serviceFilePath)
          end
      | Some _ => console_log "Tomcat service file already exists."
      end ;;
      p <- exec (Run (ChmodUnit serviceFilePath)) ;;
      match p with
      | None => throw "Failed to set correct permissions for Tomcat service file."
      | Some _ =>
          console_log "Permissions set successfully for Tomcat service file." ;;
          q <- exec (restart_or_scripts tomcatDir) ;;
          match q with
          | None =>
              console_error ("Tomcat restart failed: " +:+ stderr) ;;
              throw ("Tomcat restart failed: " +:+ stderr)
          | Some restartStdout =>
              console_log ("Tomcat restarted successfully: " +:+ restartStdout)
          end
      end
  end.

(** A failing `fs` call throws. *)
Definition fs_call (p : Prim) : M unit :=
  r <- exec (Run p) ;;
  match r with
  | None => throw "fs error"
  | Some _ => ret tt
  end.

Definition createPreviousVersionsFile (javaVersion tomcatVersion : string) : M unit :=
  try_catch
    (fs_call (FsWritePrev javaVersion tomcatVersion) ;;
     console_log "previous_versions.json created/updated successfully." ;;
     fs_call FsChmodPrev ;;
     console_log "Set permissions to 755 (rwxr-xr-x)" ;;
     h <- get_host ;;
     if nonempty (env_user h)
     then
       fs_call FsChownPrev ;;
       console_log ("Changed file ownership to " +:+ env_user h)
     else console_warn "Unable to determine the current user. Ownership not changed.")
    (fun error => console_error ("Error creating/updating previous_versions.json: " +:+ error)).

Definition install (cfg : Config) : M unit :=
  try_catch
    (installJava cfg ;;
     installTomcat cfg ;;
     createPreviousVersionsFile (javaVersion cfg) (tomcatVersion cfg) ;;
     console_log "Installation and previous_versions.json update complete.")
    (fun error => console_error ("Installation process failed: " +:+ error)).

End Install.

(** ** src/rollback.js *)

Module Rollback.

Definition runCommand (c : Sh) : M string :=
  r <- exec c ;;
  match r with
  | Some stdout => ret stdout
  | None =>
      console_error "Command failed" ;;
      console_error ("Error: " +:+ stderr) ;;
      throw stderr
  end.

(** rollbackJava: the first branch is the early `return`. *)
Definition rollbackJava : M unit :=
  try_catch
    (latestJavaBackup <- runCommand (Run (LsGrepSortTail JavaBackups "openjdk-")) ;;
     if negb (nonempty latestJavaBackup)
     then console_error "No Java backup found for rollback."
     else
       console_log ("Rolling back to Java from backup: " +:+ latestJavaBackup +:+ "...") ;;
       console_log "Removing all Java versions from /opt/..." ;;
       runCommand (Run (RmRfGlob "openjdk-")) ;;
       console_log ("Restoring Java from backup: " +:+ latestJavaBackup +:+ "...") ;;
       runCommand (Run (CpR JavaBackups latestJavaBackup Opt latestJavaBackup)) ;;
       console_log "Setting JAVA_HOME..." ;;
       runCommand
         (And (Run (SedDelete (ReStarts "JAVA_HOME=") etc_environment))
         (And (Run (TeeAppend ("JAVA_HOME=" +:+ dq +:+ "/opt/" +:+ latestJavaBackup +:+ dq)
                      etc_environment))
              (Run (Source etc_environment)))) ;;
       console_log ("Java rollback to " +:+ latestJavaBackup +:+ " completed successfully."))
    (fun error => console_error ("Java rollback failed: " +:+ error)).

Definition rollbackTomcat : M unit :=
  try_catch
    (latestTomcatBackup <- runCommand (Run (LsGrepSortTail TomcatBackups "tomcat-")) ;;
     if negb (nonempty latestTomcatBackup)
     then console_error "No Tomcat backup found for rollback."
     else
       let tomcatDir := latestTomcatBackup in
       console_log ("Rolling back to Tomcat from backup: " +:+ latestTomcatBackup +:+ "...") ;;
       console_log "Stopping all Tomcat services..." ;;
       runCommand (Or (Run (SystemctlStopGlob "tomcat")) True_) ;;
       runCommand (Or (Run (SystemctlDisableGlob "tomcat")) True_) ;;
       console_log "Removing all Tomcat versions from /opt/..." ;;
       runCommand (Run (RmRfGlob "tomcat-")) ;;
       console_log ("Restoring Tomcat from backup: " +:+ latestTomcatBackup +:+ "...") ;;
       runCommand (Run (CpR TomcatBackups latestTomcatBackup Opt tomcatDir)) ;;
       console_log "Setting Tomcat user permissions..." ;;
       runCommand (Run (Chown tomcatDir)) ;;
       runCommand (Run (Chmod755 tomcatDir)) ;;
       runCommand (Run (ChmodX tomcatDir)) ;;
       console_log "Restoring Tomcat systemd service..." ;;
       let tomcatVersion := strip_first "tomcat-" latestTomcatBackup in
       let serviceFilePath := unit_file ("tomcat-" +:+ tomcatVersion) in
       javaHome <- runCommand (Run EchoJavaHome) ;;
       runCommand (Run (TeeUnit serviceFilePath
                          (service_unit tomcatVersion javaHome ("/opt/" +:+ tomcatDir)))) ;;
       runCommand (Run (ChmodUnit serviceFilePath)) ;;
       console_log "Reloading systemd and starting Tomcat..." ;;
       runCommand (Run (Untracked "systemctl daemon-reload")) ;;
       runCommand (Run (SystemctlEnable ("tomcat-" +:+ tomcatVersion))) ;;
       runCommand (Run (SystemctlRestart ("tomcat-" +:+ tomcatVersion))) ;;
       console_log ("Tomcat rollback to " +:+ latestTomcatBackup +:+ " completed successfully."))
    (fun error => console_error ("Tomcat rollback failed: " +:+ error)).

Definition rollback : M unit :=
  try_catch
    (console_log "Starting rollback process..." ;;
     rollbackJava ;;
     rollbackTomcat ;;
     console_log "Rollback process completed successfully.")
    (fun error => console_error ("Rollback failed: " +:+ error)).

End Rollback.

(** ** src/uninstall.js *)

Module Uninstall.

(** This runCommand prints one line either way and rejects with the error
    object. *)
Definition runCommand (c : Sh) : M string :=
  r <- exec c ;;
  match r with
  | None =>
      console_error ("Error: " +:+ stderr) ;;
      throw stderr
  | Some stdout =>
      console_log ("Success: " +:+ stdout) ;;
      ret stdout
  end.

(** The commands of uninstallJava joined by `&&`; the `|| true` of the
    seventh applies to the whole chain before it. *)
Definition uninstall_java_script : Sh :=
  And (Or (and_all [
             Run (RmRfGlob "openjdk-");
             Run (RmRfArea JavaBackups);
             Run (SedDelete (ReHas "JAVA_HOME") etc_environment);
             Run (SedDelete (ReHas "JAVA_HOME") etc_profile);
             Run (SedDelete (ReHas "JAVA_HOME") bashrc);
             Run (SedDelete (ReHas "JAVA_HOME") bash_profile);
             Run (SedDelete (ReHas "JAVA_HOME") zshrc) ])
          True_)
      (and_all [
         Run (Untracked "unset JAVA_HOME");
         Run (Source etc_environment);
         Run (Source bashrc) ]).

Definition uninstallJava : M unit :=
  console_log "Uninstalling Java..." ;;
  try_catch
    (runCommand uninstall_java_script ;;
     console_log "Java uninstalled successfully.")
    (fun _ => console_error "Java uninstallation failed.").

Definition uninstallTomcat : M unit :=
  console_log "Uninstalling Tomcat..." ;;
  try_catch
    (runCommand (Or (And (Run (ListUnitsHas "tomcat")) (Run (SystemctlStopGlob "tomcat-"))) True_) ;;
     runCommand (Or (And (Run (ListUnitFilesHas "tomcat")) (Run (SystemctlDisableGlob "tomcat-"))) True_) ;;
     runCommand (Or (Run (Untracked "systemctl daemon-reexec")) True_) ;;
     runCommand (Or (Run (Untracked "systemctl daemon-reload")) True_) ;;
     runCommand (Run (RmFUnitGlob "tomcat-")) ;;
     runCommand (Run (Untracked "rm -f /lib/systemd/system/tomcat-*.service")) ;;
     runCommand (Run KillTomcat) ;;
     runCommand (Or (Run (RmRfGlob "tomcat-")) True_) ;;
     runCommand (Or (Run (RmRfArea TomcatBackups)) True_) ;;
     runCommand (Run (SedDelete (ReHas "CATALINA_HOME") etc_environment)) ;;
     runCommand (Run (SedDelete (ReHas "CATALINA_HOME") etc_profile)) ;;
     runCommand (Run (SedDelete (ReHas "CATALINA_HOME") bashrc)) ;;
     runCommand (Run (SedDelete (ReHas "CATALINA_HOME") bash_profile)) ;;
     runCommand (Or (Run (SedDelete (ReHas "CATALINA_HOME") zshrc)) True_) ;;
     console_log "Tomcat uninstalled successfully.")
    (fun _ => console_error "Tomcat uninstallation failed.").

Definition removePreviousVersionsFile : M unit :=
  try_catch
    (h <- get_host ;;
     match prev_versions h with
     | Some _ =>
         console_log "Removing previous_versions.json..." ;;
         (if nonempty (env_user h)
          then
            runCommand (Run ChownPrev) ;;
            console_log ("Changed ownership of previous_versions.json to " +:+ env_user h)
          else console_warn "Unable to determine current user. Proceeding with sudo...") ;;
         runCommand (Run ChmodPrev) ;;
         console_log "Changed file permissions to 777 (read/write for all users)." ;;
         try_catch
           (Install.fs_call FsUnlinkPrev)
           (fun _ => runCommand (Run RmFPrev) ;; ret tt)
     | None => ret tt
     end)
    (fun error => console_error ("Failed to remove previous_versions.json: " +:+ error)).

Definition fullUninstall : M unit :=
  console_log "Starting full uninstallation..." ;;
  uninstallJava ;;
  uninstallTomcat ;;
  console_log "Full uninstallation completed.".

End Uninstall.

(** ** bin/mavee_updater_cli.js *)

Module Cli.

Definition safeAction (action : M unit) (actionName : string) : M unit :=
  try_catch
    (console_log ("Starting " +:+ actionName +:+ "...") ;;
     action ;;
     console_log (actionName +:+ " completed successfully!"))
    (fun error =>
       console_error (actionName +:+ " failed: " +:+ error) ;;
       process_exit 1).

Definition install_command (cfg : Config) : M unit :=
  safeAction (Install.install cfg) "Installation".

Definition upgrade_command : M unit :=
  console_log "Starting upgrade process..." ;;
  try_catch
    (Upgrade.upgrade ;;
     console_log "Upgrade completed successfully!" ;;
     process_exit 0)
    (fun error =>
       console_error ("Upgrade failed: " +:+ error) ;;
       process_exit 1).

Definition rollback_command : M unit :=
  safeAction Rollback.rollback "Rollback".

Definition uninstall_command : M unit :=
  safeAction
    (Uninstall.uninstallJava ;;
     Uninstall.uninstallTomcat ;;
     Uninstall.removePreviousVersionsFile)
    "Uninstallation".

(** The exit status of the process: the argument of `process.exit`, 0 when
    the action's promise resolves and nothing is left to run, 1 when its
    rejection is handled by nobody. *)
Definition exit_status {A} (r : Outcome A) : Z :=
  match r with
  | Ret _ => 0%Z
  | Throw _ => 1%Z
  | Exit code => code
  end.

Definition run (command : M unit) (W : World) (s : Proc) : Z * Proc :=
  (exit_status (command W s).1, (command W s).2).

End Cli.

(** ** Properties of a host *)

(** The canonical directories of a component: the entries of /opt that the
    globs /opt/openjdk-* and /opt/tomcat-* match. *)
Definition java_dirs (h : Host) : gmap string string :=
  filter (fun kv : string * string => String.prefix "openjdk-" kv.1 = true) (opt h).

Definition tomcat_dirs (h : Host) : gmap string string :=
  filter (fun kv : string * string => String.prefix "tomcat-" kv.1 = true) (opt h).

(** The content stored under a name in an area, if any. *)
Definition stored (a : Area) (name : string) (h : Host) : option string :=
  area a h ≫= lookup name.

(** The lines of a file that start with [pre]: the declarations of
    JAVA_HOME are the lines `export JAVA_HOME=...` of /etc/profile and the
    lines `JAVA_HOME=...` of /etc/environment. *)
Definition lines_with (pre file : string) (h : Host) : list string :=
  filter (fun l => String.prefix pre l = true) (default [] (files h !! file)).

(** What the installed-state inspection of getCurrentVersions reads for a
    naming pattern. *)
Definition current_version (pat : string) (h : Host) : string :=
  first_line (map (strip_first pat) (grep pat (ls Opt h))).

(** The name upgradeJava and upgradeTomcat find for the installed
    directory. *)
Definition existing (pat : string) (h : Host) : string :=
  first_line (grep pat (ls Opt h)).

(** A version without a dash: the patterns openjdk- and tomcat- cannot
    occur in it. *)
Fixpoint plain (v : string) : bool :=
  match v with
  | EmptyString => true
  | String c r => negb (Ascii.eqb c "-"%char) && plain r
  end.

(** The two components and what rollback.js uses for each. *)
Inductive Component := Java | Tomcat.

Definition backup_area (c : Component) : Area :=
  match c with Java => JavaBackups | Tomcat => TomcatBackups end.

Definition pattern (c : Component) : string :=
  match c with Java => "openjdk-" | Tomcat => "tomcat-" end.

Definition rollback_of (c : Component) : M unit :=
  match c with Java => Rollback.rollbackJava | Tomcat => Rollback.rollbackTomcat end.

#[global] Instance stream_eq_dec : EqDecision Stream.
Proof. solve_decision. Defined.

(** What the program prints on one stream. *)
Definition printed (st : Stream) (s : Proc) : list string :=
  map snd (filter (fun l : Stream * string => l.1 = st) (console s)).

(** The state after a line is printed, and after one more `exec`. *)
Definition say (st : Stream) (msg : string) (s : Proc) : Proc :=
  {| host := host s; ticks := ticks s; console := console s ++ [(st, msg)] |}.

Definition after (h : Host) (s : Proc) : Proc :=
  {| host := h; ticks := S (ticks s); console := console s |}.

(** The state in which upgrade() starts the Java step: the first line is
    printed and the installed versions were inspected twice, by upgrade()
    and by validateUpgradeConditions (four commands). *)
Definition validated (s : Proc) : Proc :=
  {| host := host s; ticks := 4 + ticks s;
     console := console s ++ [(Stdout, "Starting upgrade process...")] |}.

(** The state in which upgrade() starts its compensation, from the state
    [s] in which the Tomcat step failed. *)
Definition compensating (cfg : Config) (previous : string) (s : Proc) : Proc :=
  say Stdout ("Rolling back Java " +:+ javaVersion cfg +:+ " to " +:+ previous
              +:+ " since Tomcat failed...")
    (say Stderr "Tomcat upgrade failed. Rolling back..." s).

(** The two lines runCommand prints when a command fails. *)
Definition complain (s : Proc) : Proc :=
  say Stderr ("Error: " +:+ stderr) (say Stderr "Command failed" s).

(** ** Reasoning about runs *)

(** [wp m W s Q]: running [m] from [s] ends in an outcome and a state that
    satisfy [Q]. *)
Definition wp {A} (m : M A) (W : World) (s : Proc) (Q : Outcome A -> Proc -> Prop) : Prop :=
  Q (m W s).1 (m W s).2.

(** [resolves m]: the promise always resolves.  [quiet m]: the function never
    stops the process. *)
Definition resolves {A} (m : M A) : Prop := forall W s, exists a, (m W s).1 = Ret a.
Definition quiet {A} (m : M A) : Prop := forall W s c, (m W s).1 <> Exit c.

(** [keeps f m]: the run leaves the part [f] of the host as it was. *)
Definition keeps {X A} (f : Host -> X) (m : M A) : Prop :=
  forall W s, f (host (m W s).2) = f (host s).

Definition sh_keeps {X} (f : Host -> X) (c : Sh) : Prop :=
  forall net h, f (hst (sh_eval net c h)) = f h.

(** Every command of a script satisfies [P]. *)
Fixpoint sh_all (P : Prim -> bool) (c : Sh) : Prop :=
  match c with
  | Run p => P p = true
  | And a b | Or a b | Seq a b => sh_all P a /\ sh_all P b
  | True_ => True
  | Capture p k => P p = true /\ forall x, sh_all P (k x)
  end.

(** Commands that do not write under /opt/java_backups or
    /opt/tomcat_backups. *)
Definition backup_free (p : Prim) : bool :=
  match p with
  | MkdirP Opt | RmRf Opt _ | RmRfArea Opt | CpR _ _ Opt _ => true
  | MkdirP _ | RmRf _ _ | RmRfArea _ | CpR _ _ _ _ => false
  | _ => true
  end.

(** Commands that at most edit text files. *)
Definition text_only (p : Prim) : bool :=
  match p with
  | SedDelete _ _ | Tee _ _ | TeeAppend _ _ | Source _ | Untracked _ => true
  | _ => false
  end.

(** The two backup areas. *)
Definition backups (h : Host) : option (gmap string string) * option (gmap string string) :=
  (java_backups h, tomcat_backups h).

(** Commands that do not write previous_versions.json. *)
Definition record_free (p : Prim) : bool :=
  match p with
  | RmFPrev | FsWritePrev _ _ | FsUnlinkPrev => false
  | _ => true
  end.

(** The canonical directories of one component. *)
Definition component_dirs (c : Component) (h : Host) : gmap string string :=
  match c with Java => java_dirs h | Tomcat => tomcat_dirs h end.

(** What a rollback to version [v] configures: for Java the declaration of
    JAVA_HOME in /etc/environment, for Tomcat the unit of the version,
    written with the JAVA_HOME of the running process, enabled and
    started. *)
Definition reconfigured (c : Component) (v : string) (before now : Host) : Prop :=
  match c with
  | Java =>
      lines_with "JAVA_HOME=" etc_environment now
      = ["JAVA_HOME=" +:+ dq +:+ "/opt/" +:+ ("openjdk-" +:+ v) +:+ dq]
  | Tomcat =>
      units now !! unit_file ("tomcat-" +:+ v)
      = Some (service_unit v (env_java_home before) ("/opt/" +:+ ("tomcat-" +:+ v))) /\
      "tomcat-" +:+ v ∈ enabled now /\
      "tomcat-" +:+ v ∈ active now
  end.

(** upgrade() stops the process; a function rejects. *)
Definition aborts (W : World) (s : Proc) : Prop :=
  exists code, (Upgrade.upgrade W s).1 = Exit code.

Definition raises {A} (m : M A) (W : World) (s : Proc) : Prop :=
  exists e, (m W s).1 = Throw e.

(** Both desired versions are the installed ones. *)
Definition both_match (cfg : Config) (h : Host) : Prop :=
  javaVersion cfg = current_version "openjdk-" h /\
  tomcatVersion cfg = current_version "tomcat-" h.

(** The state with another record of versions. *)
Definition with_record (v : option (string * string)) (s : Proc) : Proc :=
  {| host := set_prev v (host s); ticks := ticks s; console := console s |}.

Definition sh_with_record (v : option (string * string)) (r : ShRes) : ShRes :=
  {| ok := ok r; hst := set_prev v (hst r); out := out r |}.

(** [ignores_record m]: the run does not depend on previous_versions.json;
    with another record it ends the same way and in the same state, but for
    the record. *)
Definition ignores_record {A} (m : M A) : Prop :=
  forall W s v, m W (with_record v s) = ((m W s).1, with_record v (m W s).2).

Definition sh_ignores_record (c : Sh) : Prop :=
  forall net h v, sh_eval net c (set_prev v h) = sh_with_record v (sh_eval net c h).

(** Commands that neither read nor write previous_versions.json. *)
Definition record_blind (p : Prim) : bool :=
  match p with
  | RmFPrev | ChownPrev | ChmodPrev
  | FsWritePrev _ _ | FsChmodPrev | FsChownPrev | FsUnlinkPrev => false
  | _ => true
  end.

(** ** Further properties of a host *)

(** What getCurrentVersions prints when the listing of a component fails:
    the two lines of runCommand and its own warning. *)
Definition listing_failed (what : string) (failed : bool) : list (Stream * string) :=
  if failed
  then [(Stderr, "Command failed"); (Stderr, "Error: " +:+ stderr);
        (Stderr, "No existing " +:+ what +:+ " installation found.")]
  else [].

(** /opt once upgradeJava or upgradeTomcat has removed the directory it
    found installed (none when the listing is empty). *)
Definition opt_without (pat : string) (h : Host) : gmap string string :=
  if nonempty (existing pat h) then delete (existing pat h) (opt h) else opt h.

(** Commands that do not write a given text file. *)
Definition leaves_file (file : string) (p : Prim) : bool :=
  match p with
  | SedDelete _ f | Tee _ f | TeeAppend _ f => negb (String.eqb f file)
  | _ => true
  end.

(** What the environment script of upgradeJava and rollbackUpgrade makes of
    the lines of /etc/profile and of /etc/environment: the three `sed`
    deletions, then the appended lines. *)
Definition profile_after (dir : string) (l : list string) : list string :=
  filter (fun x => re_match (ReStartsHas "export PATH=" "JAVA_HOME") x = false)
    (filter (fun x => re_match (ReStarts "export JAVA_HOME=") x = false) l)
  ++ ["export JAVA_HOME=/opt/" +:+ dir; "export PATH=$JAVA_HOME/bin:$PATH"].

Definition environment_after (dir : string) (l : list string) : list string :=
  filter (fun x => re_match (ReStarts "JAVA_HOME=") x = false) l
  ++ ["JAVA_HOME=/opt/" +:+ dir].

(** Commands that do not write under /etc/systemd/system. *)
Definition unit_free (p : Prim) : bool :=
  match p with
  | TeeUnit _ _ | RmFUnit _ | RmFUnitGlob _ | FsWriteUnit _ _ => false
  | _ => true
  end.

(** Commands that do not create a text file. *)
Definition no_create (p : Prim) : bool :=
  match p with
  | Tee _ _ | TeeAppend _ _ => false
  | _ => true
  end.

(** A text file is there. *)
Definition present (file : string) (h : Host) : bool :=
  bool_decide (is_Some (files h !! file)).

(** The host once upgradeJava or upgradeTomcat has copied the directory it
    found installed into the backup directory [b] and removed it from /opt;
    with nothing installed the host is as it was. *)
Definition backed_up (b : Area) (pat : string) (h : Host) : Host :=
  let e := existing pat h in
  if nonempty e
  then set_opt (delete e (opt h))
         (set_area b (<[e := default EmptyString (opt h !! e)]> (default ∅ (area b h))) h)
  else h.

(** The commands removePreviousVersionsFile runs before it unlinks the
    record: chown when the user is known, then chmod. *)
Definition removal_preparation (h : Host) : nat :=
  if nonempty (env_user h) then 2 else 1.

(** ** A host used in the examples *)

Module Demo.

Definition cfg_21 : Config :=
  {| javaVersion := "21"; javaUrl := "https://jdk.example/21.tar.gz";
     tomcatVersion := "10.1.34"; tomcatUrl := "https://tomcat.example/10.1.34.tar.gz" |}.

Definition cfg_25 : Config :=
  {| javaVersion := "25"; javaUrl := "https://jdk.example/25.tar.gz";
     tomcatVersion := "11.0.2"; tomcatUrl := "https://tomcat.example/11.0.2.tar.gz" |}.

(** Java 17 and Tomcat 9.0.1 installed, no backup yet. *)
Definition host_17 : Host :=
  {| opt := {[ "openjdk-17" := "jdk 17"; "tomcat-9.0.1" := "tomcat 9.0.1" ]};
     java_backups := None;
     tomcat_backups := None;
     tmp := ∅;
     files := {[ etc_profile := ["export JAVA_HOME=/opt/openjdk-17"; "export PATH=$JAVA_HOME/bin:$PATH"];
                 etc_environment := ["JAVA_HOME=/opt/openjdk-17"];
                 bashrc := [] ]};
     units := {[ "tomcat-9.0.1.service" := service_unit "9.0.1" "/opt/openjdk-17" "/opt/tomcat-9.0.1" ]};
     enabled := {[ "tomcat-9.0.1" ]};
     active := {[ "tomcat-9.0.1" ]};
     procs := ∅;
     has_group := true;
     has_user := true;
     env_java_home := "/opt/openjdk-17";
     env_user := "root";
     upgrade_cfg := Some cfg_21;
     prev_versions := Some ("17", "9.0.1") |}.

(** Nothing installed. *)
Definition host_fresh : Host :=
  {| opt := ∅; java_backups := None; tomcat_backups := None; tmp := ∅;
     files := {[ etc_profile := []; etc_environment := []; bashrc := [] ]};
     units := ∅; enabled := ∅; active := ∅; procs := ∅;
     has_group := false; has_user := false;
     env_java_home := EmptyString; env_user := "root";
     upgrade_cfg := None; prev_versions := None |}.

Definition start (h : Host) : Proc := {| host := h; ticks := 0; console := [] |}.

Definition serves (l : list (string * Archive)) (url : string) : option Archive :=
  snd <$> find (fun e : string * Archive => String.eqb e.1 url) l.

Definition jdk_21 : string * Archive :=
  ("https://jdk.example/21.tar.gz", {| top := "jdk-21.0.2"; payload := "jdk 21" |}).
Definition jdk_25 : string * Archive :=
  ("https://jdk.example/25.tar.gz", {| top := "jdk-25"; payload := "jdk 25" |}).
Definition tomcat_10 : string * Archive :=
  ("https://tomcat.example/10.1.34.tar.gz", {| top := "apache-tomcat-10.1.34"; payload := "tomcat 10.1.34" |}).

Definition no_fault : nat -> bool := fun _ => false.

(** Every archive is served. *)
Definition world_ok : World := {| faults := no_fault; net := serves [jdk_21; jdk_25; tomcat_10] |}.
(** The JDK archive cannot be fetched. *)
Definition world_no_jdk : World := {| faults := no_fault; net := serves [tomcat_10] |}.
(** The Tomcat archive cannot be fetched. *)
Definition world_no_tomcat : World := {| faults := no_fault; net := serves [jdk_21; jdk_25] |}.

(** The host after the first upgrade, asked to upgrade again. *)
Definition two_java_upgrades : M bool :=
  Upgrade.upgradeJava "21" "https://jdk.example/21.tar.gz" ;;
  Upgrade.upgradeJava "25" "https://jdk.example/25.tar.gz".

(** A descriptor that names the installed Java and a newer Tomcat. *)
Definition cfg_java_current : Config :=
  {| javaVersion := "17"; javaUrl := "https://jdk.example/17.tar.gz";
     tomcatVersion := "10.1.34"; tomcatUrl := "https://tomcat.example/10.1.34.tar.gz" |}.

Definition host_java_current : Host :=
  {| opt := opt host_17; java_backups := None; tomcat_backups := None; tmp := ∅;
     files := files host_17; units := units host_17; enabled := enabled host_17;
     active := active host_17; procs := ∅; has_group := true; has_user := true;
     env_java_home := "/opt/openjdk-17"; env_user := "root";
     upgrade_cfg := Some cfg_java_current;
     prev_versions := Some ("17", "9.0.1") |}.

(** A descriptor that names both installed versions. *)
Definition host_both_current : Host :=
  {| opt := opt host_17; java_backups := None; tomcat_backups := None; tmp := ∅;
     files := files host_17; units := units host_17; enabled := enabled host_17;
     active := active host_17; procs := ∅; has_group := true; has_user := true;
     env_java_home := "/opt/openjdk-17"; env_user := "root";
     upgrade_cfg := Some {| javaVersion := "17"; javaUrl := "https://jdk.example/17.tar.gz";
                            tomcatVersion := "9.0.1";
                            tomcatUrl := "https://tomcat.example/9.0.1.tar.gz" |};
     prev_versions := Some ("17", "9.0.1") |}.

(** Java 21 and Tomcat 10.1.34 installed, with the backups of 17 and 9.0.1
    that the upgrade made. *)
Definition host_21 : Host := host (Upgrade.upgrade world_ok (start host_17)).2.

(** The run in which the Tomcat archive cannot be fetched: the states after
    the Java step and after the failed Tomcat step. *)
Definition java_done : Proc :=
  (Upgrade.upgradeJava "21" (javaUrl cfg_21) world_no_tomcat (validated (start host_17))).2.

Definition tomcat_failed : Proc :=
  (Upgrade.upgradeTomcat "10.1.34" (tomcatUrl cfg_21) "21" world_no_tomcat java_done).2.

(** The two component installations of install(), and install() run twice. *)
Definition components_installed : Proc :=
  ((Install.installJava cfg_21 ;; Install.installTomcat cfg_21) world_ok (start host_17)).2.

Definition install_twice : M unit :=
  Install.install cfg_21 ;; Install.install cfg_21.

End Demo.

(** * Lemmas *)

(** ** Text *)

Section TextFacts.

Lemma app_cons c p v : String c p +:+ v = String c (p +:+ v).
Proof. reflexivity. Qed.

Lemma prefix_nil s : String.prefix EmptyString s = true.
Proof. by destruct s. Qed.

Lemma prefix_cons c p s : String.prefix (String c p) (String c s) = String.prefix p s.
Proof. cbn [String.prefix]. by destruct (ascii_dec c c). Qed.

Lemma prefix_app p v : String.prefix p (p +:+ v) = true.
Proof.
  induction p as [|c p IH].
  - apply prefix_nil.
  - by rewrite app_cons, prefix_cons.
Qed.

Lemma drop_chars_app p v : drop_chars (String.length p) (p +:+ v) = v.
Proof. induction p as [|c p IH]; [done|]. rewrite app_cons. exact IH. Qed.

Lemma strip_first_app p v : strip_first p (p +:+ v) = v.
Proof.
  destruct p as [|c p].
  - destruct v; reflexivity.
  - rewrite app_cons. cbn [strip_first]. rewrite <- app_cons, prefix_app. apply drop_chars_app.
Qed.

Lemma contains_app p v : contains p (p +:+ v) = true.
Proof.
  destruct p as [|c p].
  - destruct v; reflexivity.
  - rewrite app_cons. cbn [contains]. by rewrite <- app_cons, prefix_app.
Qed.

Lemma nonempty_app p v : nonempty p = true -> nonempty (p +:+ v) = true.
Proof. by destruct p. Qed.

(** A string that starts with [p] is [p] followed by something. *)
Lemma prefix_split p s : String.prefix p s = true -> exists r, s = p +:+ r.
Proof.
  revert s. induction p as [|c p IH]; intros s H.
  - by exists s.
  - destruct s as [|b s]; [done|]. cbn [String.prefix] in H.
    destruct (ascii_dec c b) as [<-|]; [|done].
    destruct (IH s H) as [r ->]. by exists r.
Qed.

Lemma plain_app p v : plain (p +:+ v) = plain p && plain v.
Proof.
  induction p as [|c p IH]; [done|].
  rewrite app_cons. cbn [plain]. rewrite IH. by rewrite andb_assoc.
Qed.

(** A pattern with a dash does not occur in a version without one. *)
Lemma plain_no_prefix p v : plain p = false -> plain v = true -> String.prefix p v = false.
Proof.
  intros Hp Hv. destruct (String.prefix p v) eqn:E; [|done].
  destruct (prefix_split _ _ E) as [r ->].
  rewrite plain_app, Hp in Hv. done.
Qed.

Lemma plain_tail c v : plain (String c v) = true -> plain v = true.
Proof. cbn [plain]. by intros [_ ?]%andb_prop. Qed.

Lemma plain_no_contains p v : plain p = false -> plain v = true -> contains p v = false.
Proof.
  intros Hp. induction v as [|c v IH]; intros Hv.
  - cbn [contains]. by rewrite plain_no_prefix.
  - cbn [contains]. rewrite plain_no_prefix by done. cbn [orb].
    apply IH. by eapply plain_tail.
Qed.

Lemma contains_skip p c v :
  String.prefix p (String c v) = false -> contains p (String c v) = contains p v.
Proof. intros H. cbn [contains]. by rewrite H. Qed.

(** The directory of one component does not match the pattern of the
    other. *)
Lemma openjdk_in_tomcat_dir t : plain t = true -> contains "openjdk-" ("tomcat-" +:+ t) = false.
Proof.
  intros Ht. rewrite !app_cons.
  do 7 (rewrite contains_skip by reflexivity).
  by apply plain_no_contains.
Qed.

Lemma tomcat_in_openjdk_dir j : plain j = true -> contains "tomcat-" ("openjdk-" +:+ j) = false.
Proof.
  intros Hj. rewrite !app_cons.
  do 8 (rewrite contains_skip by reflexivity).
  by apply plain_no_contains.
Qed.

Lemma tomcat_not_openjdk k : String.prefix "tomcat-" k = true -> String.prefix "openjdk-" k = false.
Proof.
  destruct k as [|c r]; [done|]. cbn [String.prefix].
  destruct (ascii_dec "t"%char c) as [<-|]; [|done]. intros _. reflexivity.
Qed.

Lemma openjdk_not_tomcat k : String.prefix "openjdk-" k = true -> String.prefix "tomcat-" k = false.
Proof.
  destruct k as [|c r]; [done|]. cbn [String.prefix].
  destruct (ascii_dec "o"%char c) as [<-|]; [|done]. intros _. reflexivity.
Qed.

Lemma filter_prefix_deleted (pre : string) (l : list string) :
  filter (fun x => String.prefix pre x = true) (filter (fun x => String.prefix pre x = false) l) = [].
Proof.
  induction l as [|x l IH]; [done|].
  rewrite (filter_cons (fun x => String.prefix pre x = false)).
  destruct (decide (String.prefix pre x = false)) as [E|E]; [|done].
  rewrite filter_cons. destruct (decide (String.prefix pre x = true)); [congruence|done].
Qed.

End TextFacts.

(** The version order on some names, as `sort -V` of GNU coreutils 9.1
    prints them: digits compare as numbers, a letter comes before any other
    character, `~` before everything, and a name that compares equal to
    another up to leading zeros is ordered byte by byte. *)
Lemma sort_versions_examples :
  sort_versions ["openjdk-17a"; "openjdk-17.1"] = ["openjdk-17a"; "openjdk-17.1"] /\
  sort_versions ["openjdk-9"; "openjdk-17"; "openjdk-11"]
  = ["openjdk-9"; "openjdk-11"; "openjdk-17"] /\
  sort_versions ["tomcat-10.1.34"; "tomcat-9.0.99"; "tomcat-9.0.1"; "tomcat-10.1.4"]
  = ["tomcat-9.0.1"; "tomcat-9.0.99"; "tomcat-10.1.4"; "tomcat-10.1.34"] /\
  sort_versions ["openjdk-17.0.2"; "openjdk-17"; "openjdk-17~rc1"; "openjdk-017"]
  = ["openjdk-17~rc1"; "openjdk-017"; "openjdk-17"; "openjdk-17.0.2"] /\
  sort_versions ["openjdk-21.tar.gz"; "openjdk-21"; "openjdk-21.0.tar.gz"]
  = ["openjdk-21"; "openjdk-21.tar.gz"; "openjdk-21.0.tar.gz"].
Proof. repeat split; vm_compute; reflexivity. Qed.

(** ** Directories *)

Section DirFacts.

Implicit Types o d : gmap string string.

(** `rm -rf /opt/pre*` followed by `cp -r backup /opt/name`, when [name]
    matches the glob: [name] is the only match left. *)
Lemma restore_only (pre name p : string) o :
  String.prefix pre name = true ->
  filter (fun kv : string * string => String.prefix pre kv.1 = true)
    (<[name := p]> (filter (fun kv : string * string => String.prefix pre kv.1 = false) o))
  = {[ name := p ]}.
Proof.
  intros Hn. apply map_eq; intros k. apply option_eq; intros x.
  rewrite map_lookup_filter_Some, lookup_insert_Some, lookup_singleton_Some.
  rewrite map_lookup_filter_Some. simpl. split.
  - intros [[[-> ->]|[_ [_ Hd]]] Hk]; [done | congruence].
  - intros [-> ->]. split; [by left | done].
Qed.

(** The same two commands leave the entries of another glob alone. *)
Lemma restore_frame (pre pre' name p : string) o :
  String.prefix pre' name = false ->
  (forall k, String.prefix pre' k = true -> String.prefix pre k = false) ->
  filter (fun kv : string * string => String.prefix pre' kv.1 = true)
    (<[name := p]> (filter (fun kv : string * string => String.prefix pre kv.1 = false) o))
  = filter (fun kv : string * string => String.prefix pre' kv.1 = true) o.
Proof.
  intros Hn Hd. apply map_eq; intros k. apply option_eq; intros x.
  rewrite !map_lookup_filter_Some, lookup_insert_Some, map_lookup_filter_Some. simpl.
  split.
  - intros [[[-> ->]|[_ [Ho _]]] Hk]; [congruence | done].
  - intros [Ho Hk]. split; [|done]. right. split; [congruence|]. auto.
Qed.

Lemma filtered_out (pre name : string) o :
  String.prefix pre name = true ->
  filter (fun kv : string * string => String.prefix pre kv.1 = false) o !! name = None.
Proof.
  intros Hn. apply map_lookup_filter_None. right. intros x _. simpl. congruence.
Qed.

(** Sorting a listing keeps its names. *)
Lemma insert_by_perm le x l : insert_by le x l ≡ₚ x :: l.
Proof.
  induction l as [|y l IH]; [done|]. cbn [insert_by].
  destruct (le x y); [done|]. rewrite IH. apply Permutation_swap.
Qed.

Lemma sort_by_perm le l : sort_by le l ≡ₚ l.
Proof.
  induction l as [|x l IH]; [done|].
  unfold sort_by in *. cbn [foldr]. by rewrite insert_by_perm, IH.
Qed.

Lemma names_of_spec {A} (m : gmap string A) k : k ∈ names_of m <-> is_Some (m !! k).
Proof.
  unfold names_of, sort_names. rewrite sort_by_perm.
  rewrite list_elem_of_fmap. split.
  - intros [[k' x] [-> H]]. apply elem_of_map_to_list in H. by exists x.
  - intros [x H]. exists (k, x). split; [done|]. by apply elem_of_map_to_list.
Qed.

Lemma names_of_nodup {A} (m : gmap string A) : NoDup (names_of m).
Proof.
  unfold names_of, sort_names. rewrite sort_by_perm. apply NoDup_fst_map_to_list.
Qed.

Lemma only_element {A} (l : list A) (k : A) :
  NoDup l -> (forall x, x ∈ l <-> x = k) -> l = [k].
Proof.
  intros Hnd H. destruct l as [|a [|b l]].
  - assert (k ∈ ([] : list A)) as Hk by by apply H. by apply elem_of_nil in Hk.
  - f_equal. apply H. by left.
  - assert (a = k) as -> by (apply H; by left).
    assert (b = k) as -> by (apply H; right; by left).
    apply NoDup_cons in Hnd as [Hnd _]. destruct Hnd. by left.
Qed.

(** grep over a listing in which one name matches. *)
Lemma grep_only {A} (m : gmap string A) pat k :
  is_Some (m !! k) -> contains pat k = true ->
  (forall k', is_Some (m !! k') -> contains pat k' = true -> k' = k) ->
  grep pat (names_of m) = [k].
Proof.
  intros Hk Hc Hu. apply only_element.
  - apply NoDup_filter, names_of_nodup.
  - intros x. unfold grep. rewrite list_elem_of_filter, names_of_spec. split.
    + intros [? ?]. by apply Hu.
    + by intros ->.
Qed.

(** The listing of a host with one JDK and one Tomcat. *)
Lemma grep_openjdk_pair j t (pj pt : string) :
  plain t = true ->
  grep "openjdk-" (names_of ({[ "openjdk-" +:+ j := pj; "tomcat-" +:+ t := pt ]} : gmap string string))
  = ["openjdk-" +:+ j].
Proof.
  intros Ht. apply grep_only.
  - rewrite lookup_insert_eq. by eexists.
  - apply contains_app.
  - intros k' [x Hx] Hc. apply lookup_insert_Some in Hx as [[<- _]|[_ Hx]]; [done|].
    apply lookup_singleton_Some in Hx as [<- _].
    by rewrite openjdk_in_tomcat_dir in Hc.
Qed.

Lemma grep_tomcat_pair j t (pj pt : string) :
  plain j = true ->
  grep "tomcat-" (names_of ({[ "openjdk-" +:+ j := pj; "tomcat-" +:+ t := pt ]} : gmap string string))
  = ["tomcat-" +:+ t].
Proof.
  intros Hj. apply grep_only.
  - rewrite lookup_insert_ne by done. rewrite lookup_singleton_eq. by eexists.
  - apply contains_app.
  - intros k' [x Hx] Hc. apply lookup_insert_Some in Hx as [[<- _]|[_ Hx]].
    + by rewrite tomcat_in_openjdk_dir in Hc.
    + by apply lookup_singleton_Some in Hx as [<- _].
Qed.

End DirFacts.

(** ** The rules of [wp] *)

Section WpRules.

Context {A : Type}.
Implicit Types Q : Outcome A -> Proc -> Prop.

Lemma wp_elim (m : M A) W s Q : wp m W s Q -> exists o s', m W s = (o, s') /\ Q o s'.
Proof. unfold wp. destruct (m W s) as [o s']. eauto. Qed.

Lemma wp_mono (m : M A) W s Q Q' :
  wp m W s Q -> (forall o s', Q o s' -> Q' o s') -> wp m W s Q'.
Proof. unfold wp. auto. Qed.

Lemma wp_ret (a : A) W s Q : Q (Ret a) s -> wp (ret a) W s Q.
Proof. done. Qed.

Lemma wp_throw e W s Q : Q (Throw e) s -> wp (throw e) W s Q.
Proof. done. Qed.

Lemma wp_exit c W s Q : Q (Exit c) s -> wp (process_exit c) W s Q.
Proof. done. Qed.

Lemma wp_bind {B} (m : M B) (f : B -> M A) W s Q :
  wp m W s (fun o s' =>
    match o with
    | Ret a => wp (f a) W s' Q
    | Throw e => Q (Throw e) s'
    | Exit c => Q (Exit c) s'
    end) ->
  wp (bind m f) W s Q.
Proof. unfold wp, bind. by destruct (m W s) as [[a|e|c] s']. Qed.

Lemma wp_try (m : M A) (h : string -> M A) W s Q :
  wp m W s (fun o s' =>
    match o with
    | Throw e => wp (h e) W s' Q
    | _ => Q o s'
    end) ->
  wp (try_catch m h) W s Q.
Proof. unfold wp, try_catch. by destruct (m W s) as [[a|e|c] s']. Qed.

Lemma wp_try_inv (m : M A) (h : string -> M A) W s Q :
  wp (try_catch m h) W s Q ->
  wp m W s (fun o s' =>
    match o with
    | Throw e => wp (h e) W s' Q
    | _ => Q o s'
    end).
Proof. unfold wp, try_catch. by destruct (m W s) as [[a|e|c] s']. Qed.

(** A run that never stops the process, and a run that leaves a part of the
    host alone, seen through [wp]. *)
Lemma wp_quiet (m : M A) W s Q :
  quiet m -> (forall o s', (forall c, o <> Exit c) -> Q o s') -> wp m W s Q.
Proof. intros Hq H. apply H. apply Hq. Qed.

Lemma wp_keeps {X} (f : Host -> X) (m : M A) W s Q :
  keeps f m -> (forall o s', f (host s') = f (host s) -> Q o s') -> wp m W s Q.
Proof. intros Hk H. apply H. apply Hk. Qed.

End WpRules.

Lemma wp_eq {A} (m : M A) W s o s' :
  wp m W s (fun o' s'' => o' = o /\ s'' = s') -> m W s = (o, s').
Proof. unfold wp. destruct (m W s) as [o' s'']; simpl. by intros [-> ->]. Qed.

Lemma wp_known {A} (m : M A) W s o s' (Q : Outcome A -> Proc -> Prop) :
  m W s = (o, s') -> Q o s' -> wp m W s Q.
Proof. unfold wp. by intros ->. Qed.

Lemma wp_get_host W s Q : Q (Ret (host s)) s -> wp get_host W s Q.
Proof. done. Qed.

Lemma wp_print st msg W s Q : Q (Ret tt) (say st msg s) -> wp (print st msg) W s Q.
Proof. done. Qed.

Lemma wp_exec c W s Q :
  (faults W (ticks s) = true -> Q (Ret None) (after (host s) s)) ->
  (faults W (ticks s) = false ->
   Q (Ret (if ok (sh_eval (net W) c (host s))
           then Some (out (sh_eval (net W) c (host s))) else None))
     (after (hst (sh_eval (net W) c (host s))) s)) ->
  wp (exec c) W s Q.
Proof. unfold wp, exec. destruct (faults W (ticks s)); auto. Qed.

(** runCommand of upgrade.js: a fault, a failing script, a script that
    succeeds. *)
Lemma wp_runCommand c W s Q :
  (faults W (ticks s) = true -> Q (Throw stderr) (complain (after (host s) s))) ->
  (faults W (ticks s) = false -> ok (sh_eval (net W) c (host s)) = false ->
   Q (Throw stderr) (complain (after (hst (sh_eval (net W) c (host s))) s))) ->
  (faults W (ticks s) = false -> ok (sh_eval (net W) c (host s)) = true ->
   Q (Ret (out (sh_eval (net W) c (host s)))) (after (hst (sh_eval (net W) c (host s))) s)) ->
  wp (Upgrade.runCommand c) W s Q.
Proof.
  intros H1 H2 H3. unfold wp, Upgrade.runCommand, bind, exec.
  destruct (faults W (ticks s)) eqn:Hf.
  - exact (H1 eq_refl).
  - destruct (ok _) eqn:E.
    + exact (H3 eq_refl eq_refl).
    + exact (H2 eq_refl eq_refl).
Qed.

(** rollback.js has the same runCommand. *)
Lemma wp_runCommand_rb c W s Q :
  wp (Upgrade.runCommand c) W s Q -> wp (Rollback.runCommand c) W s Q.
Proof. done. Qed.

(** No fault at this tick, and a script known to succeed. *)
Lemma wp_runCommand_eq c W s Q r :
  faults W (ticks s) = false ->
  sh_eval (net W) c (host s) = r ->
  ok r = true ->
  Q (Ret (out r)) (after (hst r) s) ->
  wp (Upgrade.runCommand c) W s Q.
Proof. intros Hf <- Hok HQ. apply wp_runCommand; intros; congruence. Qed.

Ltac hsimpl :=
  cbn [sh_eval prim_exec ok hst out done_ok failed says when_ok and_all
       host ticks console after say complain
       opt java_backups tomcat_backups tmp files units enabled active procs
       has_group has_user env_java_home env_user upgrade_cfg prev_versions
       set_opt set_java_backups set_tomcat_backups set_tmp set_files set_units
       set_enabled set_active set_procs set_group set_user set_prev
       area set_area drop_area exists_in fst snd tpl default from_option id
       negb andb orb nonempty] in *.

Ltac wp_pure :=
  lazymatch goal with
  | |- wp (bind _ _) _ _ _ => apply wp_bind
  | |- wp (try_catch _ _) _ _ _ => apply wp_try
  | |- wp (ret _) _ _ _ => apply wp_ret
  | |- wp (throw _) _ _ _ => apply wp_throw
  | |- wp (process_exit _) _ _ _ => apply wp_exit
  | |- wp get_host _ _ _ => apply wp_get_host
  | |- wp (print _ _) _ _ _ => apply wp_print
  | |- wp (console_log _) _ _ _ => apply wp_print
  | |- wp (console_error _) _ _ _ => apply wp_print
  | |- wp (console_warn _) _ _ _ => apply wp_print
  end.

Ltac wp_go := repeat (wp_pure; hsimpl).

(** A command that runs without a fault and succeeds; the first goal left is
    the evaluation of its script. *)
Ltac wp_run Hf :=
  wp_go; try apply wp_runCommand_rb;
  eapply wp_runCommand_eq; [apply Hf | hsimpl | | ].

(** ** Runs that resolve, runs that never exit *)

Section OutcomeRules.

Lemma resolves_quiet {A} (m : M A) : resolves m -> quiet m.
Proof. intros H W s c E. destruct (H W s) as [a Ha]. congruence. Qed.

Lemma resolves_ret {A} (a : A) : resolves (ret a).
Proof. intros W s. by exists a. Qed.

Lemma resolves_print st msg : resolves (print st msg).
Proof. intros W s. by exists tt. Qed.

Lemma resolves_get_host : resolves get_host.
Proof. intros W s. by eexists. Qed.

Lemma resolves_exec c : resolves (exec c).
Proof. intros W s. unfold exec. destruct (faults W (ticks s)); by eexists. Qed.

Lemma resolves_bind {A B} (m : M A) (f : A -> M B) :
  resolves m -> (forall a, resolves (f a)) -> resolves (bind m f).
Proof.
  intros Hm Hf W s. unfold bind. destruct (Hm W s) as [a Ha].
  destruct (m W s) as [[a'|e|c] s']; simpl in Ha; try discriminate.
  apply Hf.
Qed.

Lemma resolves_try {A} (m : M A) (h : string -> M A) :
  quiet m -> (forall e, resolves (h e)) -> resolves (try_catch m h).
Proof.
  intros Hm Hh W s. unfold try_catch. specialize (Hm W s).
  destruct (m W s) as [[a|e|c] s']; simpl in *.
  - by exists a.
  - apply Hh.
  - by destruct (Hm c).
Qed.

Lemma quiet_throw {A} e : quiet (@throw A e).
Proof. intros W s c. discriminate. Qed.

Lemma quiet_bind {A B} (m : M A) (f : A -> M B) :
  quiet m -> (forall a, quiet (f a)) -> quiet (bind m f).
Proof.
  intros Hm Hf W s c. unfold bind. specialize (Hm W s).
  destruct (m W s) as [[a|e|c'] s']; simpl in *.
  - apply Hf.
  - discriminate.
  - intros [= ->]. by apply (Hm c).
Qed.

Lemma quiet_try {A} (m : M A) (h : string -> M A) :
  quiet m -> (forall e, quiet (h e)) -> quiet (try_catch m h).
Proof.
  intros Hm Hh W s c. unfold try_catch. specialize (Hm W s).
  destruct (m W s) as [[a|e|c'] s']; simpl in *.
  - discriminate.
  - apply Hh.
  - apply Hm.
Qed.

Lemma quiet_for_each {A} (l : list A) (body : A -> M unit) :
  (forall x, quiet (body x)) -> quiet (for_each l body).
Proof.
  intros Hb. induction l as [|x r IH]; simpl.
  - apply resolves_quiet, resolves_ret.
  - apply quiet_bind; auto.
Qed.

Lemma resolves_unit (m : M unit) W s : resolves m -> exists s', m W s = (Ret tt, s').
Proof.
  intros H. destruct (H W s) as [[] Ha]. destruct (m W s) as [o s']. simpl in Ha.
  subst. by exists s'.
Qed.

End OutcomeRules.

Create HintDb js discriminated.
#[local] Hint Resolve resolves_ret resolves_print resolves_get_host resolves_exec quiet_throw : js.

Ltac outcome_step :=
  match goal with
  | |- resolves (bind _ _) => apply resolves_bind; [|intros ?]
  | |- resolves (try_catch _ _) => apply resolves_try; [|intros ?]
  | |- quiet (bind _ _) => apply quiet_bind; [|intros ?]
  | |- quiet (try_catch _ _) => apply quiet_try; [|intros ?]
  | |- quiet (for_each _ _) => apply quiet_for_each; intros ?
  | |- resolves (console_log _) => apply resolves_print
  | |- resolves (console_error _) => apply resolves_print
  | |- resolves (console_warn _) => apply resolves_print
  | |- quiet (throw _) => apply quiet_throw
  | |- quiet (console_log _) => apply resolves_quiet, resolves_print
  | |- quiet (console_error _) => apply resolves_quiet, resolves_print
  | |- quiet (console_warn _) => apply resolves_quiet, resolves_print
  | |- resolves (match ?x with _ => _ end) => destruct x
  | |- quiet (match ?x with _ => _ end) => destruct x
  | |- resolves _ => solve [auto with js]
  | |- quiet _ => solve [apply resolves_quiet; auto with js]
  end.

Ltac outcome := repeat outcome_step.

Section Quiet.

Lemma quiet_runCommand c : quiet (Upgrade.runCommand c).
Proof. unfold Upgrade.runCommand. outcome. Qed.

Lemma quiet_uninstall_runCommand c : quiet (Uninstall.runCommand c).
Proof. unfold Uninstall.runCommand. outcome. Qed.

Lemma quiet_fs_call p : quiet (Install.fs_call p).
Proof. unfold Install.fs_call. outcome. Qed.

Lemma resolves_getCurrentVersions : resolves Upgrade.getCurrentVersions.
Proof. unfold Upgrade.getCurrentVersions. outcome; apply quiet_runCommand. Qed.

Lemma quiet_createBackup a b : quiet (Upgrade.createBackup a b).
Proof. unfold Upgrade.createBackup. outcome; apply quiet_runCommand. Qed.

Lemma quiet_ensureTomcatUserAndGroup : quiet Upgrade.ensureTomcatUserAndGroup.
Proof. unfold Upgrade.ensureTomcatUserAndGroup. outcome; apply quiet_runCommand. Qed.

Lemma resolves_rollbackUpgrade j t : resolves (Upgrade.rollbackUpgrade j t).
Proof.
  unfold Upgrade.rollbackUpgrade. outcome;
    first [apply quiet_runCommand | apply quiet_ensureTomcatUserAndGroup].
Qed.

Lemma quiet_upgradeJava v u : quiet (Upgrade.upgradeJava v u).
Proof.
  unfold Upgrade.upgradeJava. outcome;
    first [apply quiet_runCommand | apply quiet_createBackup
          | apply resolves_quiet, resolves_getCurrentVersions
          | apply resolves_quiet, resolves_rollbackUpgrade].
Qed.

Lemma quiet_upgradeTomcat v u j : quiet (Upgrade.upgradeTomcat v u j).
Proof.
  unfold Upgrade.upgradeTomcat. outcome;
    first [apply quiet_runCommand | apply quiet_createBackup
          | apply quiet_ensureTomcatUserAndGroup
          | apply resolves_quiet, resolves_getCurrentVersions
          | apply resolves_quiet, resolves_rollbackUpgrade].
Qed.

Lemma resolves_uninstallJava : resolves Uninstall.uninstallJava.
Proof. unfold Uninstall.uninstallJava. outcome; apply quiet_uninstall_runCommand. Qed.

Lemma resolves_uninstallTomcat : resolves Uninstall.uninstallTomcat.
Proof. unfold Uninstall.uninstallTomcat. outcome; apply quiet_uninstall_runCommand. Qed.

Lemma resolves_removePreviousVersionsFile : resolves Uninstall.removePreviousVersionsFile.
Proof.
  unfold Uninstall.removePreviousVersionsFile. outcome;
    first [apply quiet_uninstall_runCommand | apply quiet_fs_call].
Qed.

Lemma resolves_fullUninstall : resolves Uninstall.fullUninstall.
Proof.
  unfold Uninstall.fullUninstall. outcome;
    first [apply resolves_uninstallJava | apply resolves_uninstallTomcat].
Qed.

Lemma resolves_rollbackJava : resolves Rollback.rollbackJava.
Proof. unfold Rollback.rollbackJava. outcome; apply quiet_runCommand. Qed.

Lemma resolves_rollbackTomcat : resolves Rollback.rollbackTomcat.
Proof. unfold Rollback.rollbackTomcat. outcome; apply quiet_runCommand. Qed.

Lemma resolves_rollback : resolves Rollback.rollback.
Proof.
  unfold Rollback.rollback. outcome;
    first [apply resolves_quiet, resolves_rollbackJava
          | apply resolves_quiet, resolves_rollbackTomcat].
Qed.

(** safeAction around an action that cannot fail. *)
Lemma safeAction_resolves action name W s :
  resolves action ->
  exists s', Cli.safeAction action name W s = (Ret tt, s') /\
             last (console s') = Some (Stdout, name +:+ " completed successfully!").
Proof.
  intros H. unfold Cli.safeAction, try_catch, bind, console_log, print.
  destruct (resolves_unit action W
              {| host := host s; ticks := ticks s;
                 console := console s ++ [(Stdout, "Starting " +:+ name +:+ "...")] |} H)
    as [s1 ->].
  eexists. split; [reflexivity|]. cbn [console]. apply last_snoc.
Qed.

End Quiet.

(** ** Runs that leave a part of the host alone *)

Section KeepsRules.

Context {X : Type} (f : Host -> X).

Lemma keeps_ret {A} (a : A) : keeps f (ret a).
Proof. done. Qed.

Lemma keeps_throw {A} e : keeps f (@throw A e).
Proof. done. Qed.

Lemma keeps_exit {A} c : keeps f (@process_exit A c).
Proof. done. Qed.

Lemma keeps_get_host : keeps f get_host.
Proof. done. Qed.

Lemma keeps_print st msg : keeps f (print st msg).
Proof. done. Qed.

Lemma keeps_bind {A B} (m : M A) (k : A -> M B) :
  keeps f m -> (forall a, keeps f (k a)) -> keeps f (bind m k).
Proof.
  intros Hm Hk W s. unfold bind. specialize (Hm W s).
  destruct (m W s) as [[a|e|c] s']; simpl in *; try done.
  by rewrite Hk.
Qed.

Lemma keeps_try {A} (m : M A) (h : string -> M A) :
  keeps f m -> (forall e, keeps f (h e)) -> keeps f (try_catch m h).
Proof.
  intros Hm Hh W s. unfold try_catch. specialize (Hm W s).
  destruct (m W s) as [[a|e|c] s']; simpl in *; try done.
  by rewrite Hh.
Qed.

Lemma keeps_for_each {A} (l : list A) (body : A -> M unit) :
  (forall x, keeps f (body x)) -> keeps f (for_each l body).
Proof.
  intros Hb. induction l as [|x r IH]; simpl; [done|].
  apply keeps_bind; auto.
Qed.

Lemma keeps_exec c : sh_keeps f c -> keeps f (exec c).
Proof.
  intros Hc W s. unfold exec. destruct (faults W (ticks s)); simpl; [done|]. apply Hc.
Qed.

Lemma keeps_runCommand c : sh_keeps f c -> keeps f (Upgrade.runCommand c).
Proof.
  intros Hc. unfold Upgrade.runCommand. apply keeps_bind; [by apply keeps_exec|].
  intros [out|]; [done|]. repeat (apply keeps_bind; [done|intros _]). done.
Qed.

Lemma keeps_fs_call p : sh_keeps f (Run p) -> keeps f (Install.fs_call p).
Proof.
  intros Hc. unfold Install.fs_call. apply keeps_bind; [by apply keeps_exec|].
  by intros [out|].
Qed.

(** A script keeps [f] when each of its commands does. *)
Lemma sh_keeps_all (P : Prim -> bool) c :
  (forall p net h, P p = true -> f (hst (prim_exec net p h)) = f h) ->
  sh_all P c -> sh_keeps f c.
Proof.
  intros HP. induction c as [p|a IHa b IHb|a IHa b IHb|a IHa b IHb| |p k IH];
    cbn [sh_all]; intros Hc net h; cbn [sh_eval].
  - by apply HP.
  - destruct Hc as [Ha Hb]. destruct (ok (sh_eval net a h)); cbn [hst].
    + by rewrite IHb, IHa.
    + by rewrite IHa.
  - destruct Hc as [Ha Hb]. destruct (ok (sh_eval net a h)); cbn [hst].
    + by rewrite IHa.
    + by rewrite IHb, IHa.
  - destruct Hc as [Ha Hb]. cbn [hst]. by rewrite IHb, IHa.
  - done.
  - destruct Hc as [Hp Hk]. destruct (ok (prim_exec net p h)); cbn [hst].
    + rewrite IH by apply Hk. by apply HP.
    + by apply HP.
Qed.

End KeepsRules.

(** What a command that is [backup_free] leaves alone. *)
Lemma backup_free_keeps p net h :
  backup_free p = true ->
  (java_backups (hst (prim_exec net p h)), tomcat_backups (hst (prim_exec net p h)))
  = (java_backups h, tomcat_backups h).
Proof.
  destruct p; try destruct a; try destruct b; try discriminate; intros _;
    cbn [prim_exec]; repeat case_match; reflexivity.
Qed.

Lemma record_free_keeps p net h :
  record_free p = true -> prev_versions (hst (prim_exec net p h)) = prev_versions h.
Proof.
  destruct p; try discriminate; intros _;
    cbn [prim_exec]; try destruct a; try destruct b; repeat case_match; reflexivity.
Qed.

Lemma sh_keeps_backups c : sh_all backup_free c -> sh_keeps backups c.
Proof. apply sh_keeps_all. intros p net h. apply backup_free_keeps. Qed.

Lemma sh_keeps_record c : sh_all record_free c -> sh_keeps prev_versions c.
Proof. apply sh_keeps_all. intros p net h. apply record_free_keeps. Qed.

Ltac keeps_step :=
  match goal with
  | |- keeps _ (bind _ _) => apply keeps_bind; [|intros ?]
  | |- keeps _ (try_catch _ _) => apply keeps_try; [|intros ?]
  | |- keeps _ (for_each _ _) => apply keeps_for_each; intros ?
  | |- keeps _ (ret _) => apply keeps_ret
  | |- keeps _ (throw _) => apply keeps_throw
  | |- keeps _ (process_exit _) => apply keeps_exit
  | |- keeps _ get_host => apply keeps_get_host
  | |- keeps _ (console_log _) => apply keeps_print
  | |- keeps _ (console_error _) => apply keeps_print
  | |- keeps _ (console_warn _) => apply keeps_print
  | |- keeps _ (match ?x with _ => _ end) => destruct x
  | |- keeps backups (Upgrade.runCommand _) =>
      apply keeps_runCommand, sh_keeps_backups; cbn; tauto
  | |- keeps prev_versions (Upgrade.runCommand _) =>
      apply keeps_runCommand, sh_keeps_record; cbn; tauto
  | |- keeps prev_versions (Rollback.runCommand _) =>
      apply keeps_runCommand, sh_keeps_record; cbn; tauto
  end.

Ltac keeps_go := repeat keeps_step.

Section KeepsFunctions.

Lemma getCurrentVersions_keeps_backups : keeps backups Upgrade.getCurrentVersions.
Proof. unfold Upgrade.getCurrentVersions. keeps_go. Qed.

Lemma ensureTomcatUserAndGroup_keeps_backups : keeps backups Upgrade.ensureTomcatUserAndGroup.
Proof. unfold Upgrade.ensureTomcatUserAndGroup. keeps_go. Qed.

Lemma rollbackUpgrade_keeps_backups j t : keeps backups (Upgrade.rollbackUpgrade j t).
Proof.
  unfold Upgrade.rollbackUpgrade. keeps_go; apply ensureTomcatUserAndGroup_keeps_backups.
Qed.

Lemma getCurrentVersions_keeps_record : keeps prev_versions Upgrade.getCurrentVersions.
Proof. unfold Upgrade.getCurrentVersions. keeps_go. Qed.

Lemma ensureTomcatUserAndGroup_keeps_record : keeps prev_versions Upgrade.ensureTomcatUserAndGroup.
Proof. unfold Upgrade.ensureTomcatUserAndGroup. keeps_go. Qed.

Lemma rollbackUpgrade_keeps_record j t : keeps prev_versions (Upgrade.rollbackUpgrade j t).
Proof.
  unfold Upgrade.rollbackUpgrade. keeps_go; apply ensureTomcatUserAndGroup_keeps_record.
Qed.

Lemma createBackup_keeps_record a b : keeps prev_versions (Upgrade.createBackup a b).
Proof. unfold Upgrade.createBackup. keeps_go. Qed.

Lemma upgradeJava_keeps_record v u : keeps prev_versions (Upgrade.upgradeJava v u).
Proof.
  unfold Upgrade.upgradeJava. keeps_go;
    first [apply createBackup_keeps_record | apply getCurrentVersions_keeps_record
          | apply rollbackUpgrade_keeps_record].
Qed.

Lemma upgradeTomcat_keeps_record v u j : keeps prev_versions (Upgrade.upgradeTomcat v u j).
Proof.
  unfold Upgrade.upgradeTomcat. keeps_go;
    first [apply createBackup_keeps_record | apply getCurrentVersions_keeps_record
          | apply rollbackUpgrade_keeps_record | apply ensureTomcatUserAndGroup_keeps_record].
Qed.

Lemma validateUpgradeConditions_keeps_record j t :
  keeps prev_versions (Upgrade.validateUpgradeConditions j t).
Proof.
  unfold Upgrade.validateUpgradeConditions. keeps_go; apply getCurrentVersions_keeps_record.
Qed.

Lemma readUpgradeConfiguration_keeps_record : keeps prev_versions Upgrade.readUpgradeConfiguration.
Proof. unfold Upgrade.readUpgradeConfiguration. keeps_go. Qed.

Lemma upgrade_keeps_record : keeps prev_versions Upgrade.upgrade.
Proof.
  unfold Upgrade.upgrade, Upgrade.upgrade_components. keeps_go;
    first [apply readUpgradeConfiguration_keeps_record | apply getCurrentVersions_keeps_record
          | apply validateUpgradeConditions_keeps_record | apply upgradeJava_keeps_record
          | apply upgradeTomcat_keeps_record | apply rollbackUpgrade_keeps_record].
Qed.

Lemma rollbackJava_keeps_record : keeps prev_versions Rollback.rollbackJava.
Proof. unfold Rollback.rollbackJava. keeps_go. Qed.

Lemma rollbackTomcat_keeps_record : keeps prev_versions Rollback.rollbackTomcat.
Proof. unfold Rollback.rollbackTomcat. keeps_go. Qed.

End KeepsFunctions.

(** ** rollback.js: restoring from the latest backup *)

Section RollbackRestores.

Variables (W : World).
Hypothesis no_fault : forall n, faults W n = false.

Lemma rollbackJava_restores s bk v p env :
  java_backups (host s) = Some bk ->
  last_line (sort_versions (grep "openjdk-" (names_of bk))) = "openjdk-" +:+ v ->
  bk !! ("openjdk-" +:+ v) = Some p ->
  files (host s) !! etc_environment = Some env ->
  wp Rollback.rollbackJava W s (fun o s' =>
    o = Ret tt /\
    java_dirs (host s') = {[ "openjdk-" +:+ v := p ]} /\
    tomcat_dirs (host s') = tomcat_dirs (host s) /\
    backups (host s') = backups (host s) /\
    lines_with "JAVA_HOME=" etc_environment (host s')
      = ["JAVA_HOME=" +:+ dq +:+ "/opt/" +:+ ("openjdk-" +:+ v) +:+ dq] /\
    units (host s') = units (host s) /\ enabled (host s') = enabled (host s) /\
    active (host s') = active (host s) /\
    has_user (host s') = has_user (host s) /\ has_group (host s') = has_group (host s) /\
    env_java_home (host s') = env_java_home (host s)).
Proof.
  intros Hbk Hlast Hp Henv.
  unfold Rollback.rollbackJava.
  wp_run no_fault; [reflexivity|done|].
  hsimpl. unfold ls. hsimpl. rewrite Hbk, Hlast.
  rewrite nonempty_app by done. hsimpl.
  wp_run no_fault; [reflexivity|done|]. hsimpl.
  wp_run no_fault.
  { rewrite Hbk. cbn [mbind option_bind]. rewrite Hp.
    rewrite filtered_out by apply prefix_app. reflexivity. }
  { done. }
  hsimpl.
  wp_run no_fault.
  { rewrite Henv. hsimpl. rewrite !lookup_insert_eq. hsimpl.
    rewrite bool_decide_eq_true_2 by eauto. hsimpl. reflexivity. }
  { done. }
  hsimpl. wp_go.
  split; [done|]. unfold java_dirs, tomcat_dirs, backups, lines_with. hsimpl.
  split; [apply restore_only, prefix_app|].
  split; [apply restore_frame; [reflexivity | apply tomcat_not_openjdk]|].
  split; [done|].
  split; [|done].
  rewrite lookup_insert_eq. hsimpl. rewrite filter_app.
  cbn [re_match]. rewrite filter_prefix_deleted.
  rewrite filter_cons, decide_True by apply prefix_app. reflexivity.
Qed.

Lemma rollbackTomcat_restores s bk v p :
  tomcat_backups (host s) = Some bk ->
  last_line (sort_versions (grep "tomcat-" (names_of bk))) = "tomcat-" +:+ v ->
  bk !! ("tomcat-" +:+ v) = Some p ->
  has_user (host s) = true ->
  has_group (host s) = true ->
  wp Rollback.rollbackTomcat W s (fun o s' =>
    o = Ret tt /\
    tomcat_dirs (host s') = {[ "tomcat-" +:+ v := p ]} /\
    java_dirs (host s') = java_dirs (host s) /\
    backups (host s') = backups (host s) /\
    files (host s') = files (host s) /\
    units (host s') !! unit_file ("tomcat-" +:+ v)
      = Some (service_unit v (env_java_home (host s)) ("/opt/" +:+ ("tomcat-" +:+ v))) /\
    "tomcat-" +:+ v ∈ enabled (host s') /\
    "tomcat-" +:+ v ∈ active (host s')).
Proof.
  intros Hbk Hlast Hp Hu Hg.
  unfold Rollback.rollbackTomcat.
  wp_run no_fault; [reflexivity|done|].
  hsimpl. unfold ls. hsimpl. rewrite Hbk, Hlast.
  rewrite nonempty_app by done. hsimpl.
  do 3 (wp_run no_fault; [reflexivity|done|]; hsimpl).
  wp_run no_fault.
  { rewrite Hbk. cbn [mbind option_bind]. rewrite Hp.
    rewrite filtered_out by apply prefix_app. reflexivity. }
  { done. }
  hsimpl.
  wp_run no_fault.
  { rewrite lookup_insert_eq, Hu, Hg. reflexivity. }
  { done. }
  hsimpl.
  do 2 (wp_run no_fault; [rewrite lookup_insert_eq; reflexivity|done|]; hsimpl).
  wp_run no_fault; [reflexivity|done|]. hsimpl.
  rewrite strip_first_app.
  wp_run no_fault; [reflexivity|done|]. hsimpl.
  wp_run no_fault; [rewrite lookup_insert_eq, bool_decide_eq_true_2 by eauto; reflexivity|done|].
  hsimpl.
  wp_run no_fault; [reflexivity|done|]. hsimpl.
  do 2 (wp_run no_fault; [rewrite lookup_insert_eq; reflexivity|done|]; hsimpl).
  wp_go.
  split; [done|]. unfold java_dirs, tomcat_dirs, backups. hsimpl.
  split; [apply restore_only, prefix_app|].
  split; [apply restore_frame; [reflexivity | apply openjdk_not_tomcat]|].
  split; [done|]. split; [done|].
  split; [apply lookup_insert_eq|].
  split; set_solver.
Qed.

End RollbackRestores.

(** What the two rollbacks leave alone. *)

Lemma leaves_file_keeps file p net h :
  leaves_file file p = true -> files (hst (prim_exec net p h)) !! file = files h !! file.
Proof.
  destruct p; cbn [leaves_file prim_exec]; intros H;
    try destruct a; try destruct b; repeat case_match;
    cbn [hst done_ok failed says when_ok files set_files set_opt set_area set_tmp
         set_java_backups set_tomcat_backups set_units set_enabled set_active set_procs
         set_group set_user set_prev drop_area]; try reflexivity.
  all: apply negb_true_iff, String.eqb_neq in H; by rewrite lookup_insert_ne.
Qed.

Lemma sh_keeps_file file c :
  sh_all (leaves_file file) c -> sh_keeps (fun h => files h !! file) c.
Proof. apply sh_keeps_all. intros p net h. apply leaves_file_keeps. Qed.

Lemma rollbackJava_keeps_backups : keeps backups Rollback.rollbackJava.
Proof.
  unfold Rollback.rollbackJava.
  repeat first [keeps_step | apply keeps_runCommand, sh_keeps_backups; cbn; tauto].
Qed.

Lemma rollbackTomcat_keeps_backups : keeps backups Rollback.rollbackTomcat.
Proof.
  unfold Rollback.rollbackTomcat.
  repeat first [keeps_step | apply keeps_runCommand, sh_keeps_backups; cbn; tauto].
Qed.

Lemma rollbackJava_keeps_profile :
  keeps (fun h => files h !! etc_profile) Rollback.rollbackJava.
Proof.
  unfold Rollback.rollbackJava.
  repeat first [keeps_step | apply keeps_runCommand, sh_keeps_file; cbn; tauto].
Qed.

Lemma rollbackTomcat_keeps_profile :
  keeps (fun h => files h !! etc_profile) Rollback.rollbackTomcat.
Proof.
  unfold Rollback.rollbackTomcat.
  repeat first [keeps_step | apply keeps_runCommand, sh_keeps_file; cbn; tauto].
Qed.

(** ** rollback.js without a backup *)

Lemma rollback_of_nothing (c : Component) W s :
  grep (pattern c) (ls (backup_area c) (host s)) = [] ->
  wp (rollback_of c) W s (fun o s' =>
    o = Ret tt /\ host s' = host s /\ exists msg, last (console s') = Some (Stderr, msg)).
Proof.
  intros Hnone.
  destruct c; cbn [rollback_of pattern backup_area] in *;
    [unfold Rollback.rollbackJava | unfold Rollback.rollbackTomcat];
    wp_go; apply wp_runCommand_rb, wp_runCommand; intros Hf; hsimpl.
  all: try discriminate.
  all: try (intros _; rewrite Hnone; cbn [sort_versions sort_by foldr last_line last default
                                            from_option id nonempty negb]).
  all: wp_go; (split; [done|split; [done|]]); eexists; apply last_snoc.
Qed.

(** ** upgrade.js: what an upgrade does to the backups *)

Lemma stored_mkdir (jb : option (gmap string string)) (k : string) :
  default ∅ jb !! k = jb ≫= lookup k.
Proof. destruct jb; [done|]. apply lookup_empty. Qed.

(** createBackup replaces the backup stored under the destination name and
    nothing else. *)
Lemma createBackup_spec (b : Area) (name : string) W s :
  b <> Opt ->
  wp (Upgrade.createBackup (Opt, name) (b, name)) W s (fun o s' =>
    (forall a, a <> b -> area a (host s') = area a (host s)) /\
    (forall k, k <> name -> stored b k (host s') = stored b k (host s)) /\
    (o = Ret tt -> stored b name (host s') = opt (host s) !! name) /\
    (forall c, o <> Exit c)).
Proof.
  intros Hb. unfold Upgrade.createBackup. wp_go.
  assert (forall (s1 : Proc),
    (forall a, a <> b -> area a (host s1) = area a (host s)) ->
    (forall k, k <> name -> stored b k (host s1) = stored b k (host s)) ->
    stored b name (host s1) = None ->
    wp (Upgrade.runCommand (Run (CpR Opt name b name))) W s1 (fun o s' =>
      (forall a, a <> b -> area a (host s') = area a (host s)) /\
      (forall k, k <> name -> stored b k (host s') = stored b k (host s)) /\
      (forall x, o = Ret x -> stored b name (host s') = opt (host s) !! name) /\
      (forall c, o <> Exit c))) as Hcp.
  { intros s1 Ha Hk Hn.
    assert (opt (host s1) = opt (host s)) as Ho.
    { specialize (Ha Opt (not_eq_sym Hb)). by injection Ha. }
    apply wp_runCommand; intros Hf; hsimpl; [done| |].
    - rewrite Ho. unfold stored in Hn. cbn [mbind option_bind].
      destruct (opt (host s) !! name) as [c|];
        [|intros _; hsimpl; done].
      destruct (area b (host s1)) as [d|] eqn:Hd; [|intros _; hsimpl; done].
      cbn [mbind option_bind] in Hn. rewrite Hn. hsimpl. discriminate.
    - rewrite Ho. unfold stored in Hn. cbn [mbind option_bind].
      destruct (opt (host s) !! name) as [c|];
        [|hsimpl; discriminate].
      destruct (area b (host s1)) as [d|] eqn:Hd; [|hsimpl; discriminate].
      cbn [mbind option_bind] in Hn. rewrite Hn. hsimpl. intros _.
      split; [|split; [|split; [|done]]].
      + intros a Hab. rewrite <- (Ha a Hab). by destruct a, b.
      + intros k Hk'. rewrite <- (Hk k Hk'). unfold stored. rewrite Hd.
        destruct b; [done| |]; hsimpl; cbn [mbind option_bind]; by rewrite lookup_insert_ne.
      + intros _ _. unfold stored.
        destruct b; [done| |]; hsimpl; cbn [mbind option_bind]; by rewrite lookup_insert_eq. }
  destruct (exists_in b name (host s)) eqn:Hex.
  - unfold exists_in in Hex. destruct (area b (host s)) as [d|] eqn:E; [|done].
    wp_go. apply wp_runCommand; intros Hf; hsimpl; rewrite ?E; hsimpl; try discriminate.
    + wp_go. repeat split; eauto; discriminate.
    + intros _. wp_go. eapply wp_mono; [apply Hcp|(intros o s' (Ha & Hk & Hn & Hx); destruct o as [x|e|c]; wp_go;
           [repeat split; eauto | repeat split; eauto; discriminate | by destruct (Hx c)])]; hsimpl.
      * intros a Hab. by destruct a, b.
      * intros k Hk. unfold stored. rewrite E.
        destruct b; [done| |]; hsimpl; cbn [mbind option_bind];
          by rewrite lookup_delete_ne.
      * unfold stored.
        destruct b; [done| |]; hsimpl; cbn [mbind option_bind];
          by rewrite lookup_delete_eq.
  - wp_go. eapply wp_mono; [apply Hcp|(intros o s' (Ha & Hk & Hn & Hx); destruct o as [x|e|c]; wp_go;
           [repeat split; eauto | repeat split; eauto; discriminate | by destruct (Hx c)])]; try done.
    hsimpl. unfold stored, exists_in in *. destruct (area b (host s)) as [d|]; [|done].
    cbn [mbind option_bind]. by destruct (d !! name).
Qed.

Ltac keeps_backups :=
  keeps_go;
  first [apply getCurrentVersions_keeps_backups | apply rollbackUpgrade_keeps_backups
        | apply ensureTomcatUserAndGroup_keeps_backups].

(** upgradeJava: the backups stored under other names stay; before the
    installed directory is touched, its content is stored under its name. *)
Lemma upgradeJava_backups v u W s :
  wp (Upgrade.upgradeJava v u) W s (fun o s' =>
    (forall k, k <> existing "openjdk-" (host s) ->
       stored JavaBackups k (host s') = stored JavaBackups k (host s)) /\
    tomcat_backups (host s') = tomcat_backups (host s) /\
    (nonempty (existing "openjdk-" (host s)) = true ->
       opt (host s') = opt (host s) \/
       stored JavaBackups (existing "openjdk-" (host s)) (host s')
       = opt (host s) !! existing "openjdk-" (host s)) /\
    (forall b, o = Ret b -> nonempty (existing "openjdk-" (host s)) = true ->
       stored JavaBackups (existing "openjdk-" (host s)) (host s')
       = opt (host s) !! existing "openjdk-" (host s))).
Proof.
  unfold Upgrade.upgradeJava. wp_go.
  apply wp_runCommand; intros Hf1; hsimpl; try discriminate.
  { wp_go. unfold stored. hsimpl. repeat split; auto; discriminate. }
  intros _. wp_go.
  apply wp_runCommand; intros Hf2; hsimpl; try discriminate.
  { wp_go. unfold stored. hsimpl.
    repeat split; auto; try discriminate. intros k _. apply stored_mkdir. }
  intros _. wp_go.
  change (first_line (grep "openjdk-" (ls Opt _))) with (existing "openjdk-" (host s)).
  set (name := existing "openjdk-" (host s)).
  destruct (nonempty name) eqn:Hne.
  2:{ apply wp_ret. hsimpl. apply (wp_keeps backups); [keeps_backups|].
      intros o s' [= Hj Ht]. hsimpl.
      assert (forall k, stored JavaBackups k (host s') = stored JavaBackups k (host s)) as Hk.
      { intros k. unfold stored. hsimpl. rewrite Hj. apply stored_mkdir. }
      destruct o; wp_go; repeat split; auto; discriminate. }
  wp_go. eapply wp_mono; [apply createBackup_spec; discriminate|].
  hsimpl. intros o s1 (Ha & Hk & Hn & Hx).
  assert (tomcat_backups (host s1) = tomcat_backups (host s)) as Ht by (by apply (Ha TomcatBackups ltac:(discriminate))).
  assert (opt (host s1) = opt (host s)) as Ho.
  { assert (H := Ha Opt ltac:(discriminate)). hsimpl. by injection H. }
  assert (forall k, k <> name -> stored JavaBackups k (host s1) = stored JavaBackups k (host s)) as Hk'.
  { intros k Hkn. rewrite Hk by done. unfold stored. hsimpl. apply stored_mkdir. }
  destruct o as [[]|e|c]; [| |by destruct (Hx c)].
  2:{ wp_go. repeat split; auto; discriminate. }
  specialize (Hn eq_refl).
  wp_go. apply wp_runCommand; intros Hf3; hsimpl; try discriminate.
  { wp_go. repeat split; auto; discriminate. }
  intros _. apply wp_ret. hsimpl.
  apply (wp_keeps backups); [keeps_backups|].
  intros o s' [= Hj Ht']. hsimpl.
  assert (forall k, stored JavaBackups k (host s') = stored JavaBackups k (host s1)) as Hs.
  { intros k. unfold stored. hsimpl. by rewrite Hj. }
  destruct o; wp_go; hsimpl.
  all: split; [intros; rewrite Hs; auto|].
  all: split; [congruence|].
  all: split; [intros; right; by rewrite Hs|].
  all: intros; try discriminate; by rewrite Hs.
Qed.

Lemma upgradeTomcat_backups v u j W s :
  wp (Upgrade.upgradeTomcat v u j) W s (fun o s' =>
    (forall k, k <> existing "tomcat-" (host s) ->
       stored TomcatBackups k (host s') = stored TomcatBackups k (host s)) /\
    java_backups (host s') = java_backups (host s) /\
    (nonempty (existing "tomcat-" (host s)) = true ->
       opt (host s') = opt (host s) \/
       stored TomcatBackups (existing "tomcat-" (host s)) (host s')
       = opt (host s) !! existing "tomcat-" (host s)) /\
    (o = Ret tt -> nonempty (existing "tomcat-" (host s)) = true ->
       stored TomcatBackups (existing "tomcat-" (host s)) (host s')
       = opt (host s) !! existing "tomcat-" (host s))).
Proof.
  unfold Upgrade.upgradeTomcat. wp_go.
  apply wp_runCommand; intros Hf1; hsimpl; try discriminate.
  { wp_go. unfold stored. hsimpl. repeat split; auto; discriminate. }
  intros _. wp_go.
  apply wp_runCommand; intros Hf2; hsimpl; try discriminate.
  { wp_go. unfold stored. hsimpl.
    repeat split; auto; try discriminate. intros k _. apply stored_mkdir. }
  intros _. wp_go.
  change (first_line (grep "tomcat-" (ls Opt _))) with (existing "tomcat-" (host s)).
  set (name := existing "tomcat-" (host s)).
  destruct (nonempty name) eqn:Hne.
  2:{ apply wp_ret. hsimpl. apply (wp_keeps backups); [keeps_backups|].
      intros o s' [= Hj Ht]. hsimpl.
      assert (forall k, stored TomcatBackups k (host s') = stored TomcatBackups k (host s)) as Hk.
      { intros k. unfold stored. hsimpl. rewrite Ht. apply stored_mkdir. }
      destruct o; wp_go; repeat split; auto; discriminate. }
  wp_go. eapply wp_mono; [apply createBackup_spec; discriminate|].
  hsimpl. intros o s1 (Ha & Hk & Hn & Hx).
  assert (java_backups (host s1) = java_backups (host s)) as Hj by (by apply (Ha JavaBackups ltac:(discriminate))).
  assert (opt (host s1) = opt (host s)) as Ho.
  { assert (H := Ha Opt ltac:(discriminate)). hsimpl. by injection H. }
  assert (forall k, k <> name -> stored TomcatBackups k (host s1) = stored TomcatBackups k (host s)) as Hk'.
  { intros k Hkn. rewrite Hk by done. unfold stored. hsimpl. apply stored_mkdir. }
  destruct o as [[]|e|c]; [| |by destruct (Hx c)].
  2:{ wp_go. repeat split; auto; discriminate. }
  specialize (Hn eq_refl).
  wp_go. apply wp_runCommand; intros Hf3; hsimpl; try discriminate.
  { wp_go. repeat split; auto; discriminate. }
  intros _. apply wp_ret. hsimpl.
  apply (wp_keeps backups); [keeps_backups|].
  intros o s' [= Hj' Ht']. hsimpl.
  assert (forall k, stored TomcatBackups k (host s') = stored TomcatBackups k (host s1)) as Hs.
  { intros k. unfold stored. hsimpl. by rewrite Ht'. }
  destruct o; wp_go; hsimpl.
  all: split; [intros; rewrite Hs; auto|].
  all: split; [congruence|].
  all: split; [intros; right; by rewrite Hs|].
  all: intros; try discriminate; by rewrite Hs.
Qed.

(** ** upgrade.js: rollbackUpgrade when its commands succeed *)

Lemma set_files_twice f g h : set_files f (set_files g h) = set_files f h.
Proof. reflexivity. Qed.

Lemma text_only_prim p net h :
  text_only p = true -> exists fl, hst (prim_exec net p h) = set_files fl h.
Proof.
  destruct p; try discriminate; intros _; cbn [prim_exec];
    repeat case_match; cbn [hst done_ok failed when_ok];
    first [by eexists | exists (files h); by destruct h].
Qed.

Lemma text_only_script c net h :
  sh_all text_only c -> exists fl, hst (sh_eval net c h) = set_files fl h.
Proof.
  revert h. induction c as [p|a IHa b IHb|a IHa b IHb|a IHa b IHb| |p k IH];
    cbn [sh_all]; intros h Hc; cbn [sh_eval].
  - by apply text_only_prim.
  - destruct Hc as [Ha Hb]. destruct (IHa h Ha) as [fa Hfa].
    destruct (ok (sh_eval net a h)); cbn [hst]; [|by exists fa].
    rewrite Hfa. destruct (IHb (set_files fa h) Hb) as [fb ->]. by exists fb.
  - destruct Hc as [Ha Hb]. destruct (IHa h Ha) as [fa Hfa].
    destruct (ok (sh_eval net a h)); cbn [hst]; [by exists fa|].
    rewrite Hfa. destruct (IHb (set_files fa h) Hb) as [fb ->]. by exists fb.
  - destruct Hc as [Ha Hb]. destruct (IHa h Ha) as [fa Hfa]. cbn [hst].
    rewrite Hfa. destruct (IHb (set_files fa h) Hb) as [fb ->]. by exists fb.
  - exists (files h). by destruct h.
  - destruct Hc as [Hp Hk]. destruct (text_only_prim p net h Hp) as [fp Hfp].
    destruct (ok (prim_exec net p h)); cbn [hst]; [|by exists fp].
    rewrite Hfp.
    destruct (IH (out (prim_exec net p h)) (set_files fp h) (Hk _)) as [fk ->]. by exists fk.
Qed.

(** The environment script always succeeds, only edits text files, and
    leaves an /etc/profile behind. *)
Lemma java_env_script_spec net dir h :
  ok (sh_eval net (Upgrade.java_env_script dir) h) = true /\
  exists fl, hst (sh_eval net (Upgrade.java_env_script dir) h) = set_files fl h /\
             is_Some (fl !! etc_profile).
Proof.
  split; [reflexivity|].
  destruct (text_only_script (Upgrade.java_env_script dir) net h) as [fl Hfl]; [cbn; tauto|].
  exists fl. split; [done|].
  assert (fl = files (hst (sh_eval net (Upgrade.java_env_script dir) h))) as ->
    by (by rewrite Hfl).
  cbn [Upgrade.java_env_script sh_eval prim_exec hst done_ok files set_files].
  rewrite lookup_insert_ne by done. rewrite lookup_insert_eq. by eexists.
Qed.

(** ensureTomcatUserAndGroup when no command faults: the account exists
    afterwards. *)
Lemma ensureTomcatUserAndGroup_spec W s :
  (forall n, ticks s <= n -> faults W n = false) ->
  wp Upgrade.ensureTomcatUserAndGroup W s (fun o s' =>
    o = Ret tt /\ ticks s <= ticks s' /\
    has_user (host s') = true /\ has_group (host s') = true /\
    opt (host s') = opt (host s) /\ backups (host s') = backups (host s) /\
    units (host s') = units (host s)).
Proof.
  intros Hf. unfold Upgrade.ensureTomcatUserAndGroup. wp_go.
  apply wp_runCommand; intros Hf1; hsimpl.
  { rewrite Hf in Hf1 by lia. done. }
  - intros Hg. wp_go. eapply wp_runCommand_eq; [apply Hf; hsimpl; lia|hsimpl| |].
    { rewrite Hg. reflexivity. } { done. }
    hsimpl. wp_go.
    apply wp_runCommand; intros Hf2; hsimpl.
    { rewrite Hf in Hf2 by (hsimpl; lia). done. }
    + intros Hu. wp_go. eapply wp_runCommand_eq; [apply Hf; hsimpl; lia|hsimpl| |].
      { rewrite Hu. reflexivity. } { done. }
      hsimpl. wp_go. repeat split; auto; lia.
    + intros Hu. wp_go. repeat split; auto; lia.
  - intros Hg. wp_go.
    apply wp_runCommand; intros Hf2; hsimpl.
    { rewrite Hf in Hf2 by (hsimpl; lia). done. }
    + intros Hu. wp_go. eapply wp_runCommand_eq; [apply Hf; hsimpl; lia|hsimpl| |].
      { rewrite Hu, Hg. reflexivity. } { done. }
      hsimpl. wp_go. repeat split; auto; lia.
    + intros Hu. wp_go. repeat split; auto; lia.
Qed.

(** The restart command line succeeds when the directory is in place; it
    touches neither /opt nor the backups. *)
Lemma restart_or_scripts_spec net svc h :
  is_Some (opt h !! svc) ->
  ok (sh_eval net (restart_or_scripts svc) h) = true /\
  opt (hst (sh_eval net (restart_or_scripts svc) h)) = opt h /\
  backups (hst (sh_eval net (restart_or_scripts svc) h)) = backups h.
Proof.
  intros [c Hc]. unfold restart_or_scripts. cbn [sh_eval prim_exec].
  destruct (units h !! unit_file svc); repeat (hsimpl; rewrite ?Hc); done.
Qed.

Ltac wp_step Hf :=
  wp_go; eapply wp_runCommand_eq; [apply Hf; hsimpl; lia | hsimpl | | hsimpl].

Lemma rollbackUpgrade_restores W s j t pj :
  (forall n, ticks s <= n -> faults W n = false) ->
  stored JavaBackups ("openjdk-" +:+ j) (host s) = Some pj ->
  wp (Upgrade.rollbackUpgrade (Some j) (Some t)) W s (fun o s' =>
    o = Ret tt /\
    java_dirs (host s') = {[ "openjdk-" +:+ j := pj ]} /\
    match stored TomcatBackups ("tomcat-" +:+ t) (host s) with
    | Some pt => tomcat_dirs (host s') = {[ "tomcat-" +:+ t := pt ]}
    | None => tomcat_dirs (host s') = tomcat_dirs (host s)
    end /\
    backups (host s') = backups (host s)).
Proof.
  intros Hf Hj. unfold Upgrade.rollbackUpgrade. wp_go.
  unfold stored in Hj. cbn [area] in Hj.
  destruct (java_backups (host s)) as [bj|] eqn:Hbj; [|done].
  cbn [mbind option_bind] in Hj. hsimpl. rewrite Hj.
  wp_step Hf; [reflexivity|done|].
  wp_step Hf.
  { rewrite Hbj. cbn [mbind option_bind]. rewrite Hj.
    rewrite filtered_out by apply prefix_app. reflexivity. }
  { done. }
  wp_go.
  match goal with |- wp (Upgrade.runCommand (Upgrade.java_env_script ?d)) _ ?s1 _ =>
    destruct (java_env_script_spec (net W) d (host s1)) as (Hok & fl & Hfl & Hprof)
  end.
  eapply wp_runCommand_eq; [apply Hf; hsimpl; lia | reflexivity | exact Hok | ].
  rewrite Hfl. hsimpl.
  wp_step Hf; [rewrite bool_decide_eq_true_2 by done; reflexivity|done|].
  wp_go.
  unfold stored. cbn [area].
  destruct (tomcat_backups (host s)) as [bt|] eqn:Hbt; cbn [mbind option_bind];
    [destruct (bt !! ("tomcat-" +:+ t)) as [pt|] eqn:Hpt|].
  - wp_step Hf; [reflexivity|done|].
    wp_step Hf.
    { rewrite Hbt. cbn [mbind option_bind]. rewrite Hpt.
      rewrite filtered_out by apply prefix_app. reflexivity. }
    { done. }
    wp_go.
    eapply wp_mono; [apply ensureTomcatUserAndGroup_spec|].
    { intros n Hn. apply Hf. hsimpl. lia. }
    hsimpl. intros o s1 (-> & Hticks & Hu & Hg & Ho & Hb & Hun).
    assert (forall n, ticks s1 <= n -> faults W n = false) as Hf1.
    { intros n Hn. apply Hf. lia. }
    wp_step Hf1.
    { rewrite Ho, lookup_insert_eq, Hu, Hg. reflexivity. }
    { done. }
    wp_step Hf1; [rewrite Ho, lookup_insert_eq; reflexivity|done|].
    wp_step Hf1; [rewrite Ho, lookup_insert_eq; reflexivity|done|].
    wp_go.
    destruct (restart_or_scripts_spec (net W) ("tomcat-" +:+ t) (host s1)) as (Hok' & Ho' & Hb').
    { rewrite Ho, lookup_insert_eq. by eexists. }
    eapply wp_runCommand_eq; [apply Hf1; hsimpl; lia| reflexivity | exact Hok' | ].
    wp_go.
    split; [done|]. unfold java_dirs, tomcat_dirs. rewrite Ho', Ho, Hb', Hb.
    split; [|split; [|by unfold backups; hsimpl]].
    + rewrite restore_frame; [|reflexivity|apply openjdk_not_tomcat].
      apply restore_only, prefix_app.
    + apply restore_only, prefix_app.
  - wp_go. split; [done|]. unfold java_dirs, tomcat_dirs, backups. hsimpl.
    split; [apply restore_only, prefix_app|]. split; [|by rewrite Hbj, Hbt].
    apply restore_frame; [reflexivity|apply tomcat_not_openjdk].
  - wp_go. split; [done|]. unfold java_dirs, tomcat_dirs, backups. hsimpl.
    split; [apply restore_only, prefix_app|]. split; [|by rewrite Hbj, Hbt].
    apply restore_frame; [reflexivity|apply tomcat_not_openjdk].
Qed.

(** ** upgrade.js: the steps before the components are touched *)

Section Prologue.

Variables (W : World) (s : Proc) (cfg : Config).
Hypothesis has_cfg : upgrade_cfg (host s) = Some cfg.
Hypothesis inspected : forall n, n < 4 -> faults W (n + ticks s) = false.

(** The state after the prologue, for any postcondition: the inspection
    reads the two current versions, and validation decides. *)
Lemma upgrade_prologue Q :
  let cj := current_version "openjdk-" (host s) in
  let ct := current_version "tomcat-" (host s) in
  (same (javaVersion cfg) (Some cj) || same (tomcatVersion cfg) (Some ct) = true ->
   forall msg, Q (Exit 1) (say Stderr msg (validated s))) ->
  (same (javaVersion cfg) (Some cj) || same (tomcatVersion cfg) (Some ct) = false ->
   wp (try_catch (Upgrade.upgrade_components cfg (Some cj, Some ct))
         (fun error => console_error ("Upgrade process failed: " +:+ error)))
      W (validated s) Q) ->
  wp Upgrade.upgrade W s Q.
Proof.
  intros cj ct Habort Hpass.
  unfold Upgrade.upgrade, Upgrade.readUpgradeConfiguration. wp_go.
  rewrite has_cfg. wp_go.
  unfold Upgrade.getCurrentVersions at 1. wp_go.
  eapply wp_runCommand_eq; [apply (inspected 0); lia|reflexivity|done|]. hsimpl. wp_go.
  eapply wp_runCommand_eq; [apply (inspected 1); lia|reflexivity|done|]. hsimpl. wp_go.
  unfold Upgrade.validateUpgradeConditions, Upgrade.getCurrentVersions. wp_go.
  eapply wp_runCommand_eq; [apply (inspected 2); lia|reflexivity|done|]. hsimpl. wp_go.
  eapply wp_runCommand_eq; [apply (inspected 3); lia|reflexivity|done|]. hsimpl. wp_go.
  change (first_line (map (strip_first "openjdk-") (grep "openjdk-" (ls Opt (host s))))) with cj in *.
  change (first_line (map (strip_first "tomcat-") (grep "tomcat-" (ls Opt (host s))))) with ct in *.
  destruct (same (javaVersion cfg) (Some cj)) eqn:Hj;
    destruct (same (tomcatVersion cfg) (Some ct)) eqn:Ht; hsimpl; wp_go.
  - apply (Habort eq_refl).
  - apply (Habort eq_refl).
  - apply (Habort eq_refl).
  - apply wp_try_inv in Hpass; [|done]. exact Hpass.
Qed.

End Prologue.

(** * The lifecycle properties *)

Lemma current_java_pair h j t (pj pt : string) :
  opt h = {[ "openjdk-" +:+ j := pj; "tomcat-" +:+ t := pt ]} ->
  plain t = true ->
  existing "openjdk-" h = "openjdk-" +:+ j /\ current_version "openjdk-" h = j.
Proof.
  intros Ho Ht. unfold existing, current_version, ls. cbn [area]. rewrite Ho.
  rewrite grep_openjdk_pair by done. cbn [map first_line head default from_option id].
  by rewrite strip_first_app.
Qed.

Lemma current_tomcat_pair h j t (pj pt : string) :
  opt h = {[ "openjdk-" +:+ j := pj; "tomcat-" +:+ t := pt ]} ->
  plain j = true ->
  existing "tomcat-" h = "tomcat-" +:+ t /\ current_version "tomcat-" h = t.
Proof.
  intros Ho Hj. unfold existing, current_version, ls. cbn [area]. rewrite Ho.
  rewrite grep_tomcat_pair by done. cbn [map first_line head default from_option id].
  by rewrite strip_first_app.
Qed.

Lemma tomcat_dirs_pair h j t (pj pt : string) :
  opt h = {[ "openjdk-" +:+ j := pj; "tomcat-" +:+ t := pt ]} ->
  tomcat_dirs h = {[ "tomcat-" +:+ t := pt ]}.
Proof.
  intros Ho. unfold tomcat_dirs. rewrite Ho.
  apply map_eq; intros k. apply option_eq; intros x.
  rewrite map_lookup_filter_Some, lookup_insert_Some, !lookup_singleton_Some. simpl.
  split.
  - intros [[[<- <-]|[_ [<- <-]]] Hp]; [|done].
    by rewrite (openjdk_not_tomcat _ (prefix_app _ _)) in Hp.
  - intros [<- <-]. split; [|apply prefix_app]. right. by split.
Qed.

Lemma same_other (a b : string) : a <> b -> same a (Some b) = false.
Proof. intros H. unfold same. apply bool_decide_eq_false_2. congruence. Qed.

(** C1.  When the Java step of a coordinated upgrade succeeds and the Tomcat
    step then fails, upgrade() runs rollbackUpgrade once, with the versions
    read before the transaction; if the commands of that compensation run
    without a fault, /opt ends with the JDK directory of the prior version
    (and its prior content) as the only openjdk-* entry and the Tomcat
    directory of the prior version as the only tomcat-* entry. *)
Theorem tomcat_failure_is_compensated W s cfg j1 t1 pj pt p2 s1 s2 e :
  upgrade_cfg (host s) = Some cfg ->
  opt (host s) = {[ "openjdk-" +:+ j1 := pj; "tomcat-" +:+ t1 := pt ]} ->
  plain j1 = true -> plain t1 = true -> plain (javaVersion cfg) = true ->
  javaVersion cfg <> j1 -> tomcatVersion cfg <> t1 ->
  (forall n, n < 4 -> faults W (n + ticks s) = false) ->
  Upgrade.upgradeJava (javaVersion cfg) (javaUrl cfg) W (validated s) = (Ret true, s1) ->
  opt (host s1) = {[ "openjdk-" +:+ javaVersion cfg := p2; "tomcat-" +:+ t1 := pt ]} ->
  Upgrade.upgradeTomcat (tomcatVersion cfg) (tomcatUrl cfg) (javaVersion cfg) W s1
    = (Throw e, s2) ->
  (forall n, ticks s2 <= n -> faults W n = false) ->
  exists s3,
    Upgrade.rollbackUpgrade (Some j1) (Some t1) W (compensating cfg j1 s2) = (Ret tt, s3) /\
    Upgrade.upgrade W s = (Ret tt, say Stderr ("Upgrade process failed: " +:+ e) s3) /\
    java_dirs (host s3) = {[ "openjdk-" +:+ j1 := pj ]} /\
    exists p, tomcat_dirs (host s3) = {[ "tomcat-" +:+ t1 := p ]}.
Proof.
  intros Hcfg Hopt Hpj Hpt Hpv Hnj Hnt Hinsp HJ Hopt1 HT Hcomp.
  destruct (current_java_pair _ _ _ _ _ Hopt Hpt) as [Hej Hcj].
  destruct (current_tomcat_pair _ _ _ _ _ Hopt Hpj) as [Het Hct].
  destruct (current_tomcat_pair _ _ _ _ _ Hopt1 Hpv) as [Het1 _].
  (* the backup made by the Java step *)
  assert (stored JavaBackups ("openjdk-" +:+ j1) (host s1) = Some pj) as Hbj.
  { pose proof (upgradeJava_backups (javaVersion cfg) (javaUrl cfg) W (validated s)) as H.
    unfold wp in H. rewrite HJ in H. cbn [fst snd] in H.
    destruct H as (_ & _ & _ & H).
    change (host (validated s)) with (host s) in H. rewrite Hej in H.
    rewrite (H true eq_refl (nonempty_app "openjdk-" _ eq_refl)), Hopt. apply lookup_insert_eq. }
  (* what the Tomcat step leaves *)
  pose proof (upgradeTomcat_backups (tomcatVersion cfg) (tomcatUrl cfg) (javaVersion cfg) W s1) as H.
  unfold wp in H. rewrite HT in H. cbn [fst snd] in H.
  destruct H as (_ & Hjb & Htb & _). rewrite Het1 in Htb.
  specialize (Htb (nonempty_app "tomcat-" _ eq_refl)).
  assert (stored JavaBackups ("openjdk-" +:+ j1) (host s2) = Some pj) as Hbj2.
  { unfold stored in *. cbn [area] in *. by rewrite Hjb. }
  (* the compensation *)
  destruct (wp_elim _ _ _ _ (rollbackUpgrade_restores W (compensating cfg j1 s2) j1 t1 pj Hcomp Hbj2))
    as (o & s3 & Hroll & -> & Hjd & Htd & _).
  exists s3. split; [done|]. split; [|split; [done|]].
  - apply wp_eq. apply (upgrade_prologue W s cfg Hcfg Hinsp); cbn zeta; rewrite Hcj, Hct.
    + rewrite !same_other by done. discriminate.
    + intros _. unfold Upgrade.upgrade_components. wp_go.
      eapply wp_known; [exact HJ|]. hsimpl. wp_go.
      eapply wp_known; [exact HT|]. hsimpl. wp_go.
      eapply wp_known; [exact Hroll|]. hsimpl. wp_go. done.
  - change (host (compensating cfg j1 s2)) with (host s2) in Htd.
    destruct (stored TomcatBackups ("tomcat-" +:+ t1) (host s2)) as [p|] eqn:Hst.
    + by exists p.
    + exists pt. rewrite Htd. destruct Htb as [Ho|Hb].
      * eapply tomcat_dirs_pair. by rewrite Ho.
      * rewrite Hopt1, lookup_insert_ne, lookup_singleton_eq in Hb by done. done.
Qed.

(** The upgrade of Java 17 and Tomcat 9.0.1 to 21 and 10.1.34 when the
    Tomcat archive cannot be fetched. *)
Lemma tomcat_failure_is_compensated_witness :
  exists s3,
    Upgrade.rollbackUpgrade (Some "17") (Some "9.0.1") Demo.world_no_tomcat
      (compensating Demo.cfg_21 "17" Demo.tomcat_failed) = (Ret tt, s3) /\
    Upgrade.upgrade Demo.world_no_tomcat (Demo.start Demo.host_17)
      = (Ret tt, say Stderr ("Upgrade process failed: " +:+ stderr) s3) /\
    java_dirs (host s3) = {[ "openjdk-" +:+ "17" := "jdk 17" ]} /\
    exists p, tomcat_dirs (host s3) = {[ "tomcat-" +:+ "9.0.1" := p ]}.
Proof.
  apply (tomcat_failure_is_compensated Demo.world_no_tomcat (Demo.start Demo.host_17)
           Demo.cfg_21 "17" "9.0.1" "jdk 17" "tomcat 9.0.1" "jdk 21"
           Demo.java_done Demo.tomcat_failed stderr).
  - reflexivity.
  - reflexivity.
  - reflexivity.
  - reflexivity.
  - reflexivity.
  - discriminate.
  - discriminate.
  - intros n _. reflexivity.
  - vm_compute. reflexivity.
  - vm_compute. reflexivity.
  - vm_compute. reflexivity.
  - intros n _. reflexivity.
Defined.

(** ** The command surface *)

Lemma quiet_upgrade_components cfg cur : quiet (Upgrade.upgrade_components cfg cur).
Proof.
  unfold Upgrade.upgrade_components. outcome;
    first [apply quiet_upgradeJava | apply quiet_upgradeTomcat
          | apply quiet_runCommand
          | apply resolves_quiet, resolves_rollbackUpgrade
          | apply resolves_quiet, resolves_ret].
Qed.

(** Once validation has passed, upgrade() resolves whatever happens to the
    two component steps: every failure is caught and logged.  The upgrade
    command then calls process.exit(0). *)
Lemma upgrade_resolves_after_validation W s cfg :
  upgrade_cfg (host s) = Some cfg ->
  (forall n, n < 4 -> faults W (n + ticks s) = false) ->
  javaVersion cfg <> current_version "openjdk-" (host s) ->
  tomcatVersion cfg <> current_version "tomcat-" (host s) ->
  wp Upgrade.upgrade W s (fun o _ => o = Ret tt).
Proof.
  intros Hcfg Hins Hj Ht.
  apply (upgrade_prologue W s cfg Hcfg Hins).
  - intros Hyes. apply orb_prop in Hyes. unfold same in Hyes.
    destruct Hyes as [E|E]; apply bool_decide_eq_true in E; congruence.
  - intros _.
    assert (resolves (try_catch
              (Upgrade.upgrade_components cfg
                 (Some (current_version "openjdk-" (host s)),
                  Some (current_version "tomcat-" (host s))))
              (fun error => console_error ("Upgrade process failed: " +:+ error)))) as H.
    { apply resolves_try; [apply quiet_upgrade_components|intros e; apply resolves_print]. }
    destruct (resolves_unit _ W (validated s) H) as (s' & Hs').
    eapply wp_known; [exact Hs'|reflexivity].
Qed.

Lemma upgrade_command_exits_zero_after_validation W s cfg :
  upgrade_cfg (host s) = Some cfg ->
  (forall n, n < 4 -> faults W (n + ticks s) = false) ->
  javaVersion cfg <> current_version "openjdk-" (host s) ->
  tomcatVersion cfg <> current_version "tomcat-" (host s) ->
  (Cli.run Cli.upgrade_command W s).1 = 0%Z.
Proof.
  intros Hcfg Hins Hj Ht. unfold Cli.run.
  change (wp Cli.upgrade_command W s (fun o _ => Cli.exit_status o = 0%Z)).
  unfold Cli.upgrade_command. wp_go.
  eapply wp_mono.
  - apply (upgrade_resolves_after_validation W (say Stdout "Starting upgrade process..." s) cfg);
      assumption.
  - intros o s' ->. wp_go. reflexivity.
Qed.

(** C2.  A failed upgrade makes the upgrade command exit with status 0: on
    the host with Java 17 and Tomcat 9.0.1, asked for Java 21 whose archive
    cannot be fetched, upgrade() logs the failure and returns, the command
    prints its success line and calls process.exit(0), and no JDK is left
    under /opt.  The same status follows a failed Tomcat step. *)
Theorem failed_upgrade_exits_zero :
  let r := Cli.run Cli.upgrade_command Demo.world_no_jdk (Demo.start Demo.host_17) in
  r.1 = 0%Z /\
  printed Stderr r.2
  = ["Command failed"; "Error: <stderr>";
     "Java download failed. Rolling back...";
     "No Java backup found for version 21. Skipping rollback.";
     "No Tomcat backup found for version 9.0.1. Skipping rollback.";
     "Java upgrade failed: <stderr>";
     "Java upgrade failed. Aborting process."] /\
  last (printed Stdout r.2) = Some "Upgrade completed successfully!" /\
  java_dirs (host r.2) = ∅ /\
  (Cli.run Cli.upgrade_command Demo.world_no_tomcat (Demo.start Demo.host_17)).1 = 0%Z.
Proof. vm_compute. repeat split; reflexivity. Qed.

(** ** Backups *)

(** C3, as stated, fails: after 17 -> 21 -> 25 the backup of 17 is still
    stored. *)
Lemma first_backup_survives_second_upgrade :
  ~ (stored JavaBackups "openjdk-17"
       (host (Demo.two_java_upgrades Demo.world_ok (Demo.start Demo.host_17)).2) = None).
Proof. vm_compute. discriminate. Qed.

(** C3, amended.  A backup replaces only the backup stored under the same
    directory name: an upgrade of Java or of Tomcat leaves every backup
    stored under another name than the replaced installation's as it was,
    and when the upgrade succeeds the replaced installation is stored under
    its own name. *)
Theorem backups_are_kept_per_name W s vj uj vt ut j kj kt :
  kj <> existing "openjdk-" (host s) ->
  kt <> existing "tomcat-" (host s) ->
  let rj := Upgrade.upgradeJava vj uj W s in
  let rt := Upgrade.upgradeTomcat vt ut j W s in
  stored JavaBackups kj (host rj.2) = stored JavaBackups kj (host s) /\
  stored TomcatBackups kt (host rt.2) = stored TomcatBackups kt (host s) /\
  (forall b, rj.1 = Ret b -> nonempty (existing "openjdk-" (host s)) = true ->
     stored JavaBackups (existing "openjdk-" (host s)) (host rj.2)
     = opt (host s) !! existing "openjdk-" (host s)) /\
  (rt.1 = Ret tt -> nonempty (existing "tomcat-" (host s)) = true ->
     stored TomcatBackups (existing "tomcat-" (host s)) (host rt.2)
     = opt (host s) !! existing "tomcat-" (host s)).
Proof.
  intros Hj Ht rj rt.
  destruct (upgradeJava_backups vj uj W s) as (Hk & _ & _ & Hnew).
  destruct (upgradeTomcat_backups vt ut j W s) as (Hk' & _ & _ & Hnew').
  repeat split; auto.
Qed.

(** The next upgrade of the host with Java 21 and Tomcat 10.1.34: the
    backups of 17 and 9.0.1 stay. *)
Lemma backups_are_kept_per_name_witness :
  let s := Demo.start Demo.host_21 in
  let rj := Upgrade.upgradeJava "25" (javaUrl Demo.cfg_25) Demo.world_ok s in
  let rt := Upgrade.upgradeTomcat "11.0.2" (tomcatUrl Demo.cfg_25) "21" Demo.world_ok s in
  stored JavaBackups "openjdk-17" (host rj.2) = stored JavaBackups "openjdk-17" (host s) /\
  stored TomcatBackups "tomcat-9.0.1" (host rt.2) = stored TomcatBackups "tomcat-9.0.1" (host s) /\
  (forall b, rj.1 = Ret b -> nonempty (existing "openjdk-" (host s)) = true ->
     stored JavaBackups (existing "openjdk-" (host s)) (host rj.2)
     = opt (host s) !! existing "openjdk-" (host s)) /\
  (rt.1 = Ret tt -> nonempty (existing "tomcat-" (host s)) = true ->
     stored TomcatBackups (existing "tomcat-" (host s)) (host rt.2)
     = opt (host s) !! existing "tomcat-" (host s)).
Proof.
  apply (backups_are_kept_per_name Demo.world_ok (Demo.start Demo.host_21)
           "25" (javaUrl Demo.cfg_25) "11.0.2" (tomcatUrl Demo.cfg_25) "21"
           "openjdk-17" "tomcat-9.0.1").
  - vm_compute. discriminate.
  - vm_compute. discriminate.
Defined.

(** ** A failed download *)

(** Without a fault, createBackup returns normally when the source exists
    and the backup directory is there. *)
Lemma createBackup_returns (b : Area) (name : string) W s c :
  b <> Opt ->
  (forall n, ticks s <= n -> faults W n = false) ->
  opt (host s) !! name = Some c ->
  is_Some (area b (host s)) ->
  wp (Upgrade.createBackup (Opt, name) (b, name)) W s (fun o s' =>
    o = Ret tt /\ ticks s <= ticks s').
Proof.
  intros Hb Hf Hc [d Hd]. unfold Upgrade.createBackup. wp_go.
  destruct b; [done| |]; hsimpl; rewrite Hd.
  all: destruct (d !! name) eqn:Hex.
  all: try (wp_step Hf; [rewrite Hd; reflexivity|done|]).
  all: wp_step Hf;
    [ cbn [mbind option_bind]; rewrite Hc, ?Hd, ?lookup_delete_eq, ?Hex; reflexivity
    | done | ].
  all: wp_go; split; [done|lia].
Qed.

Lemma java_dirs_removed h j t (pj pt : string) :
  opt h = {[ "openjdk-" +:+ j := pj; "tomcat-" +:+ t := pt ]} ->
  filter (fun kv : string * string => String.prefix "openjdk-" kv.1 = true)
    (delete ("openjdk-" +:+ j) (opt h)) = ∅.
Proof.
  intros Ho. rewrite Ho. apply map_eq; intros k. rewrite lookup_empty.
  apply map_lookup_filter_None. right. intros x Hx. simpl.
  apply lookup_delete_Some in Hx as [Hne Hx].
  apply lookup_insert_Some in Hx as [[<- _]|[_ Hx]]; [done|].
  apply lookup_singleton_Some in Hx as [<- _].
  rewrite tomcat_not_openjdk; [done|apply prefix_app].
Qed.

(** When the archive cannot be fetched, upgradeJava has removed the
    installed JDK and asks rollbackUpgrade for the backup of the new
    version: with no such backup nothing is restored. *)
Lemma upgradeJava_failed_fetch W s v u j1 t1 pj pt :
  (forall n, faults W n = false) ->
  net W u = None ->
  opt (host s) = {[ "openjdk-" +:+ j1 := pj; "tomcat-" +:+ t1 := pt ]} ->
  plain t1 = true ->
  v <> j1 ->
  stored JavaBackups ("openjdk-" +:+ v) (host s) = None ->
  tomcat_backups (host s) = None ->
  wp (Upgrade.upgradeJava v u) W s (fun o s' =>
    o = Throw stderr /\
    java_dirs (host s') = ∅ /\
    stored JavaBackups ("openjdk-" +:+ j1) (host s') = Some pj).
Proof.
  intros Hf Hnet Ho Ht Hv Hnew Htb.
  unfold Upgrade.upgradeJava. wp_go.
  wp_run Hf; [reflexivity|done|].
  wp_run Hf; [reflexivity|done|].
  unfold ls. hsimpl. rewrite Ho, grep_openjdk_pair by done.
  cbn [first_line head default from_option id]. rewrite nonempty_app by done.
  wp_go.
  match goal with |- wp _ W ?s0 _ => set (s1 := s0) end.
  assert (wp (Upgrade.createBackup (Opt, "openjdk-" +:+ j1) (JavaBackups, "openjdk-" +:+ j1))
            W s1 (fun o s2 =>
              o = Ret tt /\ opt (host s2) = opt (host s) /\
              tomcat_backups (host s2) = None /\
              java_backups (host s2) ≫= lookup ("openjdk-" +:+ j1) = Some pj /\
              java_backups (host s2) ≫= lookup ("openjdk-" +:+ v) = None)) as Hcb.
  { assert (opt (host s1) = opt (host s)) as Ho1 by reflexivity.
    pose proof (createBackup_spec JavaBackups ("openjdk-" +:+ j1) W s1 ltac:(done)) as Hspec.
    pose proof (createBackup_returns JavaBackups ("openjdk-" +:+ j1) W s1 pj ltac:(done)
                  ltac:(intros; apply Hf)) as Hret.
    unfold wp in Hspec, Hret |- *.
    destruct (Upgrade.createBackup _ _ W s1) as [o s2]. cbn [fst snd] in *.
    destruct Hret as [-> _].
    { by rewrite Ho1, Ho, lookup_insert_eq. }
    { by eexists. }
    destruct Hspec as (Ha & Hk & Hn & _).
    split; [done|]. split.
    { specialize (Ha Opt ltac:(done)). cbn [area] in Ha. congruence. }
    split.
    { specialize (Ha TomcatBackups ltac:(done)). cbn [area] in Ha. by rewrite Ha. }
    split.
    { change (stored JavaBackups ("openjdk-" +:+ j1) (host s2) = Some pj).
      rewrite (Hn eq_refl), Ho1, Ho. apply lookup_insert_eq. }
    change (stored JavaBackups ("openjdk-" +:+ v) (host s2) = None).
    rewrite Hk.
    - unfold stored, s1. hsimpl. unfold stored in Hnew. cbn [area] in Hnew.
      destruct (java_backups (host s)); [exact Hnew|apply lookup_empty].
    - intros E. apply Hv. by apply (inj (String.append "openjdk-")) in E. }
  eapply wp_mono; [exact Hcb|]. clear Hcb. clearbody s1.
  intros o s2 (-> & Ho2 & Htb2 & Hold & Hnew2).
  wp_run Hf; [reflexivity|done|]. hsimpl.
  wp_run Hf; [reflexivity|done|]. hsimpl.
  wp_go. apply wp_runCommand; intros Hf1; hsimpl.
  { by rewrite Hf in Hf1. }
  2: { rewrite Hnet. discriminate. }
  intros _. wp_go.
  unfold Upgrade.getCurrentVersions.
  wp_run Hf; [reflexivity|done|]. hsimpl.
  wp_run Hf; [reflexivity|done|]. hsimpl.
  unfold Upgrade.rollbackUpgrade. wp_go.
  destruct (java_backups (host s2)) as [bj|] eqn:Hbj; [|done].
  cbn [mbind option_bind] in Hold, Hnew2. rewrite Hnet. hsimpl. rewrite Hbj, Hnew2.
  wp_go. rewrite Htb2. wp_go.
  split; [done|]. unfold java_dirs, stored. hsimpl.
  rewrite Hbj. cbn [mbind option_bind].
  split; [|done]. rewrite Ho2. by eapply java_dirs_removed.
Qed.

(** C4.  When the archive of the new version cannot be fetched, the old
    installation is already removed and the restore is skipped: upgradeJava
    asks rollbackUpgrade for the backup of the new version 21, which does
    not exist, while the backup of 17 made by this upgrade stays unused, and
    the error propagates with no JDK under /opt.  upgradeTomcat passes the
    empty version and leaves no Tomcat under /opt. *)
Theorem failed_fetch_leaves_no_version :
  let rj := Upgrade.upgradeJava "21" (javaUrl Demo.cfg_21) Demo.world_no_jdk
              (Demo.start Demo.host_17) in
  let rt := Upgrade.upgradeTomcat "10.1.34" (tomcatUrl Demo.cfg_21) "21" Demo.world_no_tomcat
              Demo.java_done in
  rj.1 = Throw stderr /\
  java_dirs (host rj.2) = ∅ /\
  stored JavaBackups "openjdk-17" (host rj.2) = Some "jdk 17" /\
  "No Java backup found for version 21. Skipping rollback." ∈ printed Stderr rj.2 /\
  rt.1 = Throw stderr /\
  tomcat_dirs (host rt.2) = ∅ /\
  stored TomcatBackups "tomcat-9.0.1" (host rt.2) = Some "tomcat 9.0.1" /\
  "No Tomcat backup found for version . Skipping rollback." ∈ printed Stderr rt.2.
Proof.
  repeat split; try (vm_compute; reflexivity).
  all: apply (bool_decide_unpack _); vm_compute; exact I.
Qed.

(** ** Validation *)

(** C5, as stated, fails: with only Java at its desired version the upgrade
    is aborted all the same. *)
Lemma one_match_aborts :
  ~ (aborts Demo.world_ok (Demo.start Demo.host_java_current) ->
     both_match Demo.cfg_java_current Demo.host_java_current).
Proof.
  intros H. destruct H as [_ Ht].
  - exists 1%Z. vm_compute. reflexivity.
  - vm_compute in Ht. discriminate.
Qed.

(** C5, amended.  When the descriptor is read and the installed versions
    are inspected, upgrade() stops the process with process.exit(1) as soon
    as one of the two desired versions is the installed one, after a line on
    the error stream and with the host as it was; with both versions
    different it does not stop the process. *)
Theorem upgrade_aborts_on_any_match W s cfg :
  upgrade_cfg (host s) = Some cfg ->
  (forall n, n < 4 -> faults W (n + ticks s) = false) ->
  (javaVersion cfg = current_version "openjdk-" (host s) \/
   tomcatVersion cfg = current_version "tomcat-" (host s) ->
   exists msg, Upgrade.upgrade W s = (Exit 1, say Stderr msg (validated s))) /\
  (javaVersion cfg <> current_version "openjdk-" (host s) ->
   tomcatVersion cfg <> current_version "tomcat-" (host s) ->
   ~ aborts W s).
Proof.
  intros Hcfg Hins. split.
  - intros Hany.
    assert (wp Upgrade.upgrade W s (fun o s' =>
              exists msg, o = Exit 1 /\ s' = say Stderr msg (validated s))) as H.
    { apply (upgrade_prologue W s cfg Hcfg Hins).
      - intros _ msg. by exists msg.
      - intros Hno. apply orb_false_elim in Hno as [Hj Ht]. unfold same in *.
        apply bool_decide_eq_false in Hj, Ht.
        destruct Hany as [E|E]; [destruct Hj|destruct Ht]; by rewrite E. }
    unfold wp in H. destruct H as (msg & Ho & Hs). exists msg.
    destruct (Upgrade.upgrade W s) as [o s']. simpl in *. by subst.
  - intros Hj Ht [code Hc]. revert code Hc.
    change (wp Upgrade.upgrade W s (fun o _ => forall code, o <> Exit code)).
    apply (upgrade_prologue W s cfg Hcfg Hins).
    + intros Hyes. apply orb_prop in Hyes. unfold same in Hyes.
      destruct Hyes as [E|E]; apply bool_decide_eq_true in E; congruence.
    + intros _. apply wp_quiet; [|auto].
      apply quiet_try; [apply quiet_upgrade_components|].
      intros e. apply resolves_quiet, resolves_print.
Qed.

(** The host whose descriptor names the installed Java. *)
Lemma upgrade_aborts_on_any_match_witness :
  (javaVersion Demo.cfg_java_current
     = current_version "openjdk-" (host (Demo.start Demo.host_java_current)) \/
   tomcatVersion Demo.cfg_java_current
     = current_version "tomcat-" (host (Demo.start Demo.host_java_current)) ->
   exists msg, Upgrade.upgrade Demo.world_ok (Demo.start Demo.host_java_current)
               = (Exit 1, say Stderr msg (validated (Demo.start Demo.host_java_current)))) /\
  (javaVersion Demo.cfg_java_current
     <> current_version "openjdk-" (host (Demo.start Demo.host_java_current)) ->
   tomcatVersion Demo.cfg_java_current
     <> current_version "tomcat-" (host (Demo.start Demo.host_java_current)) ->
   ~ aborts Demo.world_ok (Demo.start Demo.host_java_current)).
Proof.
  apply (upgrade_aborts_on_any_match Demo.world_ok (Demo.start Demo.host_java_current)
           Demo.cfg_java_current).
  - reflexivity.
  - intros n _. reflexivity.
Defined.

(** ** Rollback *)

(** C6, as stated, fails: with no backup, rollbackJava raises nothing. *)
Lemma missing_backup_raises_nothing :
  ~ raises Rollback.rollbackJava Demo.world_ok (Demo.start Demo.host_17).
Proof. intros [e H]. vm_compute in H. discriminate. Qed.

(** C6, amended.  When no backup of a component is listed, its rollback
    returns normally after a line on the error stream and leaves the host
    as it was; the rollback command then exits with status 0, as it always
    does. *)
Theorem rollback_without_backup_is_skipped (c : Component) W s :
  grep (pattern c) (ls (backup_area c) (host s)) = [] ->
  (exists s' msg, rollback_of c W s = (Ret tt, s') /\ host s' = host s /\
                  last (console s') = Some (Stderr, msg)) /\
  (Cli.run Cli.rollback_command W s).1 = 0%Z.
Proof.
  intros Hnone. split.
  - pose proof (rollback_of_nothing c W s Hnone) as H. unfold wp in H.
    destruct H as (Ho & Hh & msg & Hl).
    exists (rollback_of c W s).2, msg.
    destruct (rollback_of c W s) as [o s']. simpl in *. by subst.
  - unfold Cli.run, Cli.rollback_command.
    destruct (safeAction_resolves Rollback.rollback "Rollback" W s resolves_rollback)
      as (s' & -> & _).
    reflexivity.
Qed.

(** The host that was never upgraded. *)
Lemma rollback_without_backup_is_skipped_witness :
  (exists s' msg,
     rollback_of Java Demo.world_ok (Demo.start Demo.host_17) = (Ret tt, s') /\
     host s' = host (Demo.start Demo.host_17) /\
     last (console s') = Some (Stderr, msg)) /\
  (Cli.run Cli.rollback_command Demo.world_ok (Demo.start Demo.host_17)).1 = 0%Z.
Proof.
  apply (rollback_without_backup_is_skipped Java Demo.world_ok (Demo.start Demo.host_17)).
  reflexivity.
Defined.

(** C7.  When every command succeeds and the latest backup of a component,
    in the order of `sort -V`, is the one of version [v], its rollback
    returns normally with the content of that backup as the only directory
    of the component under /opt and both backup areas as they were, the
    backup of [v] included.  For Tomcat the unit file of [v] is written, line
    by line as below, with the JAVA_HOME of the running process, and the
    service is enabled and started.  For Java the only declaration rebound
    is the JAVA_HOME line of /etc/environment: /etc/profile is left as it
    was, so the `export JAVA_HOME=` line that install or upgrade wrote there
    still names the directory the rollback has just removed. *)
Theorem rollback_restores_but_keeps_profile (c : Component) W s bk v p env :
  (forall n, faults W n = false) ->
  area (backup_area c) (host s) = Some bk ->
  last_line (sort_versions (grep (pattern c) (names_of bk))) = pattern c +:+ v ->
  bk !! (pattern c +:+ v) = Some p ->
  files (host s) !! etc_environment = Some env ->
  has_user (host s) = true ->
  has_group (host s) = true ->
  exists s',
    rollback_of c W s = (Ret tt, s') /\
    component_dirs c (host s') = {[ pattern c +:+ v := p ]} /\
    match c with
    | Java =>
        lines_with "JAVA_HOME=" etc_environment (host s')
        = ["JAVA_HOME=" +:+ dq +:+ "/opt/openjdk-" +:+ v +:+ dq]
    | Tomcat =>
        units (host s') !! unit_file ("tomcat-" +:+ v)
        = Some (join_lines [
            EmptyString;
            "[Unit]";
            "Description=Apache Tomcat " +:+ v;
            "After=network.target";
            EmptyString;
            "[Service]";
            "User=tomcat";
            "Group=tomcat";
            "Environment=" +:+ dq +:+ "JAVA_HOME=" +:+ env_java_home (host s) +:+ dq;
            "Environment=" +:+ dq +:+ "CATALINA_HOME=" +:+ ("/opt/tomcat-" +:+ v) +:+ dq;
            "ExecStart=" +:+ ("/opt/tomcat-" +:+ v) +:+ "/bin/catalina.sh run";
            "ExecStop=" +:+ ("/opt/tomcat-" +:+ v) +:+ "/bin/shutdown.sh";
            "Restart=always";
            EmptyString;
            "[Install]";
            "WantedBy=multi-user.target";
            EmptyString ]) /\
        "tomcat-" +:+ v ∈ enabled (host s') /\
        "tomcat-" +:+ v ∈ active (host s')
    end /\
    backups (host s') = backups (host s) /\
    stored (backup_area c) (pattern c +:+ v) (host s') = Some p /\
    files (host s') !! etc_profile = files (host s) !! etc_profile.
Proof.
  intros Hf Hbk Hlast Hp Henv Hu Hg.
  exists (rollback_of c W s).2.
  destruct c; cbn [rollback_of pattern backup_area component_dirs area] in *.
  - pose proof (rollbackJava_restores W Hf s bk v p env Hbk Hlast Hp Henv) as H.
    pose proof (rollbackJava_keeps_profile W s) as Hk. cbv beta in Hk.
    unfold wp in H. destruct (Rollback.rollbackJava W s) as [o s']. simpl in *.
    destruct H as (-> & Hd & _ & Hb & He & _).
    repeat split; try done.
    unfold stored. cbn [area]. injection Hb as -> _. by rewrite Hbk.
  - pose proof (rollbackTomcat_restores W Hf s bk v p Hbk Hlast Hp Hu Hg) as H.
    unfold wp in H. destruct (Rollback.rollbackTomcat W s) as [o s']. simpl in *.
    destruct H as (-> & Hd & _ & Hb & Hfl & Hunit & Hen & Hac).
    repeat split; try done.
    + unfold stored. cbn [area]. injection Hb as _ ->. by rewrite Hbk.
    + by rewrite Hfl.
Qed.

(** On the host upgraded to Java 21 and Tomcat 10.1.34, with the backups of
    17 and 9.0.1: after the rollback of Java, /opt holds openjdk-17 only and
    /etc/environment names it, while /etc/profile still exports
    /opt/openjdk-21; the rollback of Tomcat writes the unit of 9.0.1. *)
Lemma rollback_restores_but_keeps_profile_witness :
  (exists s',
     rollback_of Java Demo.world_ok (Demo.start Demo.host_21) = (Ret tt, s') /\
     component_dirs Java (host s') = {[ "openjdk-17" := "jdk 17" ]} /\
     lines_with "JAVA_HOME=" etc_environment (host s')
     = ["JAVA_HOME=" +:+ dq +:+ "/opt/openjdk-17" +:+ dq] /\
     lines_with "export JAVA_HOME=" etc_profile (host s')
     = ["export JAVA_HOME=/opt/openjdk-21"] /\
     stored JavaBackups "openjdk-17" (host s') = Some "jdk 17") /\
  (exists s',
     rollback_of Tomcat Demo.world_ok (Demo.start Demo.host_21) = (Ret tt, s') /\
     component_dirs Tomcat (host s') = {[ "tomcat-9.0.1" := "tomcat 9.0.1" ]} /\
     units (host s') !! "tomcat-9.0.1.service"
     = Some (join_lines [
         EmptyString;
         "[Unit]";
         "Description=Apache Tomcat 9.0.1";
         "After=network.target";
         EmptyString;
         "[Service]";
         "User=tomcat";
         "Group=tomcat";
         "Environment=" +:+ dq +:+ "JAVA_HOME=/opt/openjdk-17" +:+ dq;
         "Environment=" +:+ dq +:+ "CATALINA_HOME=/opt/tomcat-9.0.1" +:+ dq;
         "ExecStart=/opt/tomcat-9.0.1/bin/catalina.sh run";
         "ExecStop=/opt/tomcat-9.0.1/bin/shutdown.sh";
         "Restart=always";
         EmptyString;
         "[Install]";
         "WantedBy=multi-user.target";
         EmptyString ]) /\
     "tomcat-9.0.1" ∈ enabled (host s') /\
     "tomcat-9.0.1" ∈ active (host s') /\
     stored TomcatBackups "tomcat-9.0.1" (host s') = Some "tomcat 9.0.1").
Proof.
  split.
  - destruct (rollback_restores_but_keeps_profile Java Demo.world_ok
                (Demo.start Demo.host_21) {[ "openjdk-17" := "jdk 17" ]} "17" "jdk 17"
                ["JAVA_HOME=/opt/openjdk-21"])
      as (s' & Hr & Hd & He & _ & Hs & Hp).
    + intros n. reflexivity.
    + vm_compute. reflexivity.
    + vm_compute. reflexivity.
    + vm_compute. reflexivity.
    + vm_compute. reflexivity.
    + vm_compute. reflexivity.
    + vm_compute. reflexivity.
    + exists s'. split; [exact Hr|]. split; [exact Hd|]. split; [exact He|].
      split; [|exact Hs].
      unfold lines_with. rewrite Hp. vm_compute. reflexivity.
  - destruct (rollback_restores_but_keeps_profile Tomcat Demo.world_ok
                (Demo.start Demo.host_21) {[ "tomcat-9.0.1" := "tomcat 9.0.1" ]} "9.0.1"
                "tomcat 9.0.1" ["JAVA_HOME=/opt/openjdk-21"])
      as (s' & Hr & Hd & (Hu & Hen & Hac) & _ & Hs & _).
    + intros n. reflexivity.
    + vm_compute. reflexivity.
    + vm_compute. reflexivity.
    + vm_compute. reflexivity.
    + vm_compute. reflexivity.
    + vm_compute. reflexivity.
    + vm_compute. reflexivity.
    + exists s'. split; [exact Hr|]. split; [exact Hd|]. split; [exact Hu|].
      split; [exact Hen|]. split; [exact Hac|exact Hs].
Defined.

(** ** Declarations of JAVA_HOME *)

(** C8.  installJava appends its declaration of JAVA_HOME to /etc/profile
    and removes none: on the host whose /etc/profile declares the JDK 17,
    a successful install of 21 leaves two declarations, and on a fresh host
    install() run twice leaves the same declaration twice. *)
Theorem install_appends_second_declaration :
  let s1 := (Install.install Demo.cfg_21 Demo.world_ok (Demo.start Demo.host_17)).2 in
  let s2 := (Demo.install_twice Demo.world_ok (Demo.start Demo.host_fresh)).2 in
  lines_with "export JAVA_HOME=" etc_profile Demo.host_17
  = ["export JAVA_HOME=/opt/openjdk-17"] /\
  lines_with "export JAVA_HOME=" etc_profile (host s1)
  = ["export JAVA_HOME=/opt/openjdk-17";
     "export JAVA_HOME=" +:+ dq +:+ "/opt/openjdk-21" +:+ dq] /\
  printed Stderr s1 = [] /\
  lines_with "export JAVA_HOME=" etc_profile (host s2)
  = ["export JAVA_HOME=" +:+ dq +:+ "/opt/openjdk-21" +:+ dq;
     "export JAVA_HOME=" +:+ dq +:+ "/opt/openjdk-21" +:+ dq] /\
  printed Stderr s2 = [].
Proof. vm_compute. repeat split; reflexivity. Qed.

(** ** Runs that do not depend on the record of versions *)

Lemma prim_ignores_record p net h v :
  record_blind p = true ->
  prim_exec net p (set_prev v h) = sh_with_record v (prim_exec net p h).
Proof.
  destruct p; try discriminate; intros _; cbn [prim_exec].
  all: try reflexivity.
  all: try destruct a; try destruct b.
  all: cbn [area ls exists_in set_prev opt java_backups tomcat_backups tmp files units
            enabled active procs has_group has_user env_java_home env_user upgrade_cfg].
  all: repeat case_match; reflexivity.
Qed.

Lemma sh_ignores_record_all c : sh_all record_blind c -> sh_ignores_record c.
Proof.
  induction c as [p|a IHa b IHb|a IHa b IHb|a IHa b IHb| |p k IH];
    cbn [sh_all]; intros Hc net h v; cbn [sh_eval].
  - by apply prim_ignores_record.
  - destruct Hc as [Ha Hb]. rewrite (IHa Ha). cbn [sh_with_record ok hst out].
    destruct (ok (sh_eval net a h)); [|reflexivity].
    rewrite (IHb Hb). reflexivity.
  - destruct Hc as [Ha Hb]. rewrite (IHa Ha). cbn [sh_with_record ok hst out].
    destruct (ok (sh_eval net a h)); [reflexivity|].
    rewrite (IHb Hb). reflexivity.
  - destruct Hc as [Ha Hb]. rewrite (IHa Ha). cbn [sh_with_record ok hst out].
    rewrite (IHb Hb). reflexivity.
  - reflexivity.
  - destruct Hc as [Hp Hk]. rewrite (prim_ignores_record p net h v Hp).
    cbn [sh_with_record ok hst out].
    destruct (ok (prim_exec net p h)); [|reflexivity].
    apply (IH _ (Hk _)).
Qed.

Section IgnoresRules.

Lemma ignores_ret {A} (a : A) : ignores_record (ret a).
Proof. done. Qed.

Lemma ignores_throw {A} e : ignores_record (@throw A e).
Proof. done. Qed.

Lemma ignores_print st msg : ignores_record (print st msg).
Proof. done. Qed.

Lemma ignores_bind {A B} (m : M A) (k : A -> M B) :
  ignores_record m -> (forall a, ignores_record (k a)) -> ignores_record (bind m k).
Proof.
  intros Hm Hk W s v. unfold bind. rewrite (Hm W s v).
  destruct (m W s) as [[a|e|c] s']; simpl; try done. apply Hk.
Qed.

Lemma ignores_try {A} (m : M A) (h : string -> M A) :
  ignores_record m -> (forall e, ignores_record (h e)) -> ignores_record (try_catch m h).
Proof.
  intros Hm Hh W s v. unfold try_catch. rewrite (Hm W s v).
  destruct (m W s) as [[a|e|c] s']; simpl; try done. apply Hh.
Qed.

Lemma ignores_exec c : sh_ignores_record c -> ignores_record (exec c).
Proof.
  intros Hc W s v. unfold exec. cbn [with_record host ticks console].
  destruct (faults W (ticks s)); [reflexivity|].
  rewrite Hc. cbn [sh_with_record ok hst out]. by destruct (ok _).
Qed.

Lemma ignores_runCommand c : sh_all record_blind c -> ignores_record (Rollback.runCommand c).
Proof.
  intros Hc. unfold Rollback.runCommand.
  apply ignores_bind; [by apply ignores_exec, sh_ignores_record_all|].
  intros [stdout|]; [apply ignores_ret|].
  repeat (apply ignores_bind; [apply ignores_print|intros _]). apply ignores_throw.
Qed.

End IgnoresRules.

Ltac ignores_step :=
  match goal with
  | |- ignores_record (bind _ _) => apply ignores_bind; [|intros ?]
  | |- ignores_record (try_catch _ _) => apply ignores_try; [|intros ?]
  | |- ignores_record (console_log _) => apply ignores_print
  | |- ignores_record (console_error _) => apply ignores_print
  | |- ignores_record (Rollback.runCommand _) =>
      apply ignores_runCommand; cbn [sh_all record_blind]; tauto
  | |- ignores_record (if ?b then _ else _) => destruct b
  end.

Lemma rollbackJava_ignores_record : ignores_record Rollback.rollbackJava.
Proof. unfold Rollback.rollbackJava. repeat ignores_step. Qed.

Lemma rollbackTomcat_ignores_record : ignores_record Rollback.rollbackTomcat.
Proof. unfold Rollback.rollbackTomcat. repeat ignores_step. Qed.

Lemma rollback_ignores_record : ignores_record Rollback.rollback.
Proof.
  unfold Rollback.rollback. repeat ignores_step;
    first [apply rollbackJava_ignores_record | apply rollbackTomcat_ignores_record].
Qed.

(** ** The record of versions *)

Lemma resolves_createPreviousVersionsFile j t :
  resolves (Install.createPreviousVersionsFile j t).
Proof.
  unfold Install.createPreviousVersionsFile. outcome;
    first [apply quiet_fs_call | apply resolves_quiet, resolves_get_host].
Qed.

Lemma createPreviousVersionsFile_writes j t W s :
  faults W (ticks s) = false ->
  wp (Install.createPreviousVersionsFile j t) W s (fun _ s' =>
    prev_versions (host s') = Some (j, t)).
Proof.
  intros Hf.
  unfold Install.createPreviousVersionsFile.
  apply wp_try, wp_bind. unfold Install.fs_call at 1.
  apply wp_bind, wp_exec; [congruence|intros _].
  hsimpl. apply wp_ret.
  apply (wp_keeps prev_versions).
  - keeps_go; apply keeps_fs_call; intros ? ?; reflexivity.
  - intros [[]|e|c] s' Hs'; hsimpl; done.
Qed.

Lemma rollback_keeps_record : keeps prev_versions Rollback.rollback.
Proof.
  unfold Rollback.rollback. keeps_go;
    first [apply rollbackJava_keeps_record | apply rollbackTomcat_keeps_record].
Qed.

(** C9, as stated, fails: on the host with Java 17 and Tomcat 9.0.1 a
    successful install of 21 and 10.1.34 does not record the pair that was
    active before. *)
Lemma install_does_not_record_prior_pair :
  ~ (prev_versions (host (Install.install Demo.cfg_21 Demo.world_ok (Demo.start Demo.host_17)).2)
     = Some ("17", "9.0.1")).
Proof. vm_compute. discriminate. Qed.

(** C9, amended.  When the two component installations of install()
    succeed and the write of the record does not fail, the record holds the
    pair just installed, the versions of the descriptor; neither upgrade()
    nor rollback() writes the record, and rollback() does not read it: with
    any other record it ends the same way and in the same state. *)
Theorem install_records_installed_pair W s cfg s1 :
  (Install.installJava cfg ;; Install.installTomcat cfg) W s = (Ret tt, s1) ->
  faults W (ticks s1) = false ->
  (exists s', Install.install cfg W s = (Ret tt, s') /\
              prev_versions (host s') = Some (javaVersion cfg, tomcatVersion cfg)) /\
  prev_versions (host (Upgrade.upgrade W s).2) = prev_versions (host s) /\
  prev_versions (host (Rollback.rollback W s).2) = prev_versions (host s) /\
  (forall v, Rollback.rollback W (with_record v s)
             = ((Rollback.rollback W s).1, with_record v (Rollback.rollback W s).2)).
Proof.
  intros Hsteps Hf.
  split; [|split; [apply upgrade_keeps_record
                  |split; [apply rollback_keeps_record | apply rollback_ignores_record]]].
  assert (exists a s0, Install.installJava cfg W s = (Ret a, s0) /\
                       Install.installTomcat cfg W s0 = (Ret tt, s1)) as (a & s0 & HJ & HT).
  { unfold bind in Hsteps.
    destruct (Install.installJava cfg W s) as [[a|e|c] s0]; try discriminate.
    by exists a, s0. }
  assert (wp (Install.install cfg) W s (fun o s' =>
            o = Ret tt /\ prev_versions (host s') = Some (javaVersion cfg, tomcatVersion cfg)))
    as H.
  { unfold Install.install. apply wp_try, wp_bind.
    eapply wp_known; [exact HJ|]. hsimpl. apply wp_bind.
    eapply wp_known; [exact HT|]. hsimpl. apply wp_bind.
    pose proof (createPreviousVersionsFile_writes (javaVersion cfg) (tomcatVersion cfg) W s1 Hf)
      as Hw.
    destruct (resolves_unit _ W s1
                (resolves_createPreviousVersionsFile (javaVersion cfg) (tomcatVersion cfg)))
      as (s2 & Hc).
    unfold wp in Hw. rewrite Hc in Hw. simpl in Hw.
    eapply wp_known; [exact Hc|]. hsimpl. by apply wp_print. }
  unfold wp in H. destruct (Install.install cfg W s) as [o s']. simpl in H.
  destruct H as [-> H]. by exists s'.
Qed.

(** The install of 21 and 10.1.34 on the host with 17 and 9.0.1. *)
Lemma install_records_installed_pair_witness :
  (exists s', Install.install Demo.cfg_21 Demo.world_ok (Demo.start Demo.host_17) = (Ret tt, s') /\
              prev_versions (host s')
              = Some (javaVersion Demo.cfg_21, tomcatVersion Demo.cfg_21)) /\
  prev_versions (host (Upgrade.upgrade Demo.world_ok (Demo.start Demo.host_17)).2)
  = prev_versions (host (Demo.start Demo.host_17)) /\
  prev_versions (host (Rollback.rollback Demo.world_ok (Demo.start Demo.host_17)).2)
  = prev_versions (host (Demo.start Demo.host_17)) /\
  (forall v, Rollback.rollback Demo.world_ok (with_record v (Demo.start Demo.host_17))
             = ((Rollback.rollback Demo.world_ok (Demo.start Demo.host_17)).1,
                with_record v (Rollback.rollback Demo.world_ok (Demo.start Demo.host_17)).2)).
Proof.
  apply (install_records_installed_pair Demo.world_ok (Demo.start Demo.host_17) Demo.cfg_21
           Demo.components_installed).
  - vm_compute. reflexivity.
  - reflexivity.
Defined.

(** ** Uninstall *)

(** C10.  uninstallJava, uninstallTomcat and fullUninstall return normally
    from every state and whatever commands fail, and the uninstall command
    ends with its success line and exit status 0. *)
Theorem uninstall_always_reports_success W s :
  (exists s', Uninstall.uninstallJava W s = (Ret tt, s')) /\
  (exists s', Uninstall.uninstallTomcat W s = (Ret tt, s')) /\
  (exists s', Uninstall.fullUninstall W s = (Ret tt, s')) /\
  (exists s', Cli.run Cli.uninstall_command W s = (0%Z, s') /\
              last (console s') = Some (Stdout, "Uninstallation completed successfully!")).
Proof.
  split; [apply resolves_unit, resolves_uninstallJava|].
  split; [apply resolves_unit, resolves_uninstallTomcat|].
  split; [apply resolves_unit, resolves_fullUninstall|].
  unfold Cli.run, Cli.uninstall_command.
  edestruct (safeAction_resolves
               (Uninstall.uninstallJava ;; Uninstall.uninstallTomcat ;;
                Uninstall.removePreviousVersionsFile) "Uninstallation" W s)
    as (s' & Hrun & Hlast).
  { apply resolves_bind; [apply resolves_uninstallJava|intros _].
    apply resolves_bind; [apply resolves_uninstallTomcat|intros _].
    apply resolves_removePreviousVersionsFile. }
  exists s'. rewrite Hrun. done.
Qed.

(** * Further properties of the code *)

(** ** upgrade.js: reading the installed versions and the descriptor *)

Ltac console_eq :=
  cbv [say complain after listing_failed host ticks console];
  rewrite <- ?app_assoc, ?app_nil_r; cbn [app]; try reflexivity.

Lemma getCurrentVersions_run W s :
  Upgrade.getCurrentVersions W s
  = (Ret (if faults W (ticks s) then None else Some (current_version "openjdk-" (host s)),
          if faults W (S (ticks s)) then None else Some (current_version "tomcat-" (host s))),
     {| host := host s; ticks := S (S (ticks s));
        console := (console s ++ listing_failed "Java" (faults W (ticks s)))
                   ++ listing_failed "Tomcat" (faults W (S (ticks s))) |}).
Proof.
  apply wp_eq. unfold Upgrade.getCurrentVersions. wp_go.
  apply wp_runCommand; intros Hf1; rewrite Hf1; hsimpl; try discriminate.
  - wp_go. apply wp_runCommand; intros Hf2; hsimpl; rewrite ?Hf2; try discriminate.
    + wp_go. split; [done|]. console_eq.
    + intros _. wp_go. split; [done|]. console_eq.
  - intros _. wp_go. apply wp_runCommand; intros Hf2; hsimpl; rewrite ?Hf2; try discriminate.
    + wp_go. split; [done|]. console_eq.
    + intros _. wp_go. split; [done|]. console_eq.
Qed.

(** X1.  getCurrentVersions never rejects and never changes the host: it
    runs its two listings, reports a component as null only when its
    listing cannot be run, and otherwise reports what the listing prints,
    which on a host without that component is the empty string and not
    null. *)
Theorem getCurrentVersions_reads_only W s :
  exists s',
    Upgrade.getCurrentVersions W s
    = (Ret (if faults W (ticks s) then None
            else Some (current_version "openjdk-" (host s)),
            if faults W (S (ticks s)) then None
            else Some (current_version "tomcat-" (host s))), s') /\
    host s' = host s /\ ticks s' = S (S (ticks s)) /\
    (grep "openjdk-" (ls Opt (host s)) = [] -> current_version "openjdk-" (host s) = EmptyString) /\
    (grep "tomcat-" (ls Opt (host s)) = [] -> current_version "tomcat-" (host s) = EmptyString).
Proof.
  eexists. split; [apply getCurrentVersions_run|].
  repeat split; unfold current_version; by intros ->.
Qed.

(** X2.  Without an upgrade descriptor, upgrade() runs no command and
    leaves the host as it is: readUpgradeConfiguration logs and rethrows,
    upgrade() logs once more and resolves, and the upgrade command ends
    with exit status 0. *)
Theorem upgrade_without_descriptor W s :
  upgrade_cfg (host s) = None ->
  exists s',
    Upgrade.upgrade W s = (Ret tt, s') /\
    host s' = host s /\ ticks s' = ticks s /\
    (exists m, last (console s') = Some (Stderr, m)) /\
    (Cli.run Cli.upgrade_command W s).1 = 0%Z /\
    host (Cli.run Cli.upgrade_command W s).2 = host s.
Proof.
  intros Hcfg.
  assert (forall s0, host s0 = host s ->
    Upgrade.upgrade W s0
    = (Ret tt,
       say Stderr "Upgrade process failed: Upgrade configuration file not found."
         (say Stderr "Failed to read upgrade configuration: Upgrade configuration file not found."
            (say Stdout "Starting upgrade process..." s0)))) as Hrun.
  { intros s0 Hs0. apply wp_eq. unfold Upgrade.upgrade, Upgrade.readUpgradeConfiguration.
    wp_go. rewrite Hs0, Hcfg. wp_go. done. }
  eexists. split; [by apply Hrun|]. split; [reflexivity|]. split; [reflexivity|].
  split; [eexists; apply last_snoc|].
  unfold Cli.run, Cli.upgrade_command, bind, try_catch, console_log, print.
  cbn [fst snd]. rewrite Hrun by reflexivity. split; reflexivity.
Qed.

(** A host without a descriptor. *)
Lemma upgrade_without_descriptor_witness :
  exists s',
    Upgrade.upgrade Demo.world_ok (Demo.start Demo.host_fresh) = (Ret tt, s') /\
    host s' = host (Demo.start Demo.host_fresh) /\
    ticks s' = ticks (Demo.start Demo.host_fresh) /\
    (exists m, last (console s') = Some (Stderr, m)) /\
    (Cli.run Cli.upgrade_command Demo.world_ok (Demo.start Demo.host_fresh)).1 = 0%Z /\
    host (Cli.run Cli.upgrade_command Demo.world_ok (Demo.start Demo.host_fresh)).2
    = host (Demo.start Demo.host_fresh).
Proof.
  apply (upgrade_without_descriptor Demo.world_ok (Demo.start Demo.host_fresh)).
  reflexivity.
Defined.

(** ** upgrade.js: createBackup, the tomcat account, rollbackUpgrade *)

(** X3.  createBackup deletes the backup stored under the destination name
    before it copies: when that backup exists and the copy then fails (the
    command fails, or the source directory is missing), the error is logged
    and rethrown, /opt is as it was, and the previous backup is gone. *)
Theorem createBackup_failed_copy_loses_backup (b : Area) (name : string) W s :
  b <> Opt ->
  exists_in b name (host s) = true ->
  faults W (ticks s) = false ->
  faults W (S (ticks s)) = true \/ opt (host s) !! name = None ->
  exists s',
    Upgrade.createBackup (Opt, name) (b, name) W s = (Throw stderr, s') /\
    stored b name (host s') = None /\
    opt (host s') = opt (host s) /\
    last (console s') = Some (Stderr, "Backup creation failed: " +:+ stderr).
Proof.
  intros Hb Hex Hf Hcp.
  assert (wp (Upgrade.createBackup (Opt, name) (b, name)) W s (fun o s' =>
            o = Throw stderr /\ stored b name (host s') = None /\
            opt (host s') = opt (host s) /\
            last (console s') = Some (Stderr, "Backup creation failed: " +:+ stderr))) as H.
  { unfold Upgrade.createBackup. wp_go.
    destruct b; [done| |]; hsimpl.
    all: match type of Hex with
         | context [java_backups ?h] => destruct (java_backups h) as [d|] eqn:Hd
         | context [tomcat_backups ?h] => destruct (tomcat_backups h) as [d|] eqn:Hd
         end; [|done].
    all: rewrite Hex.
    all: wp_go; eapply wp_runCommand_eq; [exact Hf|hsimpl; rewrite Hd; reflexivity|done|].
    all: hsimpl; wp_go.
    all: apply wp_runCommand; intros Hf2; hsimpl;
      [ | intros Hfail | intros Hok ].
    all: try (hsimpl; cbn [mbind option_bind] in Hok;
              destruct Hcp as [Hcp|Hcp]; [congruence|];
              rewrite Hcp in Hok; hsimpl; discriminate).
    all: wp_go; unfold stored; hsimpl; cbn [mbind option_bind].
    all: repeat case_match; hsimpl; cbn [mbind option_bind] in *;
      rewrite ?lookup_delete_eq in *; try congruence;
      repeat split; try done; apply last_snoc. }
  unfold wp in H. destruct (Upgrade.createBackup _ _ W s) as [o s']. cbn [fst snd] in H.
  destruct H as (-> & H). by exists s'.
Qed.

(** The backup of Java 17 on the upgraded host, asked once more although
    /opt/openjdk-17 is gone. *)
Lemma createBackup_failed_copy_loses_backup_witness :
  exists s',
    Upgrade.createBackup (Opt, "openjdk-17") (JavaBackups, "openjdk-17")
      Demo.world_ok (Demo.start Demo.host_21) = (Throw stderr, s') /\
    stored JavaBackups "openjdk-17" (host s') = None /\
    opt (host s') = opt (host (Demo.start Demo.host_21)) /\
    last (console s') = Some (Stderr, "Backup creation failed: " +:+ stderr).
Proof.
  apply (createBackup_failed_copy_loses_backup JavaBackups "openjdk-17"
           Demo.world_ok (Demo.start Demo.host_21)).
  - discriminate.
  - vm_compute. reflexivity.
  - reflexivity.
  - right. vm_compute. reflexivity.
Defined.

Lemma flags_set h :
  has_group h = true -> has_user h = true -> h = set_user true (set_group true h).
Proof. destruct h. cbn. by intros -> ->. Qed.

(** Whenever ensureTomcatUserAndGroup returns normally, only the two
    account flags can have changed, and both are set. *)
Lemma ensureTomcatUserAndGroup_host W s :
  wp Upgrade.ensureTomcatUserAndGroup W s (fun o s1 =>
    o = Ret tt -> host s1 = set_user true (set_group true (host s))).
Proof.
  unfold Upgrade.ensureTomcatUserAndGroup. wp_go.
  apply wp_runCommand; intros Hf1; hsimpl; [|intros Hg|intros Hg]; wp_go.
  1,2: apply wp_runCommand; intros Hf2; hsimpl; [|intros Hg2|intros Hg2]; wp_go; try done.
  1,2: destruct (has_group (host s)) eqn:Hgr; try discriminate; hsimpl.
  all: apply wp_runCommand; intros Hf3; hsimpl; [|intros Hu|intros Hu]; wp_go.
  all: try (apply wp_runCommand; intros Hf4; hsimpl; [|intros Hu2|intros Hu2]; wp_go; try done).
  all: intros _.
  all: try (destruct (has_user (host s)) eqn:Hus; try discriminate; hsimpl).
  all: try (destruct (host s); cbn in *; subst; reflexivity).
Qed.

(** X4.  Whenever ensureTomcatUserAndGroup returns normally, the group and
    the user tomcat exist and nothing else on the host has changed: each is
    created only after its lookup failed, and a lookup that succeeds changes
    nothing. *)
Theorem ensureTomcatUserAndGroup_ensures W s s' :
  Upgrade.ensureTomcatUserAndGroup W s = (Ret tt, s') ->
  host s' = set_user true (set_group true (host s)) /\
  (has_group (host s) = true -> has_user (host s) = true -> host s' = host s).
Proof.
  intros Hrun.
  pose proof (ensureTomcatUserAndGroup_host W s) as H.
  unfold wp in H. rewrite Hrun in H. cbn [fst snd] in H. specialize (H eq_refl).
  split; [exact H|]. intros Hg Hu. rewrite H. symmetry. by apply flags_set.
Qed.

(** A host without the account. *)
Lemma ensureTomcatUserAndGroup_ensures_witness :
  host (Upgrade.ensureTomcatUserAndGroup Demo.world_ok (Demo.start Demo.host_fresh)).2
  = set_user true (set_group true (host (Demo.start Demo.host_fresh))) /\
  (has_group (host (Demo.start Demo.host_fresh)) = true ->
   has_user (host (Demo.start Demo.host_fresh)) = true ->
   host (Upgrade.ensureTomcatUserAndGroup Demo.world_ok (Demo.start Demo.host_fresh)).2
   = host (Demo.start Demo.host_fresh)).
Proof.
  apply (ensureTomcatUserAndGroup_ensures Demo.world_ok (Demo.start Demo.host_fresh)).
  vm_compute. reflexivity.
Defined.

(** X5.  rollbackUpgrade never rejects: whatever fails inside is logged
    and its promise resolves, so a caller cannot tell a failed restore from
    a successful one.  It never writes to the two backup directories, and
    when neither the backup of the Java version nor the one of the Tomcat
    version it is given exists (a null version names openjdk-null and
    tomcat-null), it runs no command and changes nothing on the host. *)
Theorem rollbackUpgrade_never_rejects (j t : option string) W s :
  exists s',
    Upgrade.rollbackUpgrade j t W s = (Ret tt, s') /\
    backups (host s') = backups (host s) /\
    (exists_in JavaBackups ("openjdk-" +:+ tpl j) (host s) = false ->
     exists_in TomcatBackups ("tomcat-" +:+ tpl t) (host s) = false ->
     host s' = host s /\ ticks s' = ticks s).
Proof.
  destruct (resolves_unit _ W s (resolves_rollbackUpgrade j t)) as (s' & Hrun).
  exists s'. split; [exact Hrun|]. split.
  - pose proof (rollbackUpgrade_keeps_backups j t W s) as H. by rewrite Hrun in H.
  - intros Hj Ht.
    assert (wp (Upgrade.rollbackUpgrade j t) W s (fun _ s1 =>
              host s1 = host s /\ ticks s1 = ticks s)) as H.
    { unfold Upgrade.rollbackUpgrade. wp_go. rewrite Hj. wp_go. rewrite Ht. wp_go. done. }
    unfold wp in H. by rewrite Hrun in H.
Qed.

(** ** upgrade.js: the environment script *)

Lemma hst_seq net a b h :
  hst (sh_eval net (Seq a b) h) = hst (sh_eval net b (hst (sh_eval net a h))).
Proof. reflexivity. Qed.

Lemma sed_lookup net re f g h :
  files (hst (prim_exec net (SedDelete re f) h)) !! g
  = if decide (g = f)
    then filter (fun x => re_match re x = false) <$> files h !! f
    else files h !! g.
Proof.
  cbn [prim_exec]. destruct (files h !! f) as [l|] eqn:Hl; cbn [hst done_ok failed files set_files].
  - destruct (decide (g = f)) as [->|Hne]; [apply lookup_insert_eq|by apply lookup_insert_ne].
  - destruct (decide (g = f)) as [->|Hne]; [exact Hl|done].
Qed.

Lemma tee_append_lookup net line f g h :
  files (hst (prim_exec net (TeeAppend line f) h)) !! g
  = if decide (g = f)
    then Some (default [] (files h !! f) ++ [line])
    else files h !! g.
Proof.
  cbn [prim_exec hst done_ok files set_files].
  destruct (decide (g = f)) as [->|Hne]; [apply lookup_insert_eq|by apply lookup_insert_ne].
Qed.

Ltac files_go :=
  repeat first
    [ rewrite hst_seq
    | progress cbn [sh_eval]
    | rewrite tee_append_lookup
    | rewrite sed_lookup
    | rewrite decide_True by done
    | rewrite decide_False by done ].

Lemma java_env_script_files net dir h :
  let h1 := hst (sh_eval net (Upgrade.java_env_script dir) h) in
  files h1 !! etc_profile = Some (profile_after dir (default [] (files h !! etc_profile))) /\
  files h1 !! etc_environment
  = Some (environment_after dir (default [] (files h !! etc_environment))) /\
  (forall f, f <> etc_profile -> f <> etc_environment -> files h1 !! f = files h !! f).
Proof.
  cbv zeta. unfold Upgrade.java_env_script, profile_after, environment_after.
  split; [|split].
  - files_go. destruct (files h !! etc_profile); cbn [fmap option_fmap option_map default from_option id];
      by rewrite <- app_assoc.
  - files_go. by destruct (files h !! etc_environment).
  - intros f Hp He. files_go. done.
Qed.

Lemma filter_filter_same {A} (P Q : A -> Prop) `{!forall x, Decision (P x)}
    `{!forall x, Decision (Q x)} (l : list A) :
  filter P (filter Q (filter P l)) = filter Q (filter P l).
Proof.
  induction l as [|x l IH]; [done|].
  rewrite (filter_cons P x l). destruct (decide (P x)) as [HP|HP]; [|exact IH].
  rewrite (filter_cons Q x). destruct (decide (Q x)) as [HQ|HQ]; [|exact IH].
  rewrite (filter_cons P x). rewrite decide_True by done. by rewrite IH.
Qed.

Lemma filter_idem {A} (P : A -> Prop) `{!forall x, Decision (P x)} (l : list A) :
  filter P (filter P l) = filter P l.
Proof.
  induction l as [|x l IH]; [done|].
  rewrite (filter_cons P x l). destruct (decide (P x)) as [HP|HP]; [|exact IH].
  rewrite (filter_cons P x). rewrite decide_True by done. by rewrite IH.
Qed.

Lemma filter_deleted_under (pre : string) (Q : string -> Prop) `{!forall x, Decision (Q x)}
    (l : list string) :
  filter (fun x => String.prefix pre x = true)
    (filter Q (filter (fun x => String.prefix pre x = false) l)) = [].
Proof.
  induction l as [|x l IH]; [done|].
  rewrite (filter_cons (fun x => String.prefix pre x = false)).
  destruct (decide (String.prefix pre x = false)) as [E|E]; [|exact IH].
  rewrite (filter_cons Q). destruct (decide (Q x)); [|exact IH].
  rewrite filter_cons. rewrite decide_False by congruence. exact IH.
Qed.

Lemma profile_after_declares dir l :
  filter (fun x => String.prefix "export JAVA_HOME=" x = true) (profile_after dir l)
  = ["export JAVA_HOME=/opt/" +:+ dir].
Proof.
  unfold profile_after. rewrite filter_app. cbn [re_match].
  rewrite filter_deleted_under. reflexivity.
Qed.

Lemma environment_after_declares dir l :
  filter (fun x => String.prefix "JAVA_HOME=" x = true) (environment_after dir l)
  = ["JAVA_HOME=/opt/" +:+ dir].
Proof.
  unfold environment_after. rewrite filter_app.
  cbn [re_match]. rewrite filter_prefix_deleted. reflexivity.
Qed.

Lemma profile_after_idem dir l : profile_after dir (profile_after dir l) = profile_after dir l.
Proof.
  unfold profile_after at 2 3.
  set (Q1 := fun x => re_match (ReStarts "export JAVA_HOME=") x = false).
  set (Q2 := fun x => re_match (ReStartsHas "export PATH=" "JAVA_HOME") x = false).
  unfold profile_after. fold Q1 Q2.
  rewrite (filter_app Q1). rewrite filter_filter_same.
  assert (filter Q1 ["export JAVA_HOME=/opt/" +:+ dir; "export PATH=$JAVA_HOME/bin:$PATH"]
          = ["export PATH=$JAVA_HOME/bin:$PATH"]) as -> by reflexivity.
  rewrite (filter_app Q2). rewrite filter_idem.
  assert (filter Q2 ["export PATH=$JAVA_HOME/bin:$PATH"] = []) as -> by reflexivity.
  by rewrite app_nil_r.
Qed.

Lemma environment_after_idem dir l :
  environment_after dir (environment_after dir l) = environment_after dir l.
Proof.
  unfold environment_after.
  set (Q := fun x => re_match (ReStarts "JAVA_HOME=") x = false).
  rewrite (filter_app Q). rewrite filter_idem.
  assert (filter Q ["JAVA_HOME=/opt/" +:+ dir] = []) as -> by reflexivity.
  by rewrite app_nil_r.
Qed.

(** X6.  The environment script of upgradeJava and rollbackUpgrade is
    remove-then-set: from any host, existing or missing files alike, it
    succeeds and leaves exactly one `export JAVA_HOME=` line in /etc/profile
    and one `JAVA_HOME=` line in /etc/environment, both naming the given
    directory; it touches no other file and nothing else on the host; and
    run a second time it leaves the two files as the first run did. *)
Theorem java_env_script_sets_one_declaration net dir h :
  let run := sh_eval net (Upgrade.java_env_script dir) in
  ok (run h) = true /\
  lines_with "export JAVA_HOME=" etc_profile (hst (run h)) = ["export JAVA_HOME=/opt/" +:+ dir] /\
  lines_with "JAVA_HOME=" etc_environment (hst (run h)) = ["JAVA_HOME=/opt/" +:+ dir] /\
  (forall f, f <> etc_profile -> f <> etc_environment ->
             files (hst (run h)) !! f = files h !! f) /\
  hst (run h) = set_files (files (hst (run h))) h /\
  files (hst (run (hst (run h)))) !! etc_profile = files (hst (run h)) !! etc_profile /\
  files (hst (run (hst (run h)))) !! etc_environment
  = files (hst (run h)) !! etc_environment.
Proof.
  cbv zeta.
  destruct (java_env_script_files net dir h) as (Hp & He & Hrest).
  destruct (java_env_script_files net dir (hst (sh_eval net (Upgrade.java_env_script dir) h)))
    as (Hp2 & He2 & _).
  split; [reflexivity|].
  split; [unfold lines_with; rewrite Hp; apply profile_after_declares|].
  split; [unfold lines_with; rewrite He; apply environment_after_declares|].
  split; [exact Hrest|].
  split.
  { destruct (text_only_script (Upgrade.java_env_script dir) net h) as [fl Hfl]; [cbn; tauto|].
    rewrite Hfl. reflexivity. }
  split.
  - rewrite Hp2, Hp. cbn [default from_option id]. by rewrite profile_after_idem.
  - rewrite He2, He. cbn [default from_option id]. by rewrite environment_after_idem.
Qed.

(** ** upgrade.js: an upgrade whose commands all succeed *)

Lemma first_line_in (l : list string) : nonempty (first_line l) = true -> first_line l ∈ l.
Proof. destruct l as [|x l]; [done|]. intros _. cbn. by left. Qed.

Lemma existing_in_opt pat h :
  nonempty (existing pat h) = true -> is_Some (opt h !! existing pat h).
Proof.
  intros H. apply first_line_in in H. unfold existing, grep in *.
  apply list_elem_of_filter in H as [_ H]. unfold ls in H. cbn [area] in H.
  by apply names_of_spec in H.
Qed.

(** createBackup when no command fails. *)
Lemma createBackup_exact (b : Area) (name : string) W s c d :
  b <> Opt ->
  (forall n, ticks s <= n -> faults W n = false) ->
  opt (host s) !! name = Some c ->
  area b (host s) = Some d ->
  wp (Upgrade.createBackup (Opt, name) (b, name)) W s (fun o s' =>
    o = Ret tt /\ ticks s <= ticks s' /\
    host s' = set_area b (<[name := c]> d) (host s)).
Proof.
  intros Hb Hf Hc Hd. unfold Upgrade.createBackup. wp_go.
  destruct b; [done| |]; hsimpl; rewrite Hd.
  all: destruct (d !! name) eqn:Hex.
  all: try (wp_step Hf; [rewrite Hd; reflexivity|done|]).
  all: wp_step Hf;
    [ cbn [mbind option_bind]; rewrite Hc, ?Hd, ?lookup_delete_eq, ?Hex; reflexivity
    | done | ].
  all: wp_go; split; [done|]; split; [lia|].
  all: rewrite ?insert_delete_eq; reflexivity.
Qed.

(** The backup and the removal at the start of upgradeJava and
    upgradeTomcat. *)
Lemma backup_step (b : Area) (pat : string) W s :
  b <> Opt ->
  (forall n, ticks s <= n -> faults W n = false) ->
  is_Some (area b (host s)) ->
  wp (if nonempty (existing pat (host s))
      then
        Upgrade.createBackup (Opt, existing pat (host s)) (b, existing pat (host s)) ;;
        Upgrade.runCommand (Run (RmRf Opt (existing pat (host s)))) ;;
        ret tt
      else ret tt) W s (fun o s' =>
    o = Ret tt /\ ticks s <= ticks s' /\ host s' = backed_up b pat (host s)).
Proof.
  intros Hb Hf [d Hd]. unfold backed_up.
  destruct (nonempty (existing pat (host s))) eqn:He; [|by wp_go].
  destruct (existing_in_opt pat (host s) He) as [c Hc].
  wp_go. eapply wp_mono; [by apply (createBackup_exact b _ W s c d)|].
  intros o s1 (-> & Ht & Hs1).
  wp_go. eapply wp_runCommand_eq; [apply Hf; lia|reflexivity|done|].
  wp_go. split; [done|]. split; [lia|].
  rewrite Hs1, Hc, Hd. by destruct b.
Qed.

Lemma grep_extracted pat (top p : string) (o : gmap string string) :
  contains pat top = true ->
  (forall k, is_Some (o !! k) -> contains pat k = false) ->
  grep pat (names_of (<[top := p]> o)) = [top].
Proof.
  intros Htop Hclean. apply grep_only.
  - rewrite lookup_insert_eq. by eexists.
  - exact Htop.
  - intros k [x Hx] Hk. apply lookup_insert_Some in Hx as [[<- _]|[_ Hx]]; [done|].
    rewrite Hclean in Hk by by eexists. done.
Qed.

Lemma contains_nonempty pat s : nonempty pat = true -> contains pat s = true -> nonempty s = true.
Proof. destruct s; [|done]. by destruct pat. Qed.

Lemma jdk_in_openjdk v : contains "jdk-" ("openjdk-" +:+ v) = true.
Proof.
  rewrite !app_cons. do 4 (rewrite contains_skip by reflexivity).
  apply (contains_app "jdk-" v).
Qed.

(** upgradeJava when the archive is served and no command fails. *)
Lemma upgradeJava_succeeds W s v u a :
  (forall n, ticks s <= n -> faults W n = false) ->
  net W u = Some a ->
  contains "jdk-" (top a) = true ->
  top a <> "openjdk-" +:+ v ->
  (forall k, is_Some (opt_without "openjdk-" (host s) !! k) -> contains "jdk-" k = false) ->
  wp (Upgrade.upgradeJava v u) W s (fun o s' =>
    o = Ret true /\ ticks s <= ticks s' /\
    opt (host s') = <["openjdk-" +:+ v := payload a]> (opt_without "openjdk-" (host s)) /\
    backups (host s')
    = backups (backed_up JavaBackups "openjdk-"
                 (set_java_backups (Some (default ∅ (java_backups (host s)))) (host s))) /\
    files (host s') !! etc_profile
    = Some (profile_after ("openjdk-" +:+ v) (default [] (files (host s) !! etc_profile))) /\
    files (host s') !! etc_environment
    = Some (environment_after ("openjdk-" +:+ v)
              (default [] (files (host s) !! etc_environment))) /\
    (forall f, f <> etc_profile -> f <> etc_environment ->
               files (host s') !! f = files (host s) !! f) /\
    units (host s') = units (host s) /\ enabled (host s') = enabled (host s) /\
    active (host s') = active (host s) /\ procs (host s') = procs (host s) /\
    has_user (host s') = has_user (host s) /\ has_group (host s') = has_group (host s) /\
    env_java_home (host s') = env_java_home (host s)).
Proof.
  intros Hf Hnet Htop Hne Hclean.
  unfold Upgrade.upgradeJava. wp_go.
  wp_step Hf; [reflexivity|done|].
  wp_step Hf; [reflexivity|done|].
  hsimpl. apply wp_bind.
  match goal with |- wp _ W ?s0 _ => set (s1 := s0) end.
  change (first_line (grep "openjdk-" (ls Opt _))) with (existing "openjdk-" (host s1)).
  eapply wp_mono.
  { apply (backup_step JavaBackups "openjdk-" W s1); [done| |by eexists].
    intros n Hn. apply Hf. unfold s1 in Hn. hsimpl. lia. }
  intros o s2 (-> & Ht2 & Hs2).
  assert (opt (host s2) = opt_without "openjdk-" (host s)) as Ho2.
  { rewrite Hs2. unfold backed_up, opt_without.
    change (existing "openjdk-" (host s1)) with (existing "openjdk-" (host s)).
    by destruct (nonempty (existing "openjdk-" (host s))). }
  assert (tmp (host s2) = tmp (host s) /\ files (host s2) = files (host s) /\
          units (host s2) = units (host s) /\ enabled (host s2) = enabled (host s) /\
          active (host s2) = active (host s) /\ procs (host s2) = procs (host s) /\
          has_user (host s2) = has_user (host s) /\ has_group (host s2) = has_group (host s) /\
          env_java_home (host s2) = env_java_home (host s)) as Hrest.
  { rewrite Hs2. unfold backed_up. by destruct (nonempty (existing "openjdk-" (host s1))). }
  assert (ticks s <= ticks s2) as Hts.
  { unfold s1 in Ht2. hsimpl. lia. }
  assert (forall n, ticks s2 <= n -> faults W n = false) as Hf2.
  { intros n Hn. apply Hf. lia. }
  assert (backups (host s2)
          = backups (backed_up JavaBackups "openjdk-"
                       (set_java_backups (Some (default ∅ (java_backups (host s)))) (host s))))
    as Hb2 by (rewrite Hs2; reflexivity).
  clearbody s1. clear Hs2.
  wp_go.
  wp_step Hf2; [reflexivity|done|].
  wp_step Hf2; [rewrite Hnet; reflexivity|done|].
  wp_go.
  wp_step Hf2; [rewrite lookup_insert_eq; reflexivity|done|].
  wp_step Hf2; [reflexivity|done|].
  unfold ls. hsimpl. rewrite Ho2, grep_extracted by done.
  cbn [first_line head default from_option id].
  rewrite (contains_nonempty "jdk-") by done.
  wp_go.
  assert (opt_without "openjdk-" (host s) !! ("openjdk-" +:+ v) = None) as Hdst.
  { destruct (opt_without "openjdk-" (host s) !! ("openjdk-" +:+ v)) eqn:E; [|done].
    pose proof (jdk_in_openjdk v) as Hj. rewrite Hclean in Hj by by eexists. done. }
  assert (opt_without "openjdk-" (host s) !! top a = None) as Hsrc.
  { destruct (opt_without "openjdk-" (host s) !! top a) eqn:E; [|done].
    rewrite Hclean in Htop by by eexists. done. }
  wp_step Hf2.
  { rewrite lookup_insert_eq, decide_False by done.
    rewrite lookup_insert_ne by done. rewrite Hdst. reflexivity. }
  { done. }
  wp_go.
  wp_step Hf2; [reflexivity|done|].
  wp_go.
  match goal with |- wp (Upgrade.runCommand (Upgrade.java_env_script ?d)) _ ?s1 _ =>
    destruct (java_env_script_spec (net W) d (host s1)) as (Hok & fl & Hfl & Hprof);
    destruct (java_env_script_files (net W) d (host s1)) as (Hfp & Hfe & Hfr)
  end.
  rewrite Hfl in Hfp, Hfe, Hfr.
  eapply wp_runCommand_eq; [apply Hf2; hsimpl; lia | reflexivity | exact Hok | ].
  rewrite Hfl. hsimpl.
  wp_step Hf2; [rewrite bool_decide_eq_true_2 by done; reflexivity|done|].
  wp_go.
  destruct Hrest as (Htmp & Hfiles & Hun & Hen & Hac & Hpr & Hu & Hg & Hjh).
  rewrite Hfiles in Hfp, Hfe, Hfr.
  split; [done|]. split; [lia|].
  split.
  { rewrite delete_insert_eq, delete_id by done. reflexivity. }
  split; [exact Hb2|].
  repeat split; done.
Qed.

Lemma grep_nil_clean pat (o : gmap string string) :
  grep pat (names_of o) = [] -> forall k, is_Some (o !! k) -> contains pat k = false.
Proof.
  intros Hnil k Hk. destruct (contains pat k) eqn:E; [|done].
  assert (k ∈ grep pat (names_of o)) as Hin.
  { unfold grep. apply list_elem_of_filter. split; [done|]. by apply names_of_spec. }
  rewrite Hnil in Hin. by apply elem_of_nil in Hin.
Qed.

Lemma stored_backed_up (b : Area) pat h :
  b <> Opt -> is_Some (area b h) ->
  (nonempty (existing pat h) = true ->
   stored b (existing pat h) (backed_up b pat h) = opt h !! existing pat h) /\
  (forall k, k <> existing pat h -> stored b k (backed_up b pat h) = stored b k h).
Proof.
  intros Hb [d Hd]. unfold backed_up, stored.
  destruct (nonempty (existing pat h)) eqn:He; [|done].
  destruct (existing_in_opt pat h He) as [c Hc]. rewrite Hc, Hd.
  destruct b; [done| |]; cbn [area set_area set_opt set_java_backups set_tomcat_backups
                              java_backups tomcat_backups mbind option_bind default from_option id]
    in *; (split; [intros _; apply lookup_insert_eq|intros k Hk; by rewrite lookup_insert_ne]).
Qed.

(** X7.  upgradeJava when the archive is served, every command succeeds,
    the archive unpacks into a folder whose name contains jdk- (and is not
    the target name), and /opt holds no other such entry once the installed
    JDK is removed: it returns true; /opt then holds the new JDK under
    openjdk-<version> in place of the removed one and is otherwise as it
    was; the removed JDK is stored in /opt/java_backups under its own name;
    /etc/profile and /etc/environment each declare JAVA_HOME once, for the
    new directory; the Tomcat backups and the systemd units are untouched. *)
Theorem upgradeJava_installs_new_version W s v u a :
  (forall n, ticks s <= n -> faults W n = false) ->
  net W u = Some a ->
  contains "jdk-" (top a) = true ->
  top a <> "openjdk-" +:+ v ->
  grep "jdk-" (names_of (opt_without "openjdk-" (host s))) = [] ->
  exists s',
    Upgrade.upgradeJava v u W s = (Ret true, s') /\
    opt (host s') = <["openjdk-" +:+ v := payload a]> (opt_without "openjdk-" (host s)) /\
    (nonempty (existing "openjdk-" (host s)) = true ->
     stored JavaBackups (existing "openjdk-" (host s)) (host s')
     = opt (host s) !! existing "openjdk-" (host s)) /\
    lines_with "export JAVA_HOME=" etc_profile (host s')
    = ["export JAVA_HOME=/opt/" +:+ ("openjdk-" +:+ v)] /\
    lines_with "JAVA_HOME=" etc_environment (host s')
    = ["JAVA_HOME=/opt/" +:+ ("openjdk-" +:+ v)] /\
    tomcat_backups (host s') = tomcat_backups (host s) /\
    units (host s') = units (host s).
Proof.
  intros Hf Hnet Htop Hne Hclean.
  pose proof (upgradeJava_succeeds W s v u a Hf Hnet Htop Hne (grep_nil_clean _ _ Hclean)) as H.
  unfold wp in H. destruct (Upgrade.upgradeJava v u W s) as [o s']. cbn [fst snd] in H.
  destruct H as (-> & _ & Ho & Hb & Hp & He & _ & Hu & _).
  exists s'. split; [done|]. split; [exact Ho|].
  set (h1 := set_java_backups (Some (default ∅ (java_backups (host s)))) (host s)) in Hb.
  destruct (stored_backed_up JavaBackups "openjdk-" h1) as [Hst _]; [done|by eexists|].
  injection Hb as Hjb Htb.
  split.
  { intros Hne'. unfold stored in *. cbn [area] in *. rewrite Hjb. by apply Hst. }
  split; [unfold lines_with; rewrite Hp; apply profile_after_declares|].
  split; [unfold lines_with; rewrite He; apply environment_after_declares|].
  split; [|exact Hu].
  rewrite Htb. unfold backed_up. by destruct (nonempty (existing "openjdk-" h1)).
Qed.

(** The upgrade of Java 17 to 21 on the host of the examples. *)
Lemma upgradeJava_installs_new_version_witness :
  exists s',
    Upgrade.upgradeJava "21" (javaUrl Demo.cfg_21) Demo.world_ok (Demo.start Demo.host_17)
    = (Ret true, s') /\
    opt (host s')
    = <["openjdk-" +:+ "21" := payload Demo.jdk_21.2]>
        (opt_without "openjdk-" (host (Demo.start Demo.host_17))) /\
    (nonempty (existing "openjdk-" (host (Demo.start Demo.host_17))) = true ->
     stored JavaBackups (existing "openjdk-" (host (Demo.start Demo.host_17))) (host s')
     = opt (host (Demo.start Demo.host_17))
         !! existing "openjdk-" (host (Demo.start Demo.host_17))) /\
    lines_with "export JAVA_HOME=" etc_profile (host s')
    = ["export JAVA_HOME=/opt/" +:+ ("openjdk-" +:+ "21")] /\
    lines_with "JAVA_HOME=" etc_environment (host s')
    = ["JAVA_HOME=/opt/" +:+ ("openjdk-" +:+ "21")] /\
    tomcat_backups (host s') = tomcat_backups (host (Demo.start Demo.host_17)) /\
    units (host s') = units (host (Demo.start Demo.host_17)).
Proof.
  apply (upgradeJava_installs_new_version Demo.world_ok (Demo.start Demo.host_17)
           "21" (javaUrl Demo.cfg_21) Demo.jdk_21.2).
  - intros n _. reflexivity.
  - vm_compute. reflexivity.
  - vm_compute. reflexivity.
  - vm_compute. discriminate.
  - vm_compute. reflexivity.
Defined.

(** ** install.js *)

(** X8.  When installJava rejects, install() runs neither installTomcat
    nor the record update: it logs the failure and resolves, and the
    install command prints its success line and ends with status 0. *)
Theorem install_command_hides_failure W s cfg e s1 :
  Install.installJava cfg W (say Stdout "Starting Installation..." s) = (Throw e, s1) ->
  Cli.run (Cli.install_command cfg) W s
  = (0%Z, say Stdout "Installation completed successfully!"
            (say Stderr ("Installation process failed: " +:+ e) s1)).
Proof.
  intros Hj. unfold Cli.run.
  assert (Cli.install_command cfg W s
          = (Ret tt, say Stdout "Installation completed successfully!"
                       (say Stderr ("Installation process failed: " +:+ e) s1))) as ->.
  { apply wp_eq. unfold Cli.install_command, Cli.safeAction, Install.install. wp_go.
    eapply wp_known; [exact Hj|]. wp_go. done. }
  reflexivity.
Qed.

(** The install on a fresh host when the JDK archive cannot be fetched. *)
Lemma install_command_hides_failure_witness :
  Cli.run (Cli.install_command Demo.cfg_21) Demo.world_no_jdk (Demo.start Demo.host_fresh)
  = (0%Z, say Stdout "Installation completed successfully!"
            (say Stderr ("Installation process failed: " +:+ stderr)
               (Install.installJava Demo.cfg_21 Demo.world_no_jdk
                  (say Stdout "Starting Installation..." (Demo.start Demo.host_fresh))).2)).
Proof.
  apply (install_command_hides_failure Demo.world_no_jdk (Demo.start Demo.host_fresh)
           Demo.cfg_21 stderr).
  vm_compute. reflexivity.
Defined.

Lemma unit_free_keeps p net h :
  unit_free p = true -> units (hst (prim_exec net p h)) = units h.
Proof.
  destruct p; try discriminate; intros _;
    cbn [prim_exec]; try destruct a; try destruct b; repeat case_match; reflexivity.
Qed.

Lemma sh_keeps_units c : sh_all unit_free c -> sh_keeps units c.
Proof. apply sh_keeps_all. intros p net h. apply unit_free_keeps. Qed.

(** X9.  installTomcat writes the unit file of its version only when there
    is none: if /etc/systemd/system/tomcat-<version>.service exists, every
    unit file is left as it was, whatever JDK that unit names and however
    the installation ends. *)
Theorem installTomcat_keeps_existing_unit W s cfg u :
  units (host s) !! unit_file ("tomcat-" +:+ tomcatVersion cfg) = Some u ->
  units (host (Install.installTomcat cfg W s).2) = units (host s).
Proof.
  intros Hu.
  change (wp (Install.installTomcat cfg) W s (fun _ s' => units (host s') = units (host s))).
  assert (forall c, sh_all unit_free c -> forall s0 (Q : Outcome (option string) -> Proc -> Prop),
            (forall o s1, units (host s1) = units (host s0) -> Q o s1) ->
            wp (exec c) W s0 Q) as Hexec.
  { intros c Hc s0 Q HQ. apply (wp_keeps units); [|exact HQ].
    by apply keeps_exec, sh_keeps_units. }
  unfold Install.installTomcat. wp_go.
  apply Hexec; [cbn; tauto|]. intros [r1|?|?] s1 H1; [|hsimpl; congruence|hsimpl; congruence].
  hsimpl. destruct r1; wp_go.
  all: apply Hexec; [cbn; tauto|]; intros [r2|?|?] s2 H2;
    [|hsimpl; congruence|hsimpl; congruence].
  all: hsimpl; destruct r2 as [out|]; wp_go; try congruence.
  all: rewrite H2; hsimpl; rewrite H1, Hu; wp_go.
  all: apply Hexec; [cbn; tauto|]; intros [r3|?|?] ? ?; hsimpl; try congruence.
  all: destruct r3; wp_go; try congruence.
  all: apply Hexec; [cbn; tauto|]; intros [r4|?|?] ? ?; hsimpl; try congruence.
  all: destruct r4; wp_go; congruence.
Qed.

(** A second install on the upgraded host, whose unit of 10.1.34 exists. *)
Lemma installTomcat_keeps_existing_unit_witness :
  units (host (Install.installTomcat Demo.cfg_21 Demo.world_ok (Demo.start Demo.host_21)).2)
  = units (host (Demo.start Demo.host_21)).
Proof.
  apply (installTomcat_keeps_existing_unit Demo.world_ok (Demo.start Demo.host_21) Demo.cfg_21
           (service_unit "10.1.34" "/opt/openjdk-21" "/opt/tomcat-10.1.34")).
  vm_compute. reflexivity.
Defined.

(** A `&&` chain that succeeds: each command succeeded. *)
Lemma and_ok net a b h :
  ok (sh_eval net (And a b) h) = true ->
  ok (sh_eval net a h) = true /\
  ok (sh_eval net b (hst (sh_eval net a h))) = true /\
  hst (sh_eval net (And a b) h) = hst (sh_eval net b (hst (sh_eval net a h))).
Proof.
  cbn [sh_eval]. destruct (ok (sh_eval net a h)) eqn:E; cbn [ok hst];
    [by intros ->|rewrite ?E; discriminate].
Qed.

Lemma capture_ok net p k h :
  ok (sh_eval net (Capture p k) h) = true ->
  ok (prim_exec net p h) = true /\
  ok (sh_eval net (k (out (prim_exec net p h))) (hst (prim_exec net p h))) = true /\
  hst (sh_eval net (Capture p k) h)
  = hst (sh_eval net (k (out (prim_exec net p h))) (hst (prim_exec net p h))).
Proof.
  cbn [sh_eval]. destruct (ok (prim_exec net p h)) eqn:E; cbn [ok hst];
    [by intros ->|rewrite ?E; discriminate].
Qed.

Ltac prim_simpl :=
  cbn [prim_exec hst ok out done_ok failed says when_ok
       area set_area default from_option id
       opt java_backups tomcat_backups tmp files units
       set_opt set_java_backups set_tomcat_backups set_tmp set_files set_units] in *.

Ltac chain_step H Hhf Hok :=
  apply and_ok in H as (Hok & H & ?Heq); rewrite Heq in Hhf; clear Heq;
  change (sh_eval ?net (Run ?p) ?h0) with (prim_exec net p h0) in *;
  prim_simpl.

(** The script of installJava when it succeeds. *)
Lemma install_java_script_ok net cfg h :
  ok (sh_eval net (Install.install_java_script cfg) h) = true ->
  exists a c,
    net (javaUrl cfg) = Some a /\
    let unpacked := <[top a := payload a]> (opt h) in
    let found := first_line (grep "jdk" (names_of unpacked)) in
    let javaDir := "openjdk-" +:+ javaVersion cfg in
    unpacked !! found = Some c /\ found <> javaDir /\
    opt (hst (sh_eval net (Install.install_java_script cfg) h))
    = <[javaDir := c]> (delete found (delete javaDir unpacked)) /\
    files (hst (sh_eval net (Install.install_java_script cfg) h)) !! etc_environment
    = Some ["JAVA_HOME=" +:+ dq +:+ "/opt/" +:+ javaDir +:+ dq] /\
    files (hst (sh_eval net (Install.install_java_script cfg) h)) !! etc_profile
    = Some (default [] (files h !! etc_profile)
            ++ ["export JAVA_HOME=" +:+ dq +:+ "/opt/" +:+ javaDir +:+ dq;
                "export PATH=" +:+ dq +:+ "$JAVA_HOME/bin:$PATH" +:+ dq]) /\
    backups (hst (sh_eval net (Install.install_java_script cfg) h)) = backups h /\
    units (hst (sh_eval net (Install.install_java_script cfg) h)) = units h.
Proof.
  intros H.
  remember (hst (sh_eval net (Install.install_java_script cfg) h)) as hf eqn:Hhf.
  unfold Install.install_java_script in H, Hhf.
  chain_step H Hhf Hdnf. chain_step H Hhf Hmk. chain_step H Hhf Hw.
  destruct (net (javaUrl cfg)) as [a|] eqn:Hnet; [|done]. prim_simpl.
  chain_step H Hhf Ht. rewrite lookup_insert_eq in *. prim_simpl.
  apply capture_ok in H as (_ & H & Heq); rewrite Heq in Hhf; clear Heq; prim_simpl.
  unfold ls in *. prim_simpl.
  set (unpacked := <[top a := payload a]> (opt h)) in *.
  set (found := first_line (grep "jdk" (names_of unpacked))) in *.
  chain_step H Hhf Hrm. chain_step H Hhf Hmv.
  rewrite lookup_delete_eq in *.
  destruct (delete ("openjdk-" +:+ javaVersion cfg) unpacked !! found) as [c|] eqn:Hc;
    [|done].
  destruct (decide (found = "openjdk-" +:+ javaVersion cfg)) as [Heq|Hne]; [done|].
  prim_simpl.
  apply lookup_delete_Some in Hc as [_ Hc].
  exists a, c. split; [done|]. cbv zeta. split; [exact Hc|]. split; [exact Hne|].
  chain_step H Hhf Hrf. chain_step H Hhf Hte. chain_step H Hhf Hta.
  chain_step H Hhf Htb.
  change (sh_eval net (Run ?p) ?h0) with (prim_exec net p h0) in Hhf. prim_simpl.
  subst hf. cbn [opt files units backups java_backups tomcat_backups set_files set_tmp set_opt].
  split; [reflexivity|].
  split.
  { rewrite lookup_insert_ne by done. rewrite lookup_insert_ne by done. apply lookup_insert_eq. }
  split; [|by destruct h].
  rewrite lookup_insert_eq. rewrite lookup_insert_eq.
  rewrite lookup_insert_ne by done. cbn [default from_option id].
  by rewrite <- app_assoc.
Qed.

(** X10.  Whenever installJava resolves, the archive was served and
    /opt/openjdk-<version> holds the content of the first entry of /opt, in
    listing order, whose name contains jdk once the archive is unpacked
    (the unpacked folder only if no such entry sorts before it); that entry
    is gone.  /etc/environment consists of the single line
    JAVA_HOME="/opt/openjdk-<version>", whatever it held before, and
    /etc/profile has its previous lines followed by the two export lines. *)
Theorem installJava_result W s cfg stdout s' :
  Install.installJava cfg W s = (Ret stdout, s') ->
  exists a c,
    net W (javaUrl cfg) = Some a /\
    let unpacked := <[top a := payload a]> (opt (host s)) in
    let found := first_line (grep "jdk" (names_of unpacked)) in
    let javaDir := "openjdk-" +:+ javaVersion cfg in
    unpacked !! found = Some c /\ found <> javaDir /\
    opt (host s') = <[javaDir := c]> (delete found (delete javaDir unpacked)) /\
    files (host s') !! etc_environment
    = Some ["JAVA_HOME=" +:+ dq +:+ "/opt/" +:+ javaDir +:+ dq] /\
    files (host s') !! etc_profile
    = Some (default [] (files (host s) !! etc_profile)
            ++ ["export JAVA_HOME=" +:+ dq +:+ "/opt/" +:+ javaDir +:+ dq;
                "export PATH=" +:+ dq +:+ "$JAVA_HOME/bin:$PATH" +:+ dq]).
Proof.
  intros Hrun.
  assert (wp (Install.installJava cfg) W s (fun o s1 =>
            (exists x, o = Ret x) ->
            ok (sh_eval (net W) (Install.install_java_script cfg) (host s)) = true /\
            host s1 = hst (sh_eval (net W) (Install.install_java_script cfg) (host s)))) as H.
  { unfold Install.installJava. wp_go. apply wp_exec; intros Hf; hsimpl.
    - wp_go. intros [x Hx]; discriminate.
    - remember (sh_eval (net W) (Install.install_java_script cfg) (host s)) as r eqn:Hr.
      destruct (ok r) eqn:Hok; hsimpl; wp_go; [done|intros [x Hx]; discriminate]. }
  unfold wp in H. rewrite Hrun in H. cbn [fst snd] in H.
  destruct H as [Hok Hs']; [by eexists|].
  destruct (install_java_script_ok (net W) cfg (host s) Hok)
    as (a & c & Hnet & Hc & Hne & Ho & He & Hp & _).
  exists a, c. rewrite Hs'. done.
Qed.

(** The install of Java 21 on the host that holds the JDK 17. *)
Lemma installJava_result_witness :
  exists a c,
    net Demo.world_ok (javaUrl Demo.cfg_21) = Some a /\
    let unpacked := <[top a := payload a]> (opt (host (Demo.start Demo.host_17))) in
    let found := first_line (grep "jdk" (names_of unpacked)) in
    let javaDir := "openjdk-" +:+ javaVersion Demo.cfg_21 in
    unpacked !! found = Some c /\ found <> javaDir /\
    opt (host (Install.installJava Demo.cfg_21 Demo.world_ok (Demo.start Demo.host_17)).2)
    = <[javaDir := c]> (delete found (delete javaDir unpacked)) /\
    files (host (Install.installJava Demo.cfg_21 Demo.world_ok (Demo.start Demo.host_17)).2)
      !! etc_environment
    = Some ["JAVA_HOME=" +:+ dq +:+ "/opt/" +:+ javaDir +:+ dq] /\
    files (host (Install.installJava Demo.cfg_21 Demo.world_ok (Demo.start Demo.host_17)).2)
      !! etc_profile
    = Some (default [] (files (host (Demo.start Demo.host_17)) !! etc_profile)
            ++ ["export JAVA_HOME=" +:+ dq +:+ "/opt/" +:+ javaDir +:+ dq;
                "export PATH=" +:+ dq +:+ "$JAVA_HOME/bin:$PATH" +:+ dq]).
Proof.
  apply (installJava_result Demo.world_ok (Demo.start Demo.host_17) Demo.cfg_21 EmptyString
           (Install.installJava Demo.cfg_21 Demo.world_ok (Demo.start Demo.host_17)).2).
  vm_compute. reflexivity.
Defined.

(** ** rollback.js: what a rollback leaves alone *)

(** X11.  rollback() never rejects and never exits, so the rollback
    command always prints its success line and ends with status 0; it never
    changes the two backup directories (a restore copies, it does not move)
    and it never edits /etc/profile: the `export JAVA_HOME=` line written
    there by install or upgrade stays as it is after a rollback of Java. *)
Theorem rollback_leaves_backups_and_profile W s :
  exists s',
    Rollback.rollback W s = (Ret tt, s') /\
    backups (host s') = backups (host s) /\
    files (host s') !! etc_profile = files (host s) !! etc_profile /\
    exists s'', Cli.run Cli.rollback_command W s = (0%Z, s'') /\
                last (console s'') = Some (Stdout, "Rollback completed successfully!").
Proof.
  destruct (resolves_unit _ W s resolves_rollback) as (s' & Hrun).
  exists s'. split; [exact Hrun|].
  assert (keeps backups Rollback.rollback) as Hb.
  { unfold Rollback.rollback.
    repeat first [keeps_step | apply rollbackJava_keeps_backups
                 | apply rollbackTomcat_keeps_backups]. }
  assert (keeps (fun h => files h !! etc_profile) Rollback.rollback) as Hp.
  { unfold Rollback.rollback.
    repeat first [keeps_step | apply rollbackJava_keeps_profile
                 | apply rollbackTomcat_keeps_profile]. }
  specialize (Hb W s). specialize (Hp W s). rewrite Hrun in Hb, Hp.
  split; [exact Hb|]. split; [exact Hp|].
  destruct (safeAction_resolves Rollback.rollback "Rollback" W s resolves_rollback)
    as (s'' & Hcli & Hlast).
  exists s''. unfold Cli.run, Cli.rollback_command. rewrite Hcli. done.
Qed.

(** ** uninstall.js *)

Lemma or_true net a h :
  ok (sh_eval net (Or a True_) h) = true /\
  hst (sh_eval net (Or a True_) h) = hst (sh_eval net a h).
Proof.
  cbn [sh_eval]. destruct (ok (sh_eval net a h)) eqn:E; cbn [ok hst done_ok]; by rewrite ?E.
Qed.

Lemma and_hst net a b h :
  ok (sh_eval net a h) = true ->
  sh_eval net (And a b) h
  = {| ok := ok (sh_eval net b (hst (sh_eval net a h)));
       hst := hst (sh_eval net b (hst (sh_eval net a h)));
       out := out (sh_eval net a h) +:+ out (sh_eval net b (hst (sh_eval net a h))) |}.
Proof. intros H. cbn [sh_eval]. by rewrite H. Qed.

Lemma java_dirs_removed_all (o : gmap string string) :
  filter (fun kv : string * string => String.prefix "openjdk-" kv.1 = true)
    (filter (fun kv : string * string => String.prefix "openjdk-" kv.1 = false) o) = ∅.
Proof.
  apply map_eq; intros k. rewrite lookup_empty.
  apply map_lookup_filter_None. right. intros x Hx.
  apply map_lookup_filter_Some in Hx as [_ Hx]. simpl in *. congruence.
Qed.

(** A command that neither creates nor removes a text file. *)
Lemma sed_keeps_existence net re f g h :
  is_Some (files (hst (prim_exec net (SedDelete re f) h)) !! g) <-> is_Some (files h !! g).
Proof.
  rewrite sed_lookup. destruct (decide (g = f)) as [->|]; [|done].
  by rewrite fmap_is_Some.
Qed.

Lemma no_create_keeps file p net h :
  no_create p = true -> present file (hst (prim_exec net p h)) = present file h.
Proof.
  unfold present. destruct p; try discriminate; intros _.
  all: try (cbn [prim_exec]; try destruct a; try destruct b; repeat case_match; reflexivity).
  apply bool_decide_ext, sed_keeps_existence.
Qed.

Lemma sh_keeps_present file c : sh_all no_create c -> sh_keeps (present file) c.
Proof. apply sh_keeps_all. intros p net h. apply no_create_keeps. Qed.

(** The removal at the head of a chain whose other commands only edit
    text files. *)
Lemma removal_then net (c : Sh) h :
  sh_all text_only c -> sh_all no_create c ->
  let r := sh_eval net (And (Run (RmRfGlob "openjdk-"))
                          (And (Run (RmRfArea JavaBackups)) c)) h in
  java_dirs (hst r) = ∅ /\ java_backups (hst r) = None /\
  (forall f, present f (hst r) = present f h).
Proof.
  intros Ht Hn. cbv zeta.
  set (h2 := drop_area JavaBackups
               (set_opt (filter (fun kv : string * string =>
                                   String.prefix "openjdk-" kv.1 = false) (opt h)) h)).
  assert (hst (sh_eval net (And (Run (RmRfGlob "openjdk-"))
                              (And (Run (RmRfArea JavaBackups)) c)) h)
          = hst (sh_eval net c h2)) as -> by reflexivity.
  destruct (text_only_script c net h2 Ht) as [fl Hfl].
  split; [|split].
  - rewrite Hfl. apply java_dirs_removed_all.
  - rewrite Hfl. reflexivity.
  - intros f. rewrite (sh_keeps_present f c Hn net h2). reflexivity.
Qed.

(** The shape of the script of uninstallJava: the removals come first and
    the chain ends on the two `.` commands, which fail on a missing file. *)
Lemma removal_chain net (c : Sh) h :
  sh_all text_only c -> sh_all no_create c ->
  let r := sh_eval net
             (And (Or (And (Run (RmRfGlob "openjdk-"))
                         (And (Run (RmRfArea JavaBackups)) c)) True_)
                  (And (Run (Untracked "unset JAVA_HOME"))
                     (And (Run (Source etc_environment)) (Run (Source bashrc))))) h in
  (present etc_environment h && present bashrc h = false -> ok r = false) /\
  java_dirs (hst r) = ∅ /\ java_backups (hst r) = None.
Proof.
  intros Ht Hn. cbv zeta.
  destruct (removal_then net c h Ht Hn) as (Hd & Hb & Hp).
  destruct (or_true net (And (Run (RmRfGlob "openjdk-"))
                           (And (Run (RmRfArea JavaBackups)) c)) h) as [Hok Hh].
  rewrite (and_hst net _ _ h Hok). cbn [ok hst]. rewrite Hh. clear Hok Hh.
  generalize dependent (hst (sh_eval net (And (Run (RmRfGlob "openjdk-"))
                                           (And (Run (RmRfArea JavaBackups)) c)) h)).
  intros h3 Hd Hb Hp.
  cbn [sh_eval prim_exec ok hst done_ok when_ok].
  pose proof (Hp etc_environment) as He. pose proof (Hp bashrc) as Hbr.
  unfold present in *. rewrite He, Hbr.
  destruct (bool_decide (is_Some (files h !! etc_environment))),
    (bool_decide (is_Some (files h !! bashrc))); cbn [ok hst when_ok andb]; done.
Qed.

Lemma uninstall_java_script_eval net h :
  let r := sh_eval net Uninstall.uninstall_java_script h in
  (present etc_environment h && present bashrc h = false -> ok r = false) /\
  java_dirs (hst r) = ∅ /\ java_backups (hst r) = None.
Proof. apply removal_chain; cbn; tauto. Qed.

Lemma uninstallJava_wp W s :
  faults W (ticks s) = false ->
  wp Uninstall.uninstallJava W s (fun o s' =>
    o = Ret tt /\ java_dirs (host s') = ∅ /\ java_backups (host s') = None /\
    (present etc_environment (host s) && present bashrc (host s) = false ->
     last (console s') = Some (Stderr, "Java uninstallation failed."))).
Proof.
  intros Hf.
  destruct (uninstall_java_script_eval (net W) (host s)) as (Hok & Hd & Hb).
  unfold Uninstall.uninstallJava, Uninstall.runCommand. wp_go.
  apply wp_exec; intros Hf'; hsimpl; [congruence|].
  remember (sh_eval (net W) Uninstall.uninstall_java_script (host s)) as r eqn:Hr.
  destruct (ok r) eqn:Hr'; hsimpl; wp_go.
  all: repeat split; try done.
  - intros Hm. specialize (Hok Hm). congruence.
  - intros _. apply last_snoc.
Qed.

(** X12.  When its one command can be run, uninstallJava resolves with
    every /opt/openjdk-* directory and /opt/java_backups removed, whatever
    it then reports: the removals head the chain and a failing `sed` is
    absorbed by `|| true`.  When /etc/environment or ~/.bashrc is missing,
    the final `.` of that file fails and the report is the failure line,
    although the removal is done. *)
Theorem uninstallJava_removes_then_reports W s :
  faults W (ticks s) = false ->
  exists s',
    Uninstall.uninstallJava W s = (Ret tt, s') /\
    java_dirs (host s') = ∅ /\
    java_backups (host s') = None /\
    (present etc_environment (host s) && present bashrc (host s) = false ->
     last (console s') = Some (Stderr, "Java uninstallation failed.")).
Proof.
  intros Hf. pose proof (uninstallJava_wp W s Hf) as H.
  unfold wp in H. destruct (Uninstall.uninstallJava W s) as [o s']. cbn [fst snd] in H.
  destruct H as (-> & H). by exists s'.
Qed.

(** The upgraded host without its ~/.bashrc. *)
Lemma uninstallJava_removes_then_reports_witness :
  let h := set_files (delete bashrc (files Demo.host_21)) Demo.host_21 in
  exists s',
    Uninstall.uninstallJava Demo.world_ok (Demo.start h) = (Ret tt, s') /\
    java_dirs (host s') = ∅ /\
    java_backups (host s') = None /\
    (present etc_environment (host (Demo.start h)) && present bashrc (host (Demo.start h))
     = false ->
     last (console s') = Some (Stderr, "Java uninstallation failed.")).
Proof.
  intros h. apply (uninstallJava_removes_then_reports Demo.world_ok (Demo.start h)).
  reflexivity.
Defined.

Lemma keeps_uninstall_runCommand {X} (f : Host -> X) c :
  sh_keeps f c -> keeps f (Uninstall.runCommand c).
Proof.
  intros Hc. unfold Uninstall.runCommand. apply keeps_bind; [by apply keeps_exec|].
  intros [stdout|]; (apply keeps_bind; [apply keeps_print|intros _]);
    [apply keeps_ret|apply keeps_throw].
Qed.

Lemma wp_uninstall_runCommand_eq c W s (Q : Outcome string -> Proc -> Prop) r :
  faults W (ticks s) = false ->
  sh_eval (net W) c (host s) = r ->
  ok r = true ->
  Q (Ret (out r)) (say Stdout ("Success: " +:+ out r) (after (hst r) s)) ->
  wp (Uninstall.runCommand c) W s Q.
Proof.
  intros Hf <- Hok HQ. unfold wp, Uninstall.runCommand, bind, exec.
  rewrite Hf, Hok. exact HQ.
Qed.

(** A script that only edits text files leaves the rest of the host. *)
Lemma text_only_keeps_rest c :
  sh_all text_only c -> sh_keeps (set_files ∅) c.
Proof.
  intros Hc net h. destruct (text_only_script c net h Hc) as [fl ->]. reflexivity.
Qed.

Lemma append_assoc_str (a b c : string) : (a +:+ b) +:+ c = a +:+ (b +:+ c).
Proof. induction a as [|x a IH]; [done|]. rewrite !app_cons. by rewrite IH. Qed.

Lemma append_empty_r (a : string) : a +:+ EmptyString = a.
Proof. induction a as [|x a IH]; [done|]. by rewrite app_cons, IH. Qed.

Lemma length_app_str (a b : string) :
  String.length (a +:+ b) = String.length a + String.length b.
Proof. induction a as [|x a IH]; [done|]. rewrite app_cons. cbn [String.length]. by rewrite IH. Qed.

Lemma ends_with_app suf x : ends_with suf (x +:+ suf) = true.
Proof.
  unfold ends_with. rewrite length_app_str.
  replace (String.length x + String.length suf - String.length suf) with (String.length x) by lia.
  rewrite drop_chars_app. apply String.eqb_refl.
Qed.

(** A file name of the shape tomcat-*.service. *)
Lemma tomcat_unit_name svc :
  String.prefix "tomcat-" (unit_file ("tomcat-" +:+ svc))
  && ends_with ".service" (unit_file ("tomcat-" +:+ svc)) = true.
Proof.
  unfold unit_file. rewrite ends_with_app, append_assoc_str, prefix_app. done.
Qed.

Lemma prefix_contains p s : String.prefix p s = true -> contains p s = true.
Proof. intros H. destruct s; cbn [contains]; by rewrite H. Qed.

Lemma contains_shorter c p s : contains (p +:+ String c EmptyString) s = true -> contains p s = true.
Proof.
  induction s as [|d s IH].
  - destruct p; cbn; [done|]. discriminate.
  - cbn [contains]. intros [H|H]%orb_prop.
    + apply prefix_split in H as [r Hr]. rewrite Hr.
      assert (String.prefix p ((p +:+ String c "") +:+ r) = true) as ->; [|done].
      clear. induction p as [|e p IH]; [apply prefix_nil|].
      rewrite !app_cons, prefix_cons. exact IH.
    + rewrite (IH H). apply orb_true_r.
Qed.

(** Stopping and disabling the Tomcat services. *)
Lemma stop_services net h :
  let r := sh_eval net (Or (And (Run (ListUnitsHas "tomcat"))
                              (Run (SystemctlStopGlob "tomcat-"))) True_) h in
  ok r = true /\
  exists act, hst r = set_active act h /\
              forall n, n ∈ act -> String.prefix "tomcat-" n = false.
Proof.
  cbv zeta. cbn [sh_eval prim_exec ok hst done_ok when_ok].
  destruct (grep "tomcat" (elements (active h))) as [|x l] eqn:Hg;
    cbn [ok hst done_ok when_ok].
  - split; [done|]. exists (active h). split; [by destruct h|].
    intros n Hn. destruct (String.prefix "tomcat-" n) eqn:E; [|done].
    assert (n ∈ grep "tomcat" (elements (active h))) as Hin.
    { unfold grep. apply list_elem_of_filter. split; [|by apply elem_of_elements].
      apply (contains_shorter "-"%char "tomcat"). by apply prefix_contains. }
    rewrite Hg in Hin. by apply elem_of_nil in Hin.
  - split; [done|]. eexists. split; [reflexivity|].
    intros n Hn. apply elem_of_filter in Hn as [Hn _]. exact Hn.
Qed.

Lemma disable_services net h :
  let r := sh_eval net (Or (And (Run (ListUnitFilesHas "tomcat"))
                              (Run (SystemctlDisableGlob "tomcat-"))) True_) h in
  ok r = true /\
  exists en, hst r = set_enabled en h.
Proof.
  cbv zeta. cbn [sh_eval prim_exec ok hst done_ok when_ok].
  destruct (grep "tomcat" (names_of (units h))) as [|x l] eqn:Hg;
    cbn [ok hst done_ok when_ok]; (split; [done|]).
  - exists (enabled h). by destruct h.
  - by eexists.
Qed.

Lemma tomcat_dirs_removed_all (o : gmap string string) :
  filter (fun kv : string * string => String.prefix "tomcat-" kv.1 = true)
    (filter (fun kv : string * string => String.prefix "tomcat-" kv.1 = false) o) = ∅.
Proof.
  apply map_eq; intros k. rewrite lookup_empty.
  apply map_lookup_filter_None. right. intros x Hx.
  apply map_lookup_filter_Some in Hx as [_ Hx]. simpl in *. congruence.
Qed.

Lemma wp_uninstall_step c W s (Q : Outcome string -> Proc -> Prop) :
  faults W (ticks s) = false ->
  ok (sh_eval (net W) c (host s)) = true ->
  (forall x s1, ticks s1 = S (ticks s) ->
                host s1 = hst (sh_eval (net W) c (host s)) -> Q (Ret x) s1) ->
  wp (Uninstall.runCommand c) W s Q.
Proof.
  intros Hf Hok HQ. eapply wp_uninstall_runCommand_eq; [exact Hf|reflexivity|exact Hok|].
  apply HQ; reflexivity.
Qed.

Lemma rest_eq h h' :
  set_files ∅ h' = set_files ∅ h ->
  opt h' = opt h /\ java_backups h' = java_backups h /\
  tomcat_backups h' = tomcat_backups h /\ units h' = units h /\ active h' = active h /\
  prev_versions h' = prev_versions h.
Proof.
  intros H. repeat split.
  6: apply (f_equal prev_versions) in H; by destruct h, h'.
  - apply (f_equal opt) in H. by destruct h, h'.
  - apply (f_equal java_backups) in H. by destruct h, h'.
  - apply (f_equal tomcat_backups) in H. by destruct h, h'.
  - apply (f_equal units) in H. by destruct h, h'.
  - apply (f_equal active) in H. by destruct h, h'.
Qed.

Lemma java_dirs_without_tomcat (o : gmap string string) :
  filter (fun kv : string * string => String.prefix "openjdk-" kv.1 = true)
    (filter (fun kv : string * string => String.prefix "tomcat-" kv.1 = false) o)
  = filter (fun kv : string * string => String.prefix "openjdk-" kv.1 = true) o.
Proof.
  apply map_eq; intros k. apply option_eq; intros x.
  rewrite !map_lookup_filter_Some. cbn [fst]. split; [tauto|].
  intros [Hk Hp]. repeat split; try done.
  destruct k as [|[[] [] [] [] [] [] [] []] k]; try done.
Qed.

Lemma uninstallTomcat_host W s :
  (forall n, ticks s <= n -> n < ticks s + 9 -> faults W n = false) ->
  wp Uninstall.uninstallTomcat W s (fun _ s' =>
    tomcat_dirs (host s') = ∅ /\
    tomcat_backups (host s') = None /\
    (forall svc, units (host s') !! unit_file ("tomcat-" +:+ svc) = None) /\
    (forall n, n ∈ active (host s') -> String.prefix "tomcat-" n = false) /\
    java_dirs (host s') = java_dirs (host s) /\
    java_backups (host s') = java_backups (host s) /\
    prev_versions (host s') = prev_versions (host s)).
Proof.
  intros Hf.
  set (P := fun h' : Host =>
    tomcat_dirs h' = ∅ /\
    tomcat_backups h' = None /\
    (forall svc, units h' !! unit_file ("tomcat-" +:+ svc) = None) /\
    (forall n, n ∈ active h' -> String.prefix "tomcat-" n = false) /\
    java_dirs h' = java_dirs (host s) /\
    java_backups h' = java_backups (host s) /\
    prev_versions h' = prev_versions (host s)).
  change (wp Uninstall.uninstallTomcat W s (fun _ s' => P (host s'))).
  unfold Uninstall.uninstallTomcat. wp_go.
  assert (forall n, ticks (say Stdout "Uninstalling Tomcat..." s) <= n ->
                    n < ticks (say Stdout "Uninstalling Tomcat..." s) + 9 ->
                    faults W n = false) as Hf0 by exact Hf.
  assert (host (say Stdout "Uninstalling Tomcat..." s) = host s) as Hh0 by reflexivity.
  generalize dependent (say Stdout "Uninstalling Tomcat..." s). intros s0 Hf0 Hh0.
  (* stop *)
  destruct (stop_services (net W) (host s0)) as (Hok1 & act & Hh1 & Hact).
  apply wp_uninstall_step; [apply Hf0; lia|exact Hok1|]. intros _ s1 Ht1 Hs1.
  rewrite Hh1, Hh0 in Hs1. clear Hok1 Hh1. wp_go.
  (* disable *)
  destruct (disable_services (net W) (host s1)) as (Hok2 & en & Hh2).
  apply wp_uninstall_step; [apply Hf0; lia|exact Hok2|]. intros _ s2 Ht2 Hs2.
  rewrite Hh2, Hs1 in Hs2. clear Hok2 Hh2. wp_go.
  (* daemon-reexec, daemon-reload *)
  apply wp_uninstall_step; [apply Hf0; lia|apply or_true|]. intros _ s3 Ht3 Hs3.
  cbn [sh_eval prim_exec ok hst done_ok] in Hs3. rewrite Hs2 in Hs3. wp_go.
  apply wp_uninstall_step; [apply Hf0; lia|apply or_true|]. intros _ s4 Ht4 Hs4.
  cbn [sh_eval prim_exec ok hst done_ok] in Hs4. rewrite Hs3 in Hs4. wp_go.
  (* unit files *)
  apply wp_uninstall_step; [apply Hf0; lia|reflexivity|]. intros _ s5 Ht5 Hs5.
  cbn [sh_eval prim_exec ok hst done_ok] in Hs5. rewrite Hs4 in Hs5. wp_go.
  apply wp_uninstall_step; [apply Hf0; lia|reflexivity|]. intros _ s6 Ht6 Hs6.
  cbn [sh_eval prim_exec ok hst done_ok] in Hs6. rewrite Hs5 in Hs6. wp_go.
  (* processes *)
  apply wp_uninstall_step; [apply Hf0; lia|reflexivity|]. intros _ s7 Ht7 Hs7.
  cbn [sh_eval prim_exec ok hst done_ok] in Hs7. rewrite Hs6 in Hs7. wp_go.
  (* directories and backups *)
  apply wp_uninstall_step; [apply Hf0; lia|apply or_true|]. intros _ s8 Ht8 Hs8.
  cbn [sh_eval prim_exec ok hst done_ok] in Hs8. rewrite Hs7 in Hs8. wp_go.
  apply wp_uninstall_step; [apply Hf0; lia|apply or_true|]. intros _ s9 Ht9 Hs9.
  cbn [sh_eval prim_exec ok hst done_ok] in Hs9. rewrite Hs8 in Hs9.
  clear Hs1 Hs2 Hs3 Hs4 Hs5 Hs6 Hs7 Hs8.
  assert (P (host s9)) as HP.
  { rewrite Hs9. unfold P, tomcat_dirs, java_dirs. hsimpl. repeat split.
    - apply tomcat_dirs_removed_all.
    - intros svc. apply map_lookup_filter_None. right. intros x _. cbn [fst].
      by rewrite tomcat_unit_name.
    - exact Hact.
    - apply java_dirs_without_tomcat. }
  clear Hs9.
  (* the shell profiles *)
  apply (wp_keeps (set_files ∅)).
  { keeps_go; apply keeps_uninstall_runCommand, text_only_keeps_rest; cbn; tauto. }
  intros o1 s10 Hk.
  assert (P (host s10)) as HP'.
  { destruct (rest_eq _ _ Hk) as (Ho & Hj & Ht & Hu & Ha & Hr).
    unfold P, tomcat_dirs, java_dirs in *. rewrite Ho, Hj, Ht, Hu, Ha, Hr. exact HP. }
  destruct o1; wp_go; exact HP'.
Qed.

(** X13 (uninstall.js, uninstallTomcat): when its first nine commands can be
    started, uninstallTomcat resolves and leaves no /opt/tomcat-* directory,
    no /opt/tomcat_backups, no unit file tomcat-*.service under
    /etc/systemd/system and no running unit of that name, whether or not the
    later clean-up of the shell profiles succeeds.  /opt/openjdk-* and
    /opt/java_backups are left as they were. *)
Theorem uninstallTomcat_removes_everything W s s' o :
  (forall n, ticks s <= n -> n < ticks s + 9 -> faults W n = false) ->
  Uninstall.uninstallTomcat W s = (o, s') ->
  o = Ret tt /\
  tomcat_dirs (host s') = ∅ /\
  tomcat_backups (host s') = None /\
  (forall svc, units (host s') !! unit_file ("tomcat-" +:+ svc) = None) /\
  (forall n, n ∈ active (host s') -> String.prefix "tomcat-" n = false) /\
  java_dirs (host s') = java_dirs (host s) /\
  java_backups (host s') = java_backups (host s).
Proof.
  intros Hf E. split.
  { destruct (resolves_unit _ W s resolves_uninstallTomcat) as [s1 H1]. congruence. }
  pose proof (uninstallTomcat_host W s Hf) as H. unfold wp in H. rewrite E in H.
  cbn [fst snd] in H. destruct H as (H1 & H2 & H3 & H4 & H5 & H6 & _).
  repeat split; done.
Qed.

(** The upgraded host; the world refuses nothing. *)
Lemma uninstallTomcat_removes_everything_witness :
  let r := Uninstall.uninstallTomcat Demo.world_ok (Demo.start Demo.host_21) in
  r.1 = Ret tt /\
  tomcat_dirs (host r.2) = ∅ /\
  tomcat_backups (host r.2) = None /\
  (forall svc, units (host r.2) !! unit_file ("tomcat-" +:+ svc) = None) /\
  (forall n, n ∈ active (host r.2) -> String.prefix "tomcat-" n = false) /\
  java_dirs (host r.2) = java_dirs (host (Demo.start Demo.host_21)) /\
  java_backups (host r.2) = java_backups (host (Demo.start Demo.host_21)).
Proof.
  intros r.
  apply (uninstallTomcat_removes_everything Demo.world_ok (Demo.start Demo.host_21) r.2 r.1).
  - intros n _ _. reflexivity.
  - subst r. apply surjective_pairing.
Defined.

Lemma set_prev_none_id h : prev_versions h = None -> set_prev None h = h.
Proof. destruct h; cbn. by intros ->. Qed.

(** The removal proper: unlink, and `rm -f` when unlink fails. *)
Lemma unlink_or_rm W s p (Q : Outcome unit -> Proc -> Prop) :
  prev_versions (host s) = Some p ->
  faults W (ticks s) = false \/ faults W (S (ticks s)) = false ->
  (forall s1, host s1 = set_prev None (host s) -> Q (Ret tt) s1) ->
  wp (try_catch (Install.fs_call FsUnlinkPrev)
        (fun _ => Uninstall.runCommand (Run RmFPrev) ;; ret tt)) W s Q.
Proof.
  intros Hp Hf HQ. apply wp_try. unfold Install.fs_call. apply wp_bind.
  apply wp_exec; intros Hf1.
  - wp_go. destruct Hf as [Hf|Hf]; [congruence|].
    apply wp_uninstall_step; [exact Hf|reflexivity|]. intros _ s1 _ Hs1.
    wp_go. apply HQ. exact Hs1.
  - hsimpl. rewrite Hp. wp_go. apply HQ. reflexivity.
Qed.

Lemma removePreviousVersionsFile_host W s :
  (forall n, ticks s <= n -> n < ticks s + removal_preparation (host s) ->
             faults W n = false) ->
  faults W (ticks s + removal_preparation (host s)) = false \/
  faults W (S (ticks s + removal_preparation (host s))) = false ->
  wp Uninstall.removePreviousVersionsFile W s (fun o s' =>
    o = Ret tt /\ host s' = set_prev None (host s) /\
    (prev_versions (host s) = None -> s' = s)).
Proof.
  intros Hf Hl. unfold Uninstall.removePreviousVersionsFile. wp_go.
  destruct (prev_versions (host s)) as [p|] eqn:Hp.
  2:{ wp_go. by rewrite set_prev_none_id. }
  wp_go. unfold removal_preparation in *.
  destruct (nonempty (env_user (host s))) eqn:Hu.
  - apply wp_bind.
    apply wp_uninstall_step; [apply Hf; hsimpl; lia|hsimpl; by rewrite Hp|].
    intros _ s1 Ht1 Hs1. hsimpl. wp_go.
    apply wp_uninstall_step; [apply Hf; hsimpl; lia|hsimpl; by rewrite Hs1, Hp|].
    intros _ s2 Ht2 Hs2. hsimpl. rewrite Hs1 in Hs2. apply wp_bind, wp_print.
    assert (ticks s + 2 = ticks s2) as Et by (rewrite Ht2; hsimpl; lia).
    rewrite Et in Hl.
    apply (wp_mono _ _ _ (fun o s' => o = Ret tt /\ host s' = set_prev None (host s)));
      [|intros o s3 [-> ?]; repeat split; done].
    apply (unlink_or_rm _ _ p); hsimpl; [by rewrite Hs2|exact Hl|].
    intros s3 Hs3. split; [done|]. by rewrite Hs3, Hs2.
  - wp_go.
    apply wp_uninstall_step; [apply Hf; hsimpl; lia|hsimpl; by rewrite Hp|].
    intros _ s2 Ht2 Hs2. hsimpl. apply wp_bind, wp_print.
    assert (ticks s + 1 = ticks s2) as Et by (rewrite Ht2; hsimpl; lia).
    rewrite Et in Hl.
    apply (wp_mono _ _ _ (fun o s' => o = Ret tt /\ host s' = set_prev None (host s)));
      [|intros o s3 [-> ?]; repeat split; done].
    apply (unlink_or_rm _ _ p); hsimpl; [by rewrite Hs2|exact Hl|].
    intros s3 Hs3. split; [done|]. by rewrite Hs3, Hs2.
Qed.

(** X14 (uninstall.js, removePreviousVersionsFile): when chown and chmod
    can be run and at least one of the two removals (unlink, then `rm -f`)
    is not refused, removePreviousVersionsFile resolves and the record
    previous_versions.json is gone, the rest of the host being as before.
    Without a record it runs no command and prints nothing. *)
Theorem removePreviousVersionsFile_removes W s o s' :
  (forall n, ticks s <= n -> n < ticks s + removal_preparation (host s) ->
             faults W n = false) ->
  faults W (ticks s + removal_preparation (host s)) = false \/
  faults W (S (ticks s + removal_preparation (host s))) = false ->
  Uninstall.removePreviousVersionsFile W s = (o, s') ->
  o = Ret tt /\ host s' = set_prev None (host s) /\
  (prev_versions (host s) = None -> s' = s).
Proof.
  intros Hf Hl E. pose proof (removePreviousVersionsFile_host W s Hf Hl) as H.
  unfold wp in H. by rewrite E in H.
Qed.

(** The unlink is refused and `rm -f` removes the record. *)
Lemma removePreviousVersionsFile_removes_witness :
  let W := {| faults := fun n => Nat.eqb n 2; net := net Demo.world_ok |} in
  let r := Uninstall.removePreviousVersionsFile W (Demo.start Demo.host_17) in
  r.1 = Ret tt /\ host r.2 = set_prev None (host (Demo.start Demo.host_17)) /\
  (prev_versions (host (Demo.start Demo.host_17)) = None -> r.2 = Demo.start Demo.host_17).
Proof.
  intros W r.
  apply (removePreviousVersionsFile_removes W (Demo.start Demo.host_17) r.1 r.2).
  - intros [|[|n]] _ Hn; [reflexivity|reflexivity|]. vm_compute in Hn. lia.
  - right. reflexivity.
  - subst r. apply surjective_pairing.
Defined.

(** A function whose promise always resolves, seen through [wp]. *)
Lemma wp_resolves (m : M unit) W s (Q Q' : Outcome unit -> Proc -> Prop) :
  resolves m -> wp m W s Q -> (forall s', Q (Ret tt) s' -> Q' (Ret tt) s') -> wp m W s Q'.
Proof.
  intros Hr H HQ. destruct (resolves_unit m W s Hr) as [s' E].
  unfold wp in *. rewrite E in *. by apply HQ.
Qed.

(** X15 (mavee_updater_cli.js, uninstall): when no command is refused, the
    uninstall command leaves no /opt/openjdk-* and no /opt/tomcat-*
    directory, neither backup directory, no unit file tomcat-*.service and
    no record previous_versions.json, and exits with status 0. *)
Theorem uninstall_command_leaves_nothing W s code s' :
  (forall n, faults W n = false) ->
  Cli.run Cli.uninstall_command W s = (code, s') ->
  code = 0%Z /\
  java_dirs (host s') = ∅ /\ java_backups (host s') = None /\
  tomcat_dirs (host s') = ∅ /\ tomcat_backups (host s') = None /\
  (forall svc, units (host s') !! unit_file ("tomcat-" +:+ svc) = None) /\
  prev_versions (host s') = None.
Proof.
  intros Hf E.
  assert (wp Cli.uninstall_command W s (fun o s' =>
            o = Ret tt /\
            java_dirs (host s') = ∅ /\ java_backups (host s') = None /\
            tomcat_dirs (host s') = ∅ /\ tomcat_backups (host s') = None /\
            (forall svc, units (host s') !! unit_file ("tomcat-" +:+ svc) = None) /\
            prev_versions (host s') = None)) as H.
  { unfold Cli.uninstall_command, Cli.safeAction. wp_go.
    eapply wp_mono; [apply uninstallJava_wp, Hf|].
    intros o1 s1 (-> & Hd1 & Hb1 & _). wp_go.
    eapply wp_resolves;
      [apply resolves_uninstallTomcat|apply uninstallTomcat_host; intros; apply Hf|].
    intros s2 (Hd2 & Hb2 & Hu2 & _ & Hj2 & Hjb2 & _). hsimpl.
    eapply wp_resolves;
      [apply resolves_removePreviousVersionsFile
      |apply removePreviousVersionsFile_host; [intros; apply Hf|left; apply Hf]|].
    intros s3 (_ & Hs3 & _). wp_go.
    rewrite Hs3. unfold java_dirs, tomcat_dirs in *. hsimpl.
    rewrite <- Hj2 in Hd1. rewrite <- Hjb2 in Hb1.
    repeat split; done. }
  unfold Cli.run in E. unfold wp in H.
  destruct (Cli.uninstall_command W s) as [o1 s1]. cbn [fst snd] in *.
  destruct H as (-> & H). by injection E as <- <-.
Qed.

Lemma uninstall_command_leaves_nothing_witness :
  let r := Cli.run Cli.uninstall_command Demo.world_ok (Demo.start Demo.host_21) in
  r.1 = 0%Z /\
  java_dirs (host r.2) = ∅ /\ java_backups (host r.2) = None /\
  tomcat_dirs (host r.2) = ∅ /\ tomcat_backups (host r.2) = None /\
  (forall svc, units (host r.2) !! unit_file ("tomcat-" +:+ svc) = None) /\
  prev_versions (host r.2) = None.
Proof.
  intros r.
  apply (uninstall_command_leaves_nothing Demo.world_ok (Demo.start Demo.host_21) r.1 r.2).
  - intros n. reflexivity.
  - subst r. apply surjective_pairing.
Defined.

Lemma uninstallJava_keeps_record : keeps prev_versions Uninstall.uninstallJava.
Proof.
  unfold Uninstall.uninstallJava. keeps_go;
    apply keeps_uninstall_runCommand, sh_keeps_record; cbn; tauto.
Qed.

Lemma uninstallTomcat_keeps_record : keeps prev_versions Uninstall.uninstallTomcat.
Proof.
  unfold Uninstall.uninstallTomcat. keeps_go;
    apply keeps_uninstall_runCommand, sh_keeps_record; cbn; tauto.
Qed.

(** X16 (uninstall.js, fullUninstall): fullUninstall never removes the
    record previous_versions.json, whatever the host and whatever commands
    fail: the record after it is the record before it.  Only the uninstall
    command of the CLI, which calls removePreviousVersionsFile itself,
    removes the record. *)
Theorem fullUninstall_keeps_record W s :
  prev_versions (host (Uninstall.fullUninstall W s).2) = prev_versions (host s).
Proof.
  revert W s. change (keeps prev_versions Uninstall.fullUninstall).
  unfold Uninstall.fullUninstall. keeps_go;
    first [apply uninstallJava_keeps_record | apply uninstallTomcat_keeps_record].
Qed.

(** ** An upgrade of Java followed by a rollback *)

(** X17 (upgrade.js upgradeJava, rollback.js rollbackJava): when no command
    is refused, a successful upgrade of Java from [v0] to [v] followed by
    rollbackJava puts the directory of [v0] back under /opt with the content
    it had, as the only JDK, provided the backup just made is the one that
    sorts last among the Java backups; /etc/environment then declares
    JAVA_HOME for [v0], while /etc/profile still exports the JAVA_HOME of
    [v], whose directory is gone. *)
Theorem java_upgrade_then_rollback W s v u a v0 c0 :
  (forall n, faults W n = false) ->
  net W u = Some a ->
  contains "jdk-" (top a) = true ->
  top a <> "openjdk-" +:+ v ->
  grep "jdk-" (names_of (opt_without "openjdk-" (host s))) = [] ->
  existing "openjdk-" (host s) = "openjdk-" +:+ v0 ->
  opt (host s) !! ("openjdk-" +:+ v0) = Some c0 ->
  last_line (sort_versions (grep "openjdk-"
    (names_of (<["openjdk-" +:+ v0 := c0]> (default ∅ (java_backups (host s)))))))
  = "openjdk-" +:+ v0 ->
  exists s1 s2,
    Upgrade.upgradeJava v u W s = (Ret true, s1) /\
    Rollback.rollbackJava W s1 = (Ret tt, s2) /\
    java_dirs (host s2) = {[ "openjdk-" +:+ v0 := c0 ]} /\
    lines_with "JAVA_HOME=" etc_environment (host s2)
    = ["JAVA_HOME=" +:+ dq +:+ "/opt/" +:+ ("openjdk-" +:+ v0) +:+ dq] /\
    lines_with "export JAVA_HOME=" etc_profile (host s2)
    = ["export JAVA_HOME=/opt/" +:+ ("openjdk-" +:+ v)].
Proof.
  intros Hf Hnet Htop Hne Hclean He Hc0 Hlast.
  pose proof (upgradeJava_succeeds W s v u a (fun n _ => Hf n) Hnet Htop Hne
                (grep_nil_clean _ _ Hclean)) as H.
  unfold wp in H. destruct (Upgrade.upgradeJava v u W s) as [o s1]. cbn [fst snd] in H.
  destruct H as (-> & _ & _ & Hb & Hp & Henv & _).
  exists s1.
  assert (java_backups (host s1)
          = Some (<["openjdk-" +:+ v0 := c0]> (default ∅ (java_backups (host s))))) as Hjb.
  { injection Hb as -> _. unfold backed_up.
    change (existing "openjdk-" (set_java_backups _ (host s)))
      with (existing "openjdk-" (host s)).
    rewrite He. cbn [nonempty String.append]. hsimpl. by rewrite Hc0. }
  pose proof (rollbackJava_restores W Hf s1 _ v0 c0 _ Hjb Hlast (lookup_insert_eq _ _ _) Henv)
    as H.
  pose proof (rollbackJava_keeps_profile W s1) as Hk. cbv beta in Hk.
  unfold wp in H. destruct (Rollback.rollbackJava W s1) as [o s2]. cbn [fst snd] in *.
  destruct H as (-> & Hd & _ & _ & Hl & _).
  exists s2. split; [done|]. split; [done|]. split; [exact Hd|]. split; [exact Hl|].
  unfold lines_with. rewrite Hk, Hp. apply profile_after_declares.
Qed.

(** The upgrade of Java 17 to 21 on the host of the examples, rolled back. *)
Lemma java_upgrade_then_rollback_witness :
  exists s1 s2,
    Upgrade.upgradeJava "21" (javaUrl Demo.cfg_21) Demo.world_ok (Demo.start Demo.host_17)
    = (Ret true, s1) /\
    Rollback.rollbackJava Demo.world_ok s1 = (Ret tt, s2) /\
    java_dirs (host s2) = {[ "openjdk-" +:+ "17" := "jdk 17" ]} /\
    lines_with "JAVA_HOME=" etc_environment (host s2)
    = ["JAVA_HOME=" +:+ dq +:+ "/opt/" +:+ ("openjdk-" +:+ "17") +:+ dq] /\
    lines_with "export JAVA_HOME=" etc_profile (host s2)
    = ["export JAVA_HOME=/opt/" +:+ ("openjdk-" +:+ "21")].
Proof.
  apply (java_upgrade_then_rollback Demo.world_ok (Demo.start Demo.host_17) "21"
           (javaUrl Demo.cfg_21) Demo.jdk_21.2 "17" "jdk 17").
  - intros n. reflexivity.
  - reflexivity.
  - reflexivity.
  - discriminate.
  - vm_compute. reflexivity.
  - vm_compute. reflexivity.
  - vm_compute. reflexivity.
  - vm_compute. reflexivity.
Defined.

(** ** upgrade.js: the result of upgradeTomcat *)

(** `split("\n")` of a listing gives back the listed names when no name
    holds a newline. *)
Lemma contains_nl_cons c x :
  contains nl (String c x) = false ->
  Ascii.eqb c (Ascii.Ascii false true false true false false false false) = false /\
  contains nl x = false.
Proof.
  cbn [contains]. intros [H1 H2]%orb_false_elim. split; [|exact H2].
  unfold nl in H1. cbn [String.prefix] in H1.
  destruct (Ascii.eqb c _) eqn:E; [|done].
  apply Ascii.eqb_eq in E. subst c. cbn in H1. by destruct x.
Qed.

Lemma split_lines_aux_plain cur x :
  contains nl x = false -> split_lines_aux cur x = [cur +:+ x].
Proof.
  revert cur. induction x as [|c x IH]; intros cur H.
  - by rewrite append_empty_r.
  - apply contains_nl_cons in H as [Hc Hx]. cbn [split_lines_aux]. rewrite Hc.
    rewrite (IH _ Hx), append_assoc_str. reflexivity.
Qed.

Lemma split_lines_aux_line cur x rest :
  contains nl x = false ->
  split_lines_aux cur (x +:+ nl +:+ rest) = (cur +:+ x) :: split_lines_aux EmptyString rest.
Proof.
  revert cur. induction x as [|c x IH]; intros cur H.
  - rewrite append_empty_r. reflexivity.
  - apply contains_nl_cons in H as [Hc Hx]. rewrite app_cons. cbn [split_lines_aux].
    rewrite Hc, (IH _ Hx), append_assoc_str. reflexivity.
Qed.

Lemma split_join_lines (l : list string) :
  l <> [] -> (forall x, x ∈ l -> contains nl x = false) ->
  split_lines (join_lines l) = l.
Proof.
  unfold split_lines. induction l as [|x l IH]; [done|]. intros _ H.
  destruct l as [|y l].
  - cbn [join_lines]. rewrite split_lines_aux_plain; [done|]. apply H. by left.
  - change (join_lines (x :: y :: l)) with (x +:+ nl +:+ join_lines (y :: l)).
    rewrite split_lines_aux_line by (apply H; by left).
    rewrite IH; [done|done|]. intros z Hz. apply H. by right.
Qed.

Lemma join_lines_nonempty (l : list string) :
  l <> [] -> (forall x, x ∈ l -> nonempty x = true) -> nonempty (join_lines l) = true.
Proof.
  destruct l as [|x l]; [done|]. intros _ H.
  assert (nonempty x = true) as Hx by (apply H; by left).
  destruct l; cbn [join_lines]; [done|]. by apply nonempty_app.
Qed.

(** Steps of a function that rejects as soon as one command fails: what
    holds when it returns is proved along the commands that succeeded. *)
Lemma wp_frame_cond {X A B} (f : Host -> X) (m : M A) (K : A -> M B) W s
    (Q : Outcome B -> Proc -> Prop) :
  wp m W s (fun o s' => forall a, o = Ret a -> f (host s') = f (host s)) ->
  (forall e s', Q (Throw e) s') -> (forall c s', Q (Exit c) s') ->
  (forall a s', f (host s') = f (host s) -> wp (K a) W s' Q) ->
  wp (bind m K) W s Q.
Proof.
  intros Hm Ht He HK. apply wp_bind. unfold wp in *.
  destruct (m W s) as [[a|e|c] s']; cbn [fst snd] in *; [|apply Ht|apply He].
  apply HK. by apply (Hm a).
Qed.

Lemma wp_frame {X A B} (f : Host -> X) (m : M A) (K : A -> M B) W s
    (Q : Outcome B -> Proc -> Prop) :
  keeps f m ->
  (forall e s', Q (Throw e) s') -> (forall c s', Q (Exit c) s') ->
  (forall a s', f (host s') = f (host s) -> wp (K a) W s' Q) ->
  wp (bind m K) W s Q.
Proof.
  intros Hk. apply wp_frame_cond. unfold wp. intros a _. apply Hk.
Qed.

Lemma wp_ok_step {B} c (K : string -> M B) W s (Q : Outcome B -> Proc -> Prop) :
  (forall e s', Q (Throw e) s') ->
  (forall s1, ok (sh_eval (net W) c (host s)) = true ->
              host s1 = hst (sh_eval (net W) c (host s)) ->
              wp (K (out (sh_eval (net W) c (host s)))) W s1 Q) ->
  wp (bind (Upgrade.runCommand c) K) W s Q.
Proof.
  intros Ht HK. apply wp_bind. apply wp_runCommand.
  - intros _. apply Ht.
  - intros _ _. apply Ht.
  - intros _ Hok. by apply HK.
Qed.

Lemma wp_then {A B} (R : Proc -> Prop) (m : M A) (K : A -> M B) W s
    (Q : Outcome B -> Proc -> Prop) :
  wp m W s (fun o s' => forall a, o = Ret a -> R s') ->
  (forall e s', Q (Throw e) s') -> (forall c s', Q (Exit c) s') ->
  (forall a s', R s' -> wp (K a) W s' Q) ->
  wp (bind m K) W s Q.
Proof.
  intros Hm Ht He HK. apply wp_bind. unfold wp in *.
  destruct (m W s) as [[a|e|c] s']; cbn [fst snd] in *; [|apply Ht|apply He].
  apply HK. by apply (Hm a).
Qed.

Lemma createBackup_keeps_units a b : keeps units (Upgrade.createBackup a b).
Proof.
  unfold Upgrade.createBackup.
  repeat first [keeps_step | apply keeps_runCommand, sh_keeps_units; cbn; tauto].
Qed.

Lemma ensureTomcatUserAndGroup_keeps_units : keeps units Upgrade.ensureTomcatUserAndGroup.
Proof.
  unfold Upgrade.ensureTomcatUserAndGroup.
  repeat first [keeps_step | apply keeps_runCommand, sh_keeps_units; cbn; tauto].
Qed.

Lemma wp_skip {A B} (m : M A) (K : A -> M B) W s (Q : Outcome B -> Proc -> Prop) :
  (forall e s', Q (Throw e) s') -> (forall c s', Q (Exit c) s') ->
  (forall a s', wp (K a) W s' Q) ->
  wp (bind m K) W s Q.
Proof.
  intros Ht He HK. apply wp_bind. unfold wp in *.
  destruct (m W s) as [[a|e|c] s']; cbn [fst snd] in *; [apply HK|apply Ht|apply He].
Qed.

(** The download step of an upgrade returns only when wget succeeded: its
    handler rolls back and rejects again. *)
Lemma download_keeps_units W s url file msg (j : option string * option string -> option string) :
  wp (try_catch
        (Upgrade.runCommand (Run (Wget url file)) ;; ret tt)
        (fun error =>
           console_error msg ;;
           cur <- Upgrade.getCurrentVersions ;;
           Upgrade.rollbackUpgrade (j cur) cur.2 ;;
           throw error)) W s
     (fun o s' => forall a, o = Ret a -> units (host s') = units (host s)).
Proof.
  apply wp_try, wp_bind, wp_runCommand.
  1: intros _. 2: intros _ _.
  1,2: apply wp_bind, wp_print; cbv beta iota;
       (apply wp_skip; [discriminate|discriminate|intros cur s1]);
       (apply wp_skip; [discriminate|discriminate|intros ? s2]); apply wp_throw; discriminate.
  intros _ _. wp_go. intros _ _. by destruct (net W url).
Qed.

(** The loop over the old unit files. *)
Lemma remove_old_units W (l : list string) s (Q : Outcome unit -> Proc -> Prop) :
  (forall e s', Q (Throw e) s') ->
  (forall s', host s' = set_units (foldl (fun u x => delete x u) (units (host s)) l) (host s) ->
              Q (Ret tt) s') ->
  wp (for_each l (fun oldService =>
        console_log ("Removing old Tomcat service file: /etc/systemd/system/" +:+ oldService) ;;
        Upgrade.runCommand (Run (RmFUnit oldService)) ;;
        ret tt)) W s Q.
Proof.
  intros Ht. revert s. induction l as [|x l IH]; intros s HQ.
  - apply wp_ret, HQ. by destruct (host s).
  - cbn [for_each]. apply wp_bind, wp_bind, wp_print. cbv beta iota.
    apply wp_ok_step; [intros; apply Ht|]. intros s1 _ Hs1.
    apply wp_ret. cbv beta iota. apply IH. intros s' Hs'. apply HQ.
    rewrite Hs', Hs1. hsimpl. reflexivity.
Qed.

Lemma foldl_delete_lookup (l : list string) (u : gmap string string) k :
  foldl (fun u x => delete x u) u l !! k = if bool_decide (k ∈ l) then None else u !! k.
Proof.
  revert u. induction l as [|x l IH]; intros u; [done|].
  cbn [foldl]. rewrite IH. destruct (decide (k = x)) as [->|Hne].
  - rewrite lookup_delete_eq. rewrite (bool_decide_eq_true_2 (x ∈ x :: l)) by left.
    by destruct (bool_decide (x ∈ l)).
  - rewrite lookup_delete_ne by done.
    apply (f_equal (fun b : bool => if b then None else u !! k)).
    apply bool_decide_ext. rewrite elem_of_cons. tauto.
Qed.

Lemma list_old_units net pat excl h :
  hst (sh_eval net (Or (Run (LsUnitsOld pat excl)) True_) h) = h /\
  out (sh_eval net (Or (Run (LsUnitsOld pat excl)) True_) h)
  = join_lines (grep_v excl (grep pat (names_of (units h)))).
Proof.
  cbn [sh_eval prim_exec ok hst out].
  by destruct (grep_v excl (grep pat (names_of (units h)))).
Qed.

(** A pattern matches wherever it occurs as it is written. *)
Lemma dots_prefix_literal p s : String.prefix p s = true -> dots_prefix p s = true.
Proof.
  revert s. induction p as [|a p IH]; intros s H; [by destruct s|].
  destruct s as [|c s]; [discriminate|].
  cbn [String.prefix] in H. destruct (ascii_dec a c) as [->|]; [|discriminate].
  cbn [dots_prefix]. rewrite Ascii.eqb_refl, orb_true_r. cbn [andb]. by apply IH.
Qed.

Lemma dots_match_literal p s : contains p s = true -> dots_match p s = true.
Proof.
  induction s as [|c s IH]; cbn [contains dots_match].
  - intros [H|H]%orb_prop; [|done]. by rewrite dots_prefix_literal.
  - intros [H|H]%orb_prop; [by rewrite dots_prefix_literal|].
    rewrite (IH H). apply orb_true_r.
Qed.

Lemma old_units_spec (U : gmap string string) pat excl k :
  k ∈ grep_v excl (grep pat (names_of U))
  <-> dots_match excl k = false /\ contains pat k = true /\ is_Some (U !! k).
Proof.
  unfold grep_v, grep. rewrite !list_elem_of_filter, names_of_spec. tauto.
Qed.

Lemma old_units_removed (U0 : gmap string string) uf content pat excl :
  dots_match excl uf = true ->
  let U := <[uf := content]> U0 in
  let U' := foldl (fun u x => delete x u) U (grep_v excl (grep pat (names_of U))) in
  U' !! uf = Some content /\
  (forall k, k <> uf ->
     U' !! k = if contains pat k && negb (dots_match excl k) then None else U0 !! k).
Proof.
  intros Huf. cbv zeta. split.
  - rewrite foldl_delete_lookup. rewrite bool_decide_eq_false_2.
    + apply lookup_insert_eq.
    + rewrite old_units_spec. intros (H & _). congruence.
  - intros k Hk. rewrite foldl_delete_lookup.
    case_bool_decide as Hin.
    + apply old_units_spec in Hin as (-> & -> & _). done.
    + rewrite old_units_spec in Hin. rewrite lookup_insert_ne in * by done.
      destruct (contains pat k) eqn:E1, (dots_match excl k) eqn:E2; cbn [andb negb]; try done.
      destruct (U0 !! k) eqn:E3; [|congruence].
      exfalso. apply Hin. done.
Qed.

Lemma upgradeTomcat_returns W s v u jv :
  (forall k, is_Some (units (host s) !! k) -> contains nl k = false) ->
  wp (Upgrade.upgradeTomcat v u jv) W s (fun o s' =>
    o = Ret tt ->
    units (host s') !! unit_file ("tomcat-" +:+ v)
    = Some (service_unit v ("/opt/openjdk-" +:+ jv) ("/opt/" +:+ ("tomcat-" +:+ v))) /\
    (forall k, k <> unit_file ("tomcat-" +:+ v) ->
       units (host s') !! k
       = if contains "tomcat-" k && negb (dots_match ("tomcat-" +:+ v) k)
         then None else units (host s) !! k) /\
    is_Some (opt (host s') !! ("tomcat-" +:+ v)) /\
    has_user (host s') = true /\ has_group (host s') = true /\
    "tomcat-" +:+ v ∈ procs (host s')).
Proof.
  intros Hnl. unfold Upgrade.upgradeTomcat. cbv zeta. apply wp_try.
  match goal with |- wp _ _ _ ?Q0 => set (Q := Q0) end.
  assert (forall e s', Q (Throw e) s') as Ht.
  { intros e s'. unfold Q. apply wp_bind, wp_print. cbv beta iota. apply wp_throw. discriminate. }
  assert (forall c s', Q (Exit c) s') as He by (intros c s'; unfold Q; discriminate).
  assert (forall s', 
    (units (host s') !! unit_file ("tomcat-" +:+ v)
    = Some (service_unit v ("/opt/openjdk-" +:+ jv) ("/opt/" +:+ ("tomcat-" +:+ v))) /\
    (forall k, k <> unit_file ("tomcat-" +:+ v) ->
       units (host s') !! k
       = if contains "tomcat-" k && negb (dots_match ("tomcat-" +:+ v) k)
         then None else units (host s) !! k) /\
    is_Some (opt (host s') !! ("tomcat-" +:+ v)) /\
    has_user (host s') = true /\ has_group (host s') = true /\
    "tomcat-" +:+ v ∈ procs (host s')) -> Q (Ret tt) s') as HQ.
  { intros s' H. unfold Q. intros _. exact H. }
  clearbody Q.
  (* up to the unit file: the unit files are not touched *)
  apply (wp_frame units); [apply keeps_runCommand, sh_keeps_units; cbn; tauto|done|done|].
  intros _ s1 Hu1.
  apply (wp_frame units); [apply keeps_runCommand, sh_keeps_units; cbn; tauto|done|done|].
  intros existingTomcat s2 Hu2. rewrite Hu1 in Hu2. clear s1 Hu1.
  apply (wp_frame units); [|done|done|].
  { destruct (nonempty existingTomcat); keeps_go;
      first [apply createBackup_keeps_units | apply keeps_runCommand, sh_keeps_units; cbn; tauto]. }
  intros _ s3 Hu3. rewrite Hu2 in Hu3. clear s2 Hu2.
  apply wp_bind, wp_print. cbv beta iota.
  apply (wp_frame_cond units);
    [apply (download_keeps_units _ _ _ _ _ (fun cur => cur.1))|done|done|].
  intros _ s4 Hu4. hsimpl. rewrite Hu3 in Hu4. clear s3 Hu3.
  apply (wp_frame units); [apply keeps_runCommand, sh_keeps_units; cbn; tauto|done|done|].
  intros _ s5 Hu5. rewrite Hu4 in Hu5. clear s4 Hu4.
  apply (wp_frame units); [apply keeps_runCommand, sh_keeps_units; cbn; tauto|done|done|].
  intros extractedFolder s6 Hu6. rewrite Hu5 in Hu6. clear s5 Hu5.
  apply (wp_frame units); [|done|done|].
  { destruct (nonempty extractedFolder); keeps_go;
      apply keeps_runCommand, sh_keeps_units; cbn; tauto. }
  intros _ s7 Hu7. rewrite Hu6 in Hu7. clear s6 Hu6.
  apply (wp_frame units); [apply keeps_runCommand, sh_keeps_units; cbn; tauto|done|done|].
  intros _ s8 Hu8. rewrite Hu7 in Hu8. clear s7 Hu7.
  apply (wp_frame units); [apply ensureTomcatUserAndGroup_keeps_units|done|done|].
  intros _ s9 Hu9. rewrite Hu8 in Hu9. clear s8 Hu8.
  apply (wp_frame units); [apply keeps_runCommand, sh_keeps_units; cbn; tauto|done|done|].
  intros _ s10 Hu10. rewrite Hu9 in Hu10. clear s9 Hu9.
  apply (wp_frame units); [apply keeps_runCommand, sh_keeps_units; cbn; tauto|done|done|].
  intros _ s11 Hu11. rewrite Hu10 in Hu11. clear s10 Hu10.
  apply (wp_frame units); [apply keeps_runCommand, sh_keeps_units; cbn; tauto|done|done|].
  intros _ s12 Hu12. rewrite Hu11 in Hu12. clear s11 Hu11.
  apply wp_bind, wp_print. cbv beta iota.
  assert (units (host (say Stdout "Creating Tomcat systemd service..." s12))
          = units (host s)) as Hu0 by exact Hu12.
  generalize dependent (say Stdout "Creating Tomcat systemd service..." s12).
  clear s12 Hu12. intros s0 Hu0.
  (* the unit file *)
  apply wp_ok_step; [done|]. intros s1 _ Hs1. hsimpl.
  apply wp_ok_step; [done|]. intros s2 _ Hs2. hsimpl. rewrite Hs1 in Hs2. clear s1 Hs1.
  apply wp_ok_step; [done|]. intros s3 _ Hs3. hsimpl. rewrite Hs2 in Hs3. clear s2 Hs2.
  (* the account *)
  apply (wp_then (fun s' => host s' = set_user true (set_group true (host s3))));
    [|done|done|].
  { eapply wp_mono; [apply ensureTomcatUserAndGroup_host|]. intros o s' H [] ->. by apply H. }
  intros _ s4 Hs4. rewrite Hs3 in Hs4. clear s3 Hs3. hsimpl.
  (* ownership and modes *)
  apply wp_ok_step; [done|]. intros s5 Hok5 Hs5. hsimpl. rewrite Hs4 in Hs5, Hok5. hsimpl.
  clear s4 Hs4.
  apply wp_ok_step; [done|]. intros s6 _ Hs6. hsimpl. rewrite Hs5 in Hs6. clear s5 Hs5.
  apply wp_ok_step; [done|]. intros s7 _ Hs7. hsimpl. rewrite Hs6 in Hs7. clear s6 Hs6.
  destruct (opt (host s0) !! ("tomcat-" +:+ v)) as [pd|] eqn:Hd; [clear Hok5|discriminate].
  (* restart *)
  apply wp_ok_step; [done|]. intros s8 _ Hs8. rewrite Hs7 in Hs8. hsimpl.
  unfold exists_in in Hs8. hsimpl. rewrite Hd in Hs8. hsimpl. clear s7 Hs7.
  apply wp_ok_step; [done|]. intros s9 _ Hs9. rewrite Hs8 in Hs9. hsimpl.
  unfold exists_in in Hs9. hsimpl. rewrite Hd in Hs9. hsimpl. clear s8 Hs8.
  apply wp_bind, wp_print. cbv beta iota. apply wp_bind, wp_print. cbv beta iota.
  (* the old unit files *)
  apply wp_ok_step; [done|]. intros s10 _ Hs10.
  destruct (list_old_units (net W) "tomcat-" ("tomcat-" +:+ v)
              (host (say Stdout "Checking for old Tomcat service files..."
                       (say Stdout ("Tomcat " +:+ v +:+ " upgraded successfully.") s9))))
    as [Hh Hout].
  rewrite Hh in Hs10. rewrite Hout. clear Hh Hout. hsimpl. rewrite Hs9 in Hs10.
  rewrite Hs9. hsimpl. clear s9 Hs9.
  set (uf := unit_file ("tomcat-" +:+ v)) in *.
  set (content := service_unit v ("/opt/openjdk-" +:+ jv) ("/opt/" +:+ "tomcat-" +:+ v)) in *.
  assert (dots_match ("tomcat-" +:+ v) uf = true) as Huf
    by apply dots_match_literal, contains_app.
  destruct (old_units_removed (units (host s0)) uf content "tomcat-" ("tomcat-" +:+ v) Huf)
    as [Hnew Hold].
  set (l := grep_v ("tomcat-" +:+ v) (grep "tomcat-" (names_of (<[uf := content]> (units (host s0))))))
    in *.
  assert (forall s', host s' = set_units (foldl (fun u x => delete x u)
                                            (<[uf := content]> (units (host s0))) l) (host s10) ->
                     Q (Ret tt) s') as Hend.
  { intros s' Hs'. apply HQ. rewrite Hs'.
    cbn [units opt has_user has_group procs set_units].
    split; [exact Hnew|]. split; [intros k Hk; rewrite <- Hu0; by apply Hold|]. rewrite Hs10.
    cbn [units opt has_user has_group procs set_units set_user set_group set_procs].
    rewrite Hd. split; [by eexists|]. split; [reflexivity|]. split; [reflexivity|].
    apply elem_of_union_l, elem_of_singleton. reflexivity. }
  clear HQ Hnew Hold.
  destruct l as [|x l0] eqn:El.
  { hsimpl. apply wp_ret, Hend. rewrite Hs10. reflexivity. }
  rewrite <- El in *.
  assert (forall y, y ∈ l -> contains "tomcat-" y = true /\ contains nl y = false) as Hl.
  { intros y Hy. apply old_units_spec in Hy as (Hex & Hpat & Hin). split; [done|].
    apply Hnl. rewrite <- Hu0. rewrite lookup_insert_ne in Hin; [done|].
    intros <-. congruence. }
  assert (l <> []) as Hne by (rewrite El; done).
  rewrite join_lines_nonempty;
    [|exact Hne|intros y Hy; apply (contains_nonempty "tomcat-"); [done|by apply Hl]].
  rewrite split_join_lines; [|exact Hne|intros y Hy; by apply Hl].
  apply wp_bind, remove_old_units.
  { intros e s'. apply Ht. }
  intros s11 Hs11. cbv beta iota.
  apply wp_ok_step; [done|]. intros s12 _ Hs12. hsimpl. apply wp_ret, Hend.
  rewrite Hs12, Hs11, Hs10. reflexivity.
Qed.

(** X18 (upgrade.js, upgradeTomcat): when upgradeTomcat returns normally on
    a host whose unit file names hold no newline, the unit file
    tomcat-<version>.service holds the unit written for the new directory
    and for the JDK of the descriptor; every other unit file is as before
    or, if its name contains tomcat-, removed; /opt/tomcat-<version>
    exists, the tomcat user and group exist, and Tomcat has been started
    from the new directory. *)
Theorem upgradeTomcat_result W s v u jv s' :
  (forall k, is_Some (units (host s) !! k) -> contains nl k = false) ->
  Upgrade.upgradeTomcat v u jv W s = (Ret tt, s') ->
  units (host s') !! unit_file ("tomcat-" +:+ v)
  = Some (service_unit v ("/opt/openjdk-" +:+ jv) ("/opt/" +:+ ("tomcat-" +:+ v))) /\
  (forall k, k <> unit_file ("tomcat-" +:+ v) ->
     units (host s') !! k = units (host s) !! k \/
     contains "tomcat-" k = true /\ units (host s') !! k = None) /\
  is_Some (opt (host s') !! ("tomcat-" +:+ v)) /\
  has_user (host s') = true /\ has_group (host s') = true /\
  "tomcat-" +:+ v ∈ procs (host s').
Proof.
  intros Hnl E. pose proof (upgradeTomcat_returns W s v u jv Hnl) as H.
  unfold wp in H. rewrite E in H. cbn [fst snd] in H. destruct (H eq_refl) as (H1 & H2 & H3).
  split; [exact H1|]. split; [|exact H3].
  intros k Hk. rewrite (H2 k Hk).
  destruct (contains "tomcat-" k); cbn [andb]; [|by left].
  destruct (dots_match ("tomcat-" +:+ v) k); cbn [negb]; [by left|by right].
Qed.

(** The upgrade of Tomcat 9.0.1 to 10.1.34 on the host of the examples. *)
Lemma upgradeTomcat_result_witness :
  let s' := (Upgrade.upgradeTomcat "10.1.34" (tomcatUrl Demo.cfg_21) "21"
               Demo.world_ok (Demo.start Demo.host_17)).2 in
  units (host s') !! unit_file ("tomcat-" +:+ "10.1.34")
  = Some (service_unit "10.1.34" ("/opt/openjdk-" +:+ "21")
            ("/opt/" +:+ ("tomcat-" +:+ "10.1.34"))) /\
  (forall k, k <> unit_file ("tomcat-" +:+ "10.1.34") ->
     units (host s') !! k = units (host (Demo.start Demo.host_17)) !! k \/
     contains "tomcat-" k = true /\ units (host s') !! k = None) /\
  is_Some (opt (host s') !! ("tomcat-" +:+ "10.1.34")) /\
  has_user (host s') = true /\ has_group (host s') = true /\
  "tomcat-" +:+ "10.1.34" ∈ procs (host s').
Proof.
  intros s'.
  apply (upgradeTomcat_result Demo.world_ok (Demo.start Demo.host_17) "10.1.34"
           (tomcatUrl Demo.cfg_21) "21" s').
  - intros k [x Hk]. unfold Demo.start, Demo.host_17 in Hk. cbn [host units] in Hk.
    apply lookup_singleton_Some in Hk as [<- _]. reflexivity.
  - subst s'.
    set (r := Upgrade.upgradeTomcat "10.1.34" (tomcatUrl Demo.cfg_21) "21"
                Demo.world_ok (Demo.start Demo.host_17)).
    assert (r.1 = Ret tt) as H1 by (vm_compute; reflexivity).
    clearbody r. destruct r as [o s1]. cbn [fst snd] in *. by rewrite H1.
Defined.

(** ** upgrade.js: what the success line of upgrade() stands for *)

Lemma wp_bind_quiet {A B} (R : A -> Proc -> Prop) (m : M A) (K : A -> M B) W s
    (Q : Outcome B -> Proc -> Prop) :
  quiet m ->
  wp m W s (fun o s' => forall a, o = Ret a -> R a s') ->
  (forall e s', Q (Throw e) s') ->
  (forall a s', R a s' -> wp (K a) W s' Q) ->
  wp (bind m K) W s Q.
Proof.
  intros Hq Hm Ht HK. apply wp_bind. unfold wp in *. pose proof (Hq W s) as Hq'.
  destruct (m W s) as [[a|e|c] s']; cbn [fst snd] in *; [|apply Ht|by destruct (Hq' c)].
  apply HK. by apply Hm.
Qed.

Lemma wp_frame_quiet {X A B} (f : Host -> X) (m : M A) (K : A -> M B) W s
    (Q : Outcome B -> Proc -> Prop) :
  keeps f m -> quiet m ->
  (forall e s', Q (Throw e) s') ->
  (forall a s', f (host s') = f (host s) -> wp (K a) W s' Q) ->
  wp (bind m K) W s Q.
Proof.
  intros Hk Hq Ht HK.
  apply (wp_bind_quiet (fun _ s' => f (host s') = f (host s))); try done.
  unfold wp. intros a _. apply Hk.
Qed.

Lemma getCurrentVersions_keeps_units : keeps units Upgrade.getCurrentVersions.
Proof.
  unfold Upgrade.getCurrentVersions.
  repeat first [keeps_step | apply keeps_runCommand, sh_keeps_units; cbn; tauto].
Qed.

Ltac units_kept :=
  first [ apply keeps_runCommand, sh_keeps_units; cbn; tauto
        | apply createBackup_keeps_units
        | apply ensureTomcatUserAndGroup_keeps_units ].

Ltac frame_units Hu :=
  let H := fresh "Hu" in
  first
    [ apply wp_bind, wp_print; cbv beta iota
    | apply (wp_frame units);
      [ first [ units_kept
              | match goal with |- keeps _ (if ?b then _ else _) => destruct b end;
                repeat first [keeps_step | units_kept] ]
      | done | done
      | intros ? ? H; cbn [host say] in H; rewrite Hu in H; clear Hu; rename H into Hu ] ].

(** upgradeJava returns only with the unit files as they were. *)
Lemma upgradeJava_units v u W s :
  wp (Upgrade.upgradeJava v u) W s (fun o s' =>
    forall b, o = Ret b -> units (host s') = units (host s)).
Proof.
  unfold Upgrade.upgradeJava. cbv zeta. apply wp_try.
  match goal with |- wp _ _ _ ?Q0 => set (Q := Q0) end.
  assert (forall e s', Q (Throw e) s') as Ht.
  { intros e s'. unfold Q. apply wp_bind, wp_print. cbv beta iota. apply wp_throw. discriminate. }
  assert (forall c s', Q (Exit c) s') as He by (intros c s'; unfold Q; discriminate).
  assert (forall b s', units (host s') = units (host s) -> Q (Ret b) s') as HQ.
  { intros b s' H. unfold Q. intros _ _. exact H. }
  clearbody Q.
  assert (units (host s) = units (host s)) as Hu by reflexivity.
  revert Hu. generalize s at 1 3. intros s0 Hu.
  do 5 frame_units Hu.
  apply (wp_frame_cond units);
    [apply (download_keeps_units _ _ _ _ _ (fun _ => Some v))|done|done|].
  intros _ s1 Hu1. cbn [host say] in Hu1. rewrite Hu in Hu1. clear Hu s0.
  do 7 frame_units Hu1.
  apply wp_ret, HQ, Hu1.
Qed.

(** validateUpgradeConditions keeps the unit files, and stops the process
    only after a line on stderr. *)
Lemma validateUpgradeConditions_outcome j t W s :
  wp (Upgrade.validateUpgradeConditions j t) W s (fun o s' =>
    match o with
    | Ret _ => units (host s') = units (host s)
    | Throw _ => True
    | Exit _ => exists m, last (console s') = Some (Stderr, m)
    end).
Proof.
  unfold Upgrade.validateUpgradeConditions. apply wp_bind.
  pose proof (getCurrentVersions_keeps_units W s) as Hu.
  destruct (resolves_getCurrentVersions W s) as [cur Hcur].
  unfold wp at 1. destruct (Upgrade.getCurrentVersions W s) as [o s1].
  cbn [fst snd] in *. subst o.
  destruct (same j cur.1), (same t cur.2); cbn [andb]; wp_go;
    first [exact Hu | eexists; apply last_snoc].
Qed.

Lemma wp_after_resolves {B} (m : M unit) (K : unit -> M B) W s
    (Q : Outcome B -> Proc -> Prop) :
  resolves m -> (forall s', wp (K tt) W s' Q) -> wp (bind m K) W s Q.
Proof.
  intros Hr HK. apply wp_bind. destruct (resolves_unit m W s Hr) as [s' E].
  unfold wp at 1. rewrite E. apply HK.
Qed.

(** X19 (upgrade.js, upgrade): upgrade() ends in one of two ways, with the
    line `Upgrade completed successfully.` printed last or with a line on
    stderr printed last.  When it ends with the success line, on a host
    whose unit file names hold no newline, the descriptor was read and
    Tomcat is upgraded to its version: the unit file
    tomcat-<version>.service holds the unit written for the new directory
    and the JDK of the descriptor, every other unit file is as before or, if
    its name contains tomcat-, removed, /opt/tomcat-<version> exists and
    Tomcat has been started from it. *)
Theorem upgrade_success_line_is_earned W s o s' :
  Upgrade.upgrade W s = (o, s') ->
  (last (console s') = Some (Stdout, "Upgrade completed successfully.") \/
   exists m, last (console s') = Some (Stderr, m)) /\
  ((forall k, is_Some (units (host s) !! k) -> contains nl k = false) ->
   last (console s') = Some (Stdout, "Upgrade completed successfully.") ->
   exists cfg,
     upgrade_cfg (host s) = Some cfg /\
     units (host s') !! unit_file ("tomcat-" +:+ tomcatVersion cfg)
     = Some (service_unit (tomcatVersion cfg) ("/opt/openjdk-" +:+ javaVersion cfg)
               ("/opt/" +:+ ("tomcat-" +:+ tomcatVersion cfg))) /\
     (forall k, k <> unit_file ("tomcat-" +:+ tomcatVersion cfg) ->
        units (host s') !! k = units (host s) !! k \/
        contains "tomcat-" k = true /\ units (host s') !! k = None) /\
     is_Some (opt (host s') !! ("tomcat-" +:+ tomcatVersion cfg)) /\
     "tomcat-" +:+ tomcatVersion cfg ∈ procs (host s')).
Proof.
  intros E.
  set (Hnl := forall k, is_Some (units (host s) !! k) -> contains nl k = false).
  assert (wp Upgrade.upgrade W s (fun _ s' =>
    (last (console s') = Some (Stdout, "Upgrade completed successfully.") /\
     (Hnl ->
      exists cfg,
      upgrade_cfg (host s) = Some cfg /\
      units (host s') !! unit_file ("tomcat-" +:+ tomcatVersion cfg)
      = Some (service_unit (tomcatVersion cfg) ("/opt/openjdk-" +:+ javaVersion cfg)
                ("/opt/" +:+ ("tomcat-" +:+ tomcatVersion cfg))) /\
      (forall k, k <> unit_file ("tomcat-" +:+ tomcatVersion cfg) ->
         units (host s') !! k
         = if contains "tomcat-" k && negb (dots_match ("tomcat-" +:+ tomcatVersion cfg) k)
           then None else units (host s) !! k) /\
      is_Some (opt (host s') !! ("tomcat-" +:+ tomcatVersion cfg)) /\
      "tomcat-" +:+ tomcatVersion cfg ∈ procs (host s'))) \/
    (exists m, last (console s') = Some (Stderr, m)))) as H.
  2:{ unfold wp in H. rewrite E in H. cbn [fst snd] in H.
      destruct H as [[Hl H]|[m Hm]].
      - split; [by left|]. intros Hn _.
        destruct (H Hn) as (cfg & Hc & H1 & H2 & H3).
        exists cfg. split; [exact Hc|]. split; [exact H1|]. split; [|exact H3].
        intros k Hk. rewrite (H2 k Hk).
        destruct (contains "tomcat-" k); cbn [andb]; [|by left].
        destruct (dots_match ("tomcat-" +:+ tomcatVersion cfg) k); cbn [negb];
          [by left|by right].
      - split; [right; by exists m|]. intros _ Hl. rewrite Hm in Hl. discriminate. }
  clear E s' o.
  unfold Upgrade.upgrade. apply wp_try.
  match goal with |- wp _ _ _ ?Q0 => set (Q := Q0) end.
  assert (forall s', (exists m, last (console s') = Some (Stderr, m)) -> Q (Ret tt) s') as Hr.
  { intros s' Hm. unfold Q. by right. }
  assert (forall c s', (exists m, last (console s') = Some (Stderr, m)) -> Q (Exit c) s') as He.
  { intros c s' Hm. unfold Q. by right. }
  assert (forall e s', Q (Throw e) s') as Ht.
  { intros e s'. unfold Q. apply wp_print. right. eexists. apply last_snoc. }
  apply wp_bind, wp_print. cbv beta iota.
  unfold Upgrade.readUpgradeConfiguration. apply wp_bind, wp_try, wp_bind, wp_get_host.
  cbn [host say]. destruct (upgrade_cfg (host s)) as [cfg|] eqn:Hcfg.
  2:{ apply wp_throw. apply wp_bind, wp_print. cbv beta iota. apply wp_throw, Ht. }
  apply wp_ret.
  assert (forall s',
    last (console s') = Some (Stdout, "Upgrade completed successfully.") ->
    (Hnl ->
     units (host s') !! unit_file ("tomcat-" +:+ tomcatVersion cfg)
      = Some (service_unit (tomcatVersion cfg) ("/opt/openjdk-" +:+ javaVersion cfg)
                ("/opt/" +:+ ("tomcat-" +:+ tomcatVersion cfg))) /\
      (forall k, k <> unit_file ("tomcat-" +:+ tomcatVersion cfg) ->
         units (host s') !! k
         = if contains "tomcat-" k && negb (dots_match ("tomcat-" +:+ tomcatVersion cfg) k)
           then None else units (host s) !! k) /\
      is_Some (opt (host s') !! ("tomcat-" +:+ tomcatVersion cfg)) /\
      "tomcat-" +:+ tomcatVersion cfg ∈ procs (host s')) -> Q (Ret tt) s') as HQ.
  { intros s' Hl H. unfold Q. left. split; [exact Hl|]. intros Hn. exists cfg. split; [done|].
    by apply H. }
  clearbody Q.
  assert (units (host (say Stdout "Starting upgrade process..." s)) = units (host s)) as Hu
    by reflexivity.
  generalize dependent (say Stdout "Starting upgrade process..." s). intros s0 Hu.
  (* the versions and the comparison *)
  apply (wp_frame_quiet units);
    [apply getCurrentVersions_keeps_units
    |apply resolves_quiet, resolves_getCurrentVersions|done|].
  intros cur s1 Hu1. rewrite Hu in Hu1. clear s0 Hu.
  apply wp_bind. eapply wp_mono; [apply validateUpgradeConditions_outcome|].
  intros [[]|e|c] s2 Hu2; [|apply Ht|by apply He]. rewrite Hu1 in Hu2. clear s1 Hu1.
  (* Java *)
  unfold Upgrade.upgrade_components. apply wp_bind, wp_try.
  apply (wp_bind_quiet (fun _ s' => units (host s') = units (host s2)));
    [apply quiet_upgradeJava|apply upgradeJava_units| |].
  { intros e s'. apply wp_bind, wp_print. cbv beta iota. apply wp_ret, wp_ret, Hr.
    eexists. apply last_snoc. }
  intros javaUpgraded s3 Hu3. rewrite Hu2 in Hu3. clear s2 Hu2.
  apply wp_ret. cbv beta iota.
  (* Tomcat *)
  apply wp_try.
  match goal with |- wp _ _ _ ?Q0 => set (Qt := Q0) end.
  assert (forall e s', Qt (Throw e) s') as Htt.
  { intros e s'. unfold Qt. apply wp_bind, wp_print. cbv beta iota. apply wp_bind.
    destruct javaUpgraded.
    - apply wp_bind, wp_print. cbv beta iota.
      destruct (resolves_unit _ W (say Stdout
                  ("Rolling back Java " +:+ javaVersion cfg +:+ " to " +:+ tpl cur.1
                   +:+ " since Tomcat failed...")
                  (say Stderr "Tomcat upgrade failed. Rolling back..." s'))
                  (resolves_rollbackUpgrade cur.1 cur.2)) as [s'' E].
      unfold wp at 1. rewrite E. apply wp_throw, Ht.
    - apply wp_ret, wp_throw, Ht. }
  assert (forall s', Q (Ret tt) s' -> Qt (Ret tt) s') as Hqt by (intros s' H; exact H).
  clearbody Qt.
  apply (wp_bind_quiet (fun _ s' =>
    Hnl ->
    units (host s') !! unit_file ("tomcat-" +:+ tomcatVersion cfg)
      = Some (service_unit (tomcatVersion cfg) ("/opt/openjdk-" +:+ javaVersion cfg)
                ("/opt/" +:+ ("tomcat-" +:+ tomcatVersion cfg))) /\
      (forall k, k <> unit_file ("tomcat-" +:+ tomcatVersion cfg) ->
         units (host s') !! k
         = if contains "tomcat-" k && negb (dots_match ("tomcat-" +:+ tomcatVersion cfg) k)
           then None else units (host s) !! k) /\
      is_Some (opt (host s') !! ("tomcat-" +:+ tomcatVersion cfg)) /\
      "tomcat-" +:+ tomcatVersion cfg ∈ procs (host s')));
    [apply quiet_upgradeTomcat| |exact Htt|].
  { unfold wp. intros [] Ho Hn.
    pose proof (upgradeTomcat_returns W s3 (tomcatVersion cfg) (tomcatUrl cfg) (javaVersion cfg))
      as H.
    unfold wp in H. rewrite Ho in H.
    destruct H as (H1 & H2 & H3 & _ & _ & H6); [|done|].
    - intros k Hk. apply Hn. by rewrite <- Hu3.
    - rewrite Hu3 in H2. done. }
  intros _ s4 HP.
  apply wp_ok_step; [exact Htt|]. intros s5 _ Hs5. cbn [sh_eval prim_exec hst done_ok] in Hs5.
  apply wp_print, Hqt, HQ; [apply last_snoc|].
  cbn [host say]. rewrite Hs5. exact HP.
Qed.

(** The upgrade of the host of the examples to Java 21 and Tomcat 10.1.34. *)
Lemma upgrade_success_line_is_earned_witness :
  let s' := (Upgrade.upgrade Demo.world_ok (Demo.start Demo.host_17)).2 in
  (last (console s') = Some (Stdout, "Upgrade completed successfully.") \/
   exists m, last (console s') = Some (Stderr, m)) /\
  ((forall k, is_Some (units (host (Demo.start Demo.host_17)) !! k) -> contains nl k = false) ->
   last (console s') = Some (Stdout, "Upgrade completed successfully.") ->
   exists cfg,
     upgrade_cfg (host (Demo.start Demo.host_17)) = Some cfg /\
     units (host s') !! unit_file ("tomcat-" +:+ tomcatVersion cfg)
     = Some (service_unit (tomcatVersion cfg) ("/opt/openjdk-" +:+ javaVersion cfg)
               ("/opt/" +:+ ("tomcat-" +:+ tomcatVersion cfg))) /\
     (forall k, k <> unit_file ("tomcat-" +:+ tomcatVersion cfg) ->
        units (host s') !! k = units (host (Demo.start Demo.host_17)) !! k \/
        contains "tomcat-" k = true /\ units (host s') !! k = None) /\
     is_Some (opt (host s') !! ("tomcat-" +:+ tomcatVersion cfg)) /\
     "tomcat-" +:+ tomcatVersion cfg ∈ procs (host s')).
Proof.
  intros s'.
  apply (upgrade_success_line_is_earned Demo.world_ok (Demo.start Demo.host_17)
           (Upgrade.upgrade Demo.world_ok (Demo.start Demo.host_17)).1 s').
  subst s'. apply surjective_pairing.
Defined.
